(** * timeMCL: the TimeGrad forecasting network and its training orchestrator

    A shallow embedding of
    - [tsExperiments/models/project_models/timeGrad/timeGradNetwork.py]
      (class [PersonnalizedTimeGrad]) and
    - [tsExperiments/Estimator/pytorchLightingEstimator.py]
      (class [PyTorchLightningEstimator]).

    Tensors are a shape together with an indexing function; Python integers
    are [Z]; exceptions are values of [exn]; the collaborators that the two
    files import (scalers, diffusion head, recurrent cell, Lightning trainer)
    are the fields of two classes, [Collaborators] and [EstimatorEnv]. *)

From Stdlib Require Import ZArith Lia List String Bool.
From stdpp Require Import gmap strings list fin_maps.
From Stdlib Require Import Sorting.Sorted.

Open Scope string_scope.
Open Scope Z_scope.

(** ** Exceptions and fallible computations *)

Inductive exn : Type :=
  | AssertionError
  | ValueError (msg : string)
  | RuntimeError
  | IndexError
  | KeyError (key : string)
  | TypeError
  | NotImplementedError
  | AttributeError
  | ExternalError (code : nat).

Inductive res (A : Type) : Type :=
  | Ok (a : A)
  | Raise (e : exn).
Arguments Ok {A} a.
Arguments Raise {A} e.

Definition rbind {A B} (m : res A) (k : A -> res B) : res B :=
  match m with
  | Ok a => k a
  | Raise e => Raise e
  end.

Notation "'try' x <- m ; k" := (rbind m (fun x => k))
  (at level 10, x pattern, m at level 100, k at level 200,
   format "'[v' 'try'  x  <-  m ; '/' k ']'").

Definition is_ok {A} (r : res A) : bool :=
  match r with Ok _ => true | Raise _ => false end.

(** A Python [for] loop that builds a list and stops at the first raise. *)
Fixpoint rmap {A B} (f : A -> res B) (l : list A) : res (list B) :=
  match l with
  | [] => Ok []
  | x :: l' =>
      try y <- f x;
      try ys <- rmap f l';
      Ok (y :: ys)
  end.

(** ** Python built-ins *)

(** [max(xs)] on a list of integers; [None] stands for the [ValueError]
    that Python raises on an empty argument. *)
Definition pymax (xs : list Z) : option Z :=
  match xs with
  | [] => None
  | x :: xs' => Some (fold_left Z.max xs' x)
  end.

(** [list.sort()] on integers. *)
Fixpoint sort_insert (x : Z) (l : list Z) : list Z :=
  match l with
  | [] => [x]
  | y :: l' => if x <=? y then x :: l else y :: sort_insert x l'
  end.

Definition pysort (l : list Z) : list Z := fold_right sort_insert [] l.

(** [range(n)]: empty when [n <= 0]. *)
Definition pyrange (n : Z) : list Z :=
  map Z.of_nat (seq 0 (Z.to_nat n)).

(** Normalisation of one slice bound against a dimension of size [n]
    (CPython's [PySlice_AdjustIndices], step 1). *)
Definition adjust_index (n i : Z) : Z :=
  if i <? 0 then Z.max 0 (i + n) else Z.min i n.

(** Offset and length of [x[start:stop]] on a dimension of size [n];
    a [stop] of [None] means "to the end". *)
Definition slice_bounds (n : nat) (start : Z) (stop : option Z) : nat * nat :=
  let lo := adjust_index (Z.of_nat n) start in
  let hi := match stop with
            | Some e => adjust_index (Z.of_nat n) e
            | None => Z.of_nat n
            end in
  (Z.to_nat lo, Z.to_nat (hi - lo)).

Definition insert_at {A} (n : nat) (x : A) (l : list A) : list A :=
  take n l ++ x :: drop n l.

Definition remove_at {A} (n : nat) (l : list A) : list A :=
  take n l ++ drop (S n) l.

(** A dimension argument [d], possibly negative, against [r] admissible
    positions. *)
Definition norm_dim (r : nat) (d : Z) : res nat :=
  if (d <? - Z.of_nat r) || (Z.of_nat r <=? d) then Raise IndexError
  else Ok (Z.to_nat (if d <? 0 then d + Z.of_nat r else d)).

Definition list_eqb_nat (a b : list nat) : bool :=
  bool_decide (a = b).

(** ** Tensors *)

(** The element type (a float in the source) with the arithmetic the two
    files apply to it. *)
Class FloatOps (F : Type) : Type := {
  fone : F;
  fsub : F -> F -> F;
  fdiv : F -> F -> F;
  fmin : F -> F -> F
}.

Record tensor (F : Type) : Type := Tensor {
  shape : list nat;
  entry : list nat -> F
}.
Arguments Tensor {F} shape entry.
Arguments shape {F} t.
Arguments entry {F} t idx.

Section Torch.

Context {F : Type} {ops : FloatOps F}.
#[local] Abbreviation tensor := (tensor F).

Definition rank (t : tensor) : nat := length (shape t).
Definition dim_size (t : tensor) (d : nat) : nat := nth d (shape t) 0%nat.

(** [t[:, start:stop, ...]] *)
Definition slice_time (t : tensor) (start : Z) (stop : option Z) : res tensor :=
  match shape t with
  | n :: len :: rest =>
      let '(off, k) := slice_bounds len start stop in
      Ok {| shape := n :: k :: rest;
            entry := fun idx =>
              match idx with
              | b :: j :: r => entry t (b :: (off + j)%nat :: r)
              | _ => entry t idx
              end |}
  | _ => Raise IndexError
  end.

(** [t.unsqueeze(d)] *)
Definition unsqueeze (d : Z) (t : tensor) : res tensor :=
  try p <- norm_dim (S (rank t)) d;
  Ok {| shape := insert_at p 1%nat (shape t);
        entry := fun idx => entry t (remove_at p idx) |}.

(** [t.permute(dims)] for non-negative [dims]. *)
Definition is_perm (r : nat) (dims : list nat) : bool :=
  (length dims =? r)%nat
  && forallb (fun j => existsb (Nat.eqb j) dims) (seq 0 r).

Fixpoint index_of (j : nat) (dims : list nat) : nat :=
  match dims with
  | [] => 0%nat
  | d :: dims' => if (d =? j)%nat then 0%nat else S (index_of j dims')
  end.

Definition permute (dims : list nat) (t : tensor) : res tensor :=
  if is_perm (rank t) dims then
    Ok {| shape := map (fun p => dim_size t p) dims;
          entry := fun idx =>
            entry t (map (fun j => nth (index_of j dims) idx 0%nat)
                         (seq 0 (rank t))) |}
  else Raise RuntimeError.

(** [torch.cat(ts, dim)].  One-dimensional empty tensors are skipped (the
    library's legacy rule); the others must agree on every dimension but
    [dim]. *)
Definition cat_skip (t : tensor) : bool := list_eqb_nat (shape t) [0%nat].

Definition cat_compatible (d : nat) (t0 t : tensor) : bool :=
  list_eqb_nat (remove_at d (shape t0)) (remove_at d (shape t))
  && (rank t0 =? rank t)%nat.

Fixpoint cat_entry (d : nat) (t0 : tensor) (rest : list tensor)
    (idx : list nat) : F :=
  match rest with
  | [] => entry t0 idx
  | t1 :: rest' =>
      let j := nth d idx 0%nat in
      let n := dim_size t0 d in
      if (j <? n)%nat then entry t0 idx
      else cat_entry d t1 rest' (<[d := (j - n)%nat]> idx)
  end.

Definition cat (ts : list tensor) (dim : Z) : res tensor :=
  match ts with
  | [] => Raise RuntimeError
  | first :: _ =>
      match List.filter (fun t => negb (cat_skip t)) ts with
      | [] => Ok first
      | t0 :: rest =>
          try d <- norm_dim (rank t0) dim;
          if forallb (cat_compatible d t0) rest then
            Ok {| shape := <[d := fold_left Nat.add (map (fun t => dim_size t d) rest)
                                    (dim_size t0 d)]> (shape t0);
                  entry := cat_entry d t0 rest |}
          else Raise RuntimeError
      end
  end.

(** Elementwise map. *)
Definition tmap (f : F -> F) (t : tensor) : tensor :=
  {| shape := shape t; entry := fun idx => f (entry t idx) |}.

(** Broadcasting of two shapes, aligned on the right. *)
Fixpoint broadcast_rev (a b : list nat) : res (list nat) :=
  match a, b with
  | [], _ => Ok b
  | _, [] => Ok a
  | x :: a', y :: b' =>
      try r <- broadcast_rev a' b';
      if (x =? y)%nat then Ok (x :: r)
      else if (x =? 1)%nat then Ok (y :: r)
      else if (y =? 1)%nat then Ok (x :: r)
      else Raise RuntimeError
  end.

Definition broadcast_shapes (a b : list nat) : res (list nat) :=
  try r <- broadcast_rev (rev a) (rev b);
  Ok (rev r).

(** The index into an operand of shape [s] that the broadcast index
    [idx] reads. *)
Definition broadcast_index (s : list nat) (idx : list nat) : list nat :=
  let tail := drop (length idx - length s) idx in
  map (fun '(n, i) => if (n =? 1)%nat then 0%nat else i) (combine s tail).

Definition broadcast2 (f : F -> F -> F) (a b : tensor) : res tensor :=
  try s <- broadcast_shapes (shape a) (shape b);
  Ok {| shape := s;
        entry := fun idx =>
          f (entry a (broadcast_index (shape a) idx))
            (entry b (broadcast_index (shape b) idx)) |}.

(** [torch.min(a, b)], [a - b], [a / b] *)
Definition tmin := broadcast2 fmin.
Definition tsubt := broadcast2 fsub.
Definition tdiv := broadcast2 fdiv.

(** [1 - t] *)
Definition one_minus (t : tensor) : tensor := tmap (fsub fone) t.

(** The minimum of [f 0], ..., [f n], taken left to right. *)
Definition fold_min (n : nat) (f : nat -> F) : F :=
  fold_left (fun acc c => fmin acc (f c)) (seq 1 n) (f 0%nat).

(** [t.min(dim=-1, keepdim=True)[0]] *)
Definition min_last_keepdim (t : tensor) : res tensor :=
  match rev (shape t) with
  | [] => Ok t
  | 0%nat :: _ => Raise IndexError
  | S n :: outer =>
      Ok {| shape := rev (1%nat :: outer);
            entry := fun idx =>
              let pre := take (length outer) idx in
              fold_min n (fun c => entry t (pre ++ [c])) |}
  end.

(** [t.repeat_interleave(repeats=n, dim=d)] *)
Definition repeat_interleave (n : Z) (d : Z) (t : tensor) : res tensor :=
  if n <? 0 then Raise RuntimeError
  else
    try p <- norm_dim (rank t) d;
    Ok {| shape := <[p := (dim_size t p * Z.to_nat n)%nat]> (shape t);
          entry := fun idx =>
            entry t (<[p := (nth p idx 0%nat / Z.to_nat n)%nat]> idx) |}.

(** The items that iterating over [t] yields: [t[0]], [t[1]], ... *)
Definition unbind0 (t : tensor) : res (list tensor) :=
  match shape t with
  | [] => Raise TypeError
  | n :: rest =>
      Ok (map (fun i => {| shape := rest;
                           entry := fun idx => entry t (i :: idx) |})
              (seq 0 n))
  end.

(** Row-major position of an index and back. *)
Definition numel (s : list nat) : nat := fold_right Nat.mul 1%nat s.

Fixpoint ravel (s : list nat) (idx : list nat) : nat :=
  match s, idx with
  | n :: s', i :: idx' => (i * numel s' + ravel s' idx')%nat
  | _, _ => 0%nat
  end.

Fixpoint unravel (s : list nat) (k : nat) : list nat :=
  match s with
  | [] => []
  | n :: s' => (k / numel s')%nat :: unravel s' (k mod numel s')%nat
  end.

(** [t.reshape(dims)], where at most one entry of [dims] is [-1]. *)
Definition reshape_dims (total : nat) (dims : list Z) : res (list nat) :=
  if existsb (fun d => d <? -1) dims then Raise RuntimeError
  else
    let known := map Z.to_nat (List.filter (fun d => 0 <=? d) dims) in
    let holes := length (List.filter (fun d => d =? -1) dims) in
    match holes with
    | 0%nat =>
        if (numel known =? total)%nat then Ok (map Z.to_nat dims)
        else Raise RuntimeError
    | 1%nat =>
        if (numel known =? 0)%nat then Raise RuntimeError
        else if (total mod numel known =? 0)%nat then
          Ok (map (fun d => if d =? -1 then (total / numel known)%nat
                            else Z.to_nat d) dims)
        else Raise RuntimeError
    | _ => Raise RuntimeError
    end.

Definition reshape (dims : list Z) (t : tensor) : res tensor :=
  try s <- reshape_dims (numel (shape t)) dims;
  Ok {| shape := s;
        entry := fun idx => entry t (unravel (shape t) (ravel s idx)) |}.

(** [t.expand(dims)], [-1] keeping a dimension; same rank only. *)
Fixpoint expand_shape (s : list nat) (dims : list Z) : res (list nat) :=
  match s, dims with
  | [], [] => Ok []
  | n :: s', d :: dims' =>
      try r <- expand_shape s' dims';
      if d =? -1 then Ok (n :: r)
      else if d <? 0 then Raise RuntimeError
      else if (n =? Z.to_nat d)%nat then Ok (n :: r)
      else if (n =? 1)%nat then Ok (Z.to_nat d :: r)
      else Raise RuntimeError
  | _, _ => Raise RuntimeError
  end.

Definition expand (dims : list Z) (t : tensor) : res tensor :=
  try s <- expand_shape (shape t) dims;
  Ok {| shape := s;
        entry := fun idx => entry t (broadcast_index (shape t) idx) |}.

(** *** [PersonnalizedTimeGrad.get_lagged_subsequences] *)

Definition lagged_slice (sequence : tensor) (subsequences_length : Z)
    (lag_index : Z) : res tensor :=
  let begin_index := - lag_index - subsequences_length in
  let end_index := if 0 <? lag_index then Some (- lag_index) else None in
  try s <- slice_time sequence begin_index end_index;
  unsqueeze 1 s.

Definition get_lagged_subsequences (sequence : tensor) (sequence_length : Z)
    (indices : list Z) (subsequences_length : Z) : res tensor :=
  match pymax indices with
  | None => Raise (ValueError "max() arg is an empty sequence")
  | Some m =>
      if negb (m + subsequences_length <=? sequence_length)
      then Raise AssertionError
      else if negb (forallb (fun lag_index => 0 <=? lag_index) indices)
      then Raise AssertionError
      else
        try lagged_values <- rmap (lagged_slice sequence subsequences_length) indices;
        try stacked <- cat lagged_values 1;
        permute [0; 2; 3; 1]%nat stacked
  end.

End Torch.

(** ** Stateful computations

    A call runs against a world and may raise; what it did to the world
    before raising stays done. *)

Definition M (W A : Type) : Type := W -> res A * W.

Definition ret {W A} (a : A) : M W A := fun w => (Ok a, w).

Definition bind {W A B} (m : M W A) (k : A -> M W B) : M W B :=
  fun w =>
    match m w with
    | (Ok a, w') => k a w'
    | (Raise e, w') => (Raise e, w')
    end.

Definition lift {W A} (r : res A) : M W A := fun w => (r, w).

Notation "'run' x <- m ; k" := (bind m (fun x => k))
  (at level 10, x pattern, m at level 100, k at level 200,
   format "'[v' 'run'  x  <-  m ; '/' k ']'").

(** ** Python dictionaries with string keys, in insertion order *)

Definition dict (V : Type) : Type := list (string * V).

Fixpoint dict_get {V} (d : dict V) (key : string) : res V :=
  match d with
  | [] => Raise (KeyError key)
  | (k, v) :: d' => if String.eqb k key then Ok v else dict_get d' key
  end.

(** ** The forecasting network *)

(** The scaler objects of [data_and_transformation]. *)
Inductive scaler_obj (F : Type) : Type :=
  | MeanScaler
  | NOPScaler
  | CenteredMeanScaler
  | MeanStdScaler (minimum_std minimum_std_cst : F)
      (default_scale default_scale_cst add_minimum_std : bool).
Arguments MeanScaler {F}.
Arguments NOPScaler {F}.
Arguments CenteredMeanScaler {F}.
Arguments MeanStdScaler {F}.

(** A recurrent state: the [(h, c)] tuple of an LSTM or the single tensor
    of a GRU. *)
Inductive rnn_state (F : Type) : Type :=
  | StateTuple (parts : list (tensor F))
  | StateTensor (h : tensor F).
Arguments StateTuple {F}.
Arguments StateTensor {F}.

(** The arguments of [PersonnalizedTimeGrad.__init__]. *)
Record config (F : Type) : Type := Config {
  cfg_num_parallel_samples : Z;
  cfg_num_layers : Z;
  cfg_num_cells : Z;
  cfg_cell_type : string;
  cfg_context_length : Z;
  cfg_prediction_length : Z;
  cfg_dropout_rate : F;
  cfg_target_dim : Z;
  cfg_conditioning_length : Z;
  cfg_diff_steps : Z;
  cfg_loss_type : string;
  cfg_beta_end : F;
  cfg_beta_schedule : string;
  cfg_residual_layers : Z;
  cfg_residual_channels : Z;
  cfg_dilation_cycle_length : Z;
  cfg_embedding_dimension : Z;
  cfg_scaling : bool;
  cfg_num_feat_dynamic_real : Z;
  cfg_lags_seq : list Z;
  cfg_scaler_type : string;
  cfg_div_by_std : bool;
  cfg_minimum_std : F;
  cfg_minimum_std_cst : F;
  cfg_default_scale : bool;
  cfg_default_scale_cst : bool;
  cfg_add_minimum_std : bool
}.
Arguments Config {F}.
Arguments cfg_num_parallel_samples {F} _.
Arguments cfg_num_layers {F} _.
Arguments cfg_num_cells {F} _.
Arguments cfg_cell_type {F} _.
Arguments cfg_context_length {F} _.
Arguments cfg_prediction_length {F} _.
Arguments cfg_dropout_rate {F} _.
Arguments cfg_target_dim {F} _.
Arguments cfg_conditioning_length {F} _.
Arguments cfg_diff_steps {F} _.
Arguments cfg_loss_type {F} _.
Arguments cfg_beta_end {F} _.
Arguments cfg_beta_schedule {F} _.
Arguments cfg_residual_layers {F} _.
Arguments cfg_residual_channels {F} _.
Arguments cfg_dilation_cycle_length {F} _.
Arguments cfg_embedding_dimension {F} _.
Arguments cfg_scaling {F} _.
Arguments cfg_num_feat_dynamic_real {F} _.
Arguments cfg_lags_seq {F} _.
Arguments cfg_scaler_type {F} _.
Arguments cfg_div_by_std {F} _.
Arguments cfg_minimum_std {F} _.
Arguments cfg_minimum_std_cst {F} _.
Arguments cfg_default_scale {F} _.
Arguments cfg_default_scale_cst {F} _.
Arguments cfg_add_minimum_std {F} _.

(** The attributes of a constructed [PersonnalizedTimeGrad]. *)
Record network (F : Type) : Type := Network {
  scaler_type : string;
  div_by_std : bool;
  minimum_std : F;
  minimum_std_cst : F;
  default_scale : bool;
  default_scale_cst : bool;
  add_minimum_std : bool;
  lags_seq : list Z;
  history_length : Z;
  target_dim : Z;
  prediction_length : Z;
  context_length : Z;
  scaling : bool;
  num_parallel_samples : Z;
  shifted_lags : list Z;
  num_feat_dynamic_real : Z;
  embed_dim : Z;
  scaler : scaler_obj F;
  input_size : Z;
  cell_type : string
}.
Arguments Network {F}.
Arguments scaler_type {F} _.
Arguments div_by_std {F} _.
Arguments minimum_std {F} _.
Arguments minimum_std_cst {F} _.
Arguments default_scale {F} _.
Arguments default_scale_cst {F} _.
Arguments add_minimum_std {F} _.
Arguments lags_seq {F} _.
Arguments history_length {F} _.
Arguments target_dim {F} _.
Arguments prediction_length {F} _.
Arguments context_length {F} _.
Arguments scaling {F} _.
Arguments num_parallel_samples {F} _.
Arguments shifted_lags {F} _.
Arguments num_feat_dynamic_real {F} _.
Arguments embed_dim {F} _.
Arguments scaler {F} _.
Arguments input_size {F} _.
Arguments cell_type {F} _.

(** What the network file imports and calls but does not define: the
    scalers, the embedding, the recurrent cell, the diffusion head with its
    projection, and [weighted_average].  [ext_state] is whatever they keep
    between calls (parameters, random generator). *)
Class Collaborators (F : Type) : Type := {
  ext_state : Type;
  distr_args_t : Type;
  (* EpsilonTheta, GaussianDiffusion, DiffusionOutput, get_args_proj and
     nn.Embedding, from their arguments in source order *)
  head_ctor : Z -> Z -> Z -> Z -> Z -> Z -> string -> F -> string -> Z -> Z ->
              res unit;
  (* nn.LSTM / nn.GRU: cell, input_size, hidden_size, num_layers, dropout *)
  rnn_ctor : string -> Z -> Z -> Z -> F -> res unit;
  scaler_call : scaler_obj F -> tensor F -> tensor F ->
                ext_state -> res (list (tensor F)) * ext_state;
  embed_call : tensor F -> ext_state -> res (tensor F) * ext_state;
  rnn_call : string -> tensor F -> option (rnn_state F) ->
             ext_state -> res (tensor F * rnn_state F) * ext_state;
  proj_dist_args_call : tensor F -> ext_state -> res (list distr_args_t) * ext_state;
  log_prob_call : option (dict (tensor F)) -> tensor F -> distr_args_t ->
                  ext_state -> res (tensor F) * ext_state;
  sample_call : option (dict (tensor F)) -> distr_args_t ->
                ext_state -> res (tensor F) * ext_state;
  weighted_average_call : tensor F -> tensor F -> Z ->
                          ext_state -> res (tensor F) * ext_state;
  mean_call : tensor F -> F
}.

(** The world of a network call: the collaborators' state and the
    [diffusion.scale] attribute. *)
Record world (F : Type) {C : Collaborators F} : Type := World {
  ext : ext_state;
  diffusion_scale : option (dict (tensor F))
}.
Arguments World {F C}.
Arguments ext {F C} w.
Arguments diffusion_scale {F C} w.

Section TimeGrad.

Context {F : Type} {ops : FloatOps F} {C : Collaborators F}.
#[local] Abbreviation tensor := (tensor F).
#[local] Abbreviation network := (network F).
#[local] Abbreviation Net := (M (world F)).

Definition call {A} (f : ext_state -> res A * ext_state) : Net A :=
  fun w =>
    let '(r, e) := f (ext w) in
    (r, {| ext := e; diffusion_scale := diffusion_scale w |}).

(** [self.diffusion.scale = v] *)
Definition set_diffusion_scale (v : dict tensor) : Net unit :=
  fun w => (Ok tt, {| ext := ext w; diffusion_scale := Some v |}).

Definition get_diffusion_scale : Net (option (dict tensor)) :=
  fun w => (Ok (diffusion_scale w), w).

Definition invalid_scaler (st : string) : exn :=
  ValueError ("Invalid scaler type: " ++ st).

(** *** [__init__] *)

Definition select_scaler (cfg : config F) : res (scaler_obj F) :=
  if cfg_scaling cfg then
    if String.eqb (cfg_scaler_type cfg) "mean" then Ok MeanScaler
    else if String.eqb (cfg_scaler_type cfg) "nops" then Ok NOPScaler
    else if String.eqb (cfg_scaler_type cfg) "centered_mean" then Ok CenteredMeanScaler
    else if String.eqb (cfg_scaler_type cfg) "mean_std" then
      Ok (MeanStdScaler (cfg_minimum_std cfg) (cfg_minimum_std_cst cfg)
            (cfg_default_scale cfg) (cfg_default_scale_cst cfg)
            (cfg_add_minimum_std cfg))
    else Raise (invalid_scaler (cfg_scaler_type cfg))
  else Ok NOPScaler.

Definition select_cell (cell : string) : res unit :=
  if String.eqb cell "LSTM" || String.eqb cell "GRU" then Ok tt
  else Raise (KeyError cell).

Definition init (cfg : config F) : res network :=
  match pymax (cfg_lags_seq cfg) with
  | None => Raise (ValueError "max() arg is an empty sequence")
  | Some max_lag =>
      let history_length := cfg_context_length cfg + max_lag in
      let shifted_lags := map (fun l => l - 1) (cfg_lags_seq cfg) in
      let lags_seq := pysort (cfg_lags_seq cfg) in
      try _ <- head_ctor (cfg_target_dim cfg) (cfg_conditioning_length cfg)
                 (cfg_residual_layers cfg) (cfg_residual_channels cfg)
                 (cfg_dilation_cycle_length cfg) (cfg_diff_steps cfg)
                 (cfg_loss_type cfg) (cfg_beta_end cfg) (cfg_beta_schedule cfg)
                 (cfg_num_cells cfg) (cfg_embedding_dimension cfg);
      try scaler <- select_scaler cfg;
      let input_size :=
        Z.of_nat (length lags_seq) * cfg_target_dim cfg
        + cfg_target_dim cfg * cfg_embedding_dimension cfg
        + cfg_num_feat_dynamic_real cfg in
      try _ <- select_cell (cfg_cell_type cfg);
      try _ <- rnn_ctor (cfg_cell_type cfg) input_size (cfg_num_cells cfg)
                 (cfg_num_layers cfg) (cfg_dropout_rate cfg);
      Ok {| scaler_type := cfg_scaler_type cfg;
            div_by_std := cfg_div_by_std cfg;
            minimum_std := cfg_minimum_std cfg;
            minimum_std_cst := cfg_minimum_std_cst cfg;
            default_scale := cfg_default_scale cfg;
            default_scale_cst := cfg_default_scale_cst cfg;
            add_minimum_std := cfg_add_minimum_std cfg;
            lags_seq := lags_seq;
            history_length := history_length;
            target_dim := cfg_target_dim cfg;
            prediction_length := cfg_prediction_length cfg;
            context_length := cfg_context_length cfg;
            scaling := cfg_scaling cfg;
            num_parallel_samples := cfg_num_parallel_samples cfg;
            shifted_lags := shifted_lags;
            num_feat_dynamic_real := cfg_num_feat_dynamic_real cfg;
            embed_dim := cfg_embedding_dimension cfg;
            scaler := scaler;
            input_size := input_size;
            cell_type := cfg_cell_type cfg |}
  end.

(** *** [unroll] *)

Definition scale_lags (net : network) (lags : tensor)
    (scale_params : dict tensor) : res tensor :=
  if String.eqb (scaler_type net) "mean" then
    try scale <- dict_get scale_params "scale";
    try s <- unsqueeze (-1) scale;
    tdiv lags s
  else if String.eqb (scaler_type net) "mean_std"
          || String.eqb (scaler_type net) "centered_mean" then
    try mean <- dict_get scale_params "mean";
    try std <- dict_get scale_params "std";
    try m <- unsqueeze (-1) mean;
    try centered <- tsubt lags m;
    try s <- unsqueeze (-1) std;
    tdiv centered s
  else Raise (invalid_scaler (scaler_type net)).

Definition unroll (net : network) (lags : tensor) (scale_params : dict tensor)
    (time_feat target_dimension_indicator : tensor) (unroll_length : Z)
    (begin_state : option (rnn_state F))
    : Net (tensor * rnn_state F * tensor * tensor) :=
  run lags_scaled <- lift (scale_lags net lags scale_params);
  run input_lags <- lift (reshape
      [-1; unroll_length; Z.of_nat (length (lags_seq net)) * target_dim net]
      lags_scaled);
  run inputs <-
    (if 0 <? embed_dim net then
       run index_embeddings <- call (embed_call target_dimension_indicator);
       run repeated_index_embeddings <- lift (
         try u <- unsqueeze 1 index_embeddings;
         try e <- expand [-1; unroll_length; -1; -1] u;
         reshape [-1; unroll_length; target_dim net * embed_dim net] e);
       lift (cat [input_lags; repeated_index_embeddings; time_feat] (-1))
     else
       lift (cat [input_lags; time_feat] (-1)));
  run (outputs, state) <- call (rnn_call (cell_type net) inputs begin_state);
  ret (outputs, state, lags_scaled, inputs).

(** *** [unroll_encoder] *)

(** [torch.min(past_observed_values, 1 - past_is_pad.unsqueeze(-1))] *)
Definition effective_observed (past_observed_values past_is_pad : tensor)
    : res tensor :=
  try pad <- unsqueeze (-1) past_is_pad;
  tmin past_observed_values (one_minus pad).

(** The [if]/[elif]/[else] that calls the scaler on the context window. *)
Definition compute_scale_params (net : network)
    (past_target_cdf past_observed_values : tensor) : Net (dict tensor) :=
  if String.eqb (scaler_type net) "mean" then
    run target_window <- lift (slice_time past_target_cdf (- context_length net) None);
    run observed_window <- lift (slice_time past_observed_values (- context_length net) None);
    run out <- call (scaler_call (scaler net) target_window observed_window);
    match out with
    | [_; scale] => ret [("scale", scale)]
    | _ => lift (Raise (ValueError "unpack"))
    end
  else if String.eqb (scaler_type net) "mean_std"
          || String.eqb (scaler_type net) "centered_mean" then
    run target_window <- lift (slice_time past_target_cdf (- context_length net) None);
    run observed_window <- lift (slice_time past_observed_values (- context_length net) None);
    run out <- call (scaler_call (scaler net) target_window observed_window);
    match out with
    | [_; mean; std] => ret [("mean", mean); ("std", std)]
    | _ => lift (Raise (ValueError "unpack"))
    end
  else lift (Raise (invalid_scaler (scaler_type net))).

Definition encoder_window (net : network) (past_time_feat past_target_cdf : tensor)
    (future_time_feat future_target_cdf : option tensor)
    : res (tensor * tensor * Z * Z) :=
  match future_time_feat, future_target_cdf with
  | Some future_time_feat, Some future_target_cdf =>
      try past_tf <- slice_time past_time_feat (- context_length net) None;
      try time_feat <- cat [past_tf; future_time_feat] 1;
      try sequence <- cat [past_target_cdf; future_target_cdf] 1;
      Ok (time_feat, sequence,
          history_length net + prediction_length net,
          context_length net + prediction_length net)
  | _, _ =>
      try time_feat <- slice_time past_time_feat (- context_length net) None;
      Ok (time_feat, past_target_cdf, history_length net, context_length net)
  end.

Definition unroll_encoder (net : network)
    (past_time_feat past_target_cdf past_observed_values past_is_pad : tensor)
    (future_time_feat future_target_cdf : option tensor)
    (target_dimension_indicator : tensor)
    : Net (tensor * rnn_state F * dict tensor * tensor * tensor) :=
  run past_observed_values <-
    lift (effective_observed past_observed_values past_is_pad);
  run (time_feat, sequence, sequence_length, subsequences_length) <-
    lift (encoder_window net past_time_feat past_target_cdf
            future_time_feat future_target_cdf);
  run lags <- lift (get_lagged_subsequences sequence sequence_length
                      (lags_seq net) subsequences_length);
  run scale_params <- compute_scale_params net past_target_cdf past_observed_values;
  run (outputs, states, lags_scaled, inputs) <-
    unroll net lags scale_params time_feat target_dimension_indicator
      subsequences_length None;
  ret (outputs, states, scale_params, lags_scaled, inputs).

(** *** [distr_args] *)

Definition distr_args (rnn_outputs : tensor) : Net distr_args_t :=
  run out <- call (proj_dist_args_call rnn_outputs);
  match out with
  | [distr_args] => ret distr_args
  | _ => lift (Raise (ValueError "unpack"))
  end.

(** *** [loss] *)

(** Lines 540-555: the mask of the whole window and its minimum over the
    target dimensions. *)
Definition observed_values (net : network)
    (past_observed_values past_is_pad future_observed_values : tensor)
    : res tensor :=
  try past_observed_values <- effective_observed past_observed_values past_is_pad;
  try past_window <- slice_time past_observed_values (- context_length net) None;
  cat [past_window; future_observed_values] 1.

Definition loss_weights (net : network)
    (past_observed_values past_is_pad future_observed_values : tensor)
    : res tensor :=
  try observed_values <-
    observed_values net past_observed_values past_is_pad future_observed_values;
  min_last_keepdim observed_values.

Definition loss (net : network) (target_dimension_indicator past_target_cdf
    past_observed_values past_is_pad future_time_feat past_time_feat
    future_target_cdf future_observed_values : tensor)
    : Net (F * tensor * distr_args_t) :=
  run (rnn_outputs, _, scale_params, _, _) <-
    unroll_encoder net past_time_feat past_target_cdf past_observed_values
      past_is_pad (Some future_time_feat) (Some future_target_cdf)
      target_dimension_indicator;
  run target <- lift (
    try past_window <- slice_time past_target_cdf (- context_length net) None;
    cat [past_window; future_target_cdf] 1);
  run distr_args <- distr_args rnn_outputs;
  run _ <- (if scaling net then set_diffusion_scale scale_params else ret tt);
  run active_scale <- get_diffusion_scale;
  run log_prob <- call (log_prob_call active_scale target distr_args);
  run likelihoods <- lift (unsqueeze (-1) log_prob);
  run loss_weights <- lift (loss_weights net past_observed_values past_is_pad
                              future_observed_values);
  run loss <- call (weighted_average_call likelihoods loss_weights 1);
  ret (mean_call loss, likelihoods, distr_args).

(** *** [sampling_decoder] *)

Definition repeat (net : network) (t : tensor) (dim : Z) : res tensor :=
  repeat_interleave (num_parallel_samples net) dim t.

Definition repeat_dict (net : network) (d : dict tensor) : res (dict tensor) :=
  rmap (fun '(key, value) => try v <- repeat net value 0; Ok (key, v)) d.

Definition repeat_states (net : network) (begin_states : rnn_state F)
    : res (rnn_state F) :=
  if String.eqb (cell_type net) "LSTM" then
    match begin_states with
    | StateTuple parts =>
        try rs <- rmap (fun s => repeat net s 1) parts;
        Ok (StateTuple rs)
    | StateTensor h =>
        try parts <- unbind0 h;
        try rs <- rmap (fun s => repeat net s 1) parts;
        Ok (StateTuple rs)
    end
  else
    match begin_states with
    | StateTensor h => try r <- repeat net h 1; Ok (StateTensor r)
    | StateTuple _ => Raise AttributeError
    end.

(** One turn of the [for k in range(self.prediction_length)] loop. *)
Definition decode_step (net : network)
    (repeated_time_feat repeated_target_dimension_indicator : tensor)
    (repeated_scale : dict tensor) (k : Z)
    (acc : tensor * rnn_state F * list tensor)
    : Net (tensor * rnn_state F * list tensor) :=
  let '(repeated_past_target_cdf, repeated_states, future_samples) := acc in
  run lags <- lift (get_lagged_subsequences repeated_past_target_cdf
                      (history_length net + k) (shifted_lags net) 1);
  run time_feat_k <- lift (slice_time repeated_time_feat k (Some (k + 1)));
  run (rnn_outputs, repeated_states, _, _) <-
    unroll net lags repeated_scale time_feat_k
      repeated_target_dimension_indicator 1 (Some repeated_states);
  run distr_args <- distr_args rnn_outputs;
  run active_scale <- get_diffusion_scale;
  run new_samples <- call (sample_call active_scale distr_args);
  run repeated_past_target_cdf <-
    lift (cat [repeated_past_target_cdf; new_samples] 1);
  ret (repeated_past_target_cdf, repeated_states, (future_samples ++ [new_samples])%list).

Fixpoint decode_loop (net : network)
    (repeated_time_feat repeated_target_dimension_indicator : tensor)
    (repeated_scale : dict tensor) (ks : list Z)
    (acc : tensor * rnn_state F * list tensor)
    : Net (tensor * rnn_state F * list tensor) :=
  match ks with
  | [] => ret acc
  | k :: ks' =>
      run acc' <- decode_step net repeated_time_feat
                    repeated_target_dimension_indicator repeated_scale k acc;
      decode_loop net repeated_time_feat repeated_target_dimension_indicator
        repeated_scale ks' acc'
  end.

Definition sampling_decoder (net : network)
    (past_target_cdf target_dimension_indicator time_feat : tensor)
    (begin_states : rnn_state F) (scale_params : dict tensor) : Net tensor :=
  run repeated_past_target_cdf <- lift (repeat net past_target_cdf 0);
  run repeated_time_feat <- lift (repeat net time_feat 0);
  run repeated_scale <- lift (repeat_dict net scale_params);
  run _ <- (if scaling net then set_diffusion_scale repeated_scale else ret tt);
  run repeated_target_dimension_indicator <-
    lift (repeat net target_dimension_indicator 0);
  run repeated_states <- lift (repeat_states net begin_states);
  run (_, _, future_samples) <-
    decode_loop net repeated_time_feat repeated_target_dimension_indicator
      repeated_scale (pyrange (prediction_length net))
      (repeated_past_target_cdf, repeated_states, []);
  run samples <- lift (cat future_samples 1);
  lift (reshape [-1; num_parallel_samples net; prediction_length net;
                 target_dim net] samples).

(** *** [forward] *)

Definition forward (net : network) (target_dimension_indicator past_target_cdf
    past_observed_values past_is_pad future_time_feat past_time_feat
    future_target_cdf future_observed_values : tensor) : Net tensor :=
  run past_observed_values <-
    lift (effective_observed past_observed_values past_is_pad);
  run (_, begin_states, scale_params, _, _) <-
    unroll_encoder net past_time_feat past_target_cdf past_observed_values
      past_is_pad None None target_dimension_indicator;
  sampling_decoder net past_target_cdf target_dimension_indicator
    future_time_feat begin_states scale_params.

(** The same constructor arguments, or the same network, with another
    value of [div_by_std]. *)
Definition cfg_with_div_by_std (b : bool) (cfg : config F) : config F :=
  {| cfg_num_parallel_samples := cfg_num_parallel_samples cfg;
     cfg_num_layers := cfg_num_layers cfg;
     cfg_num_cells := cfg_num_cells cfg;
     cfg_cell_type := cfg_cell_type cfg;
     cfg_context_length := cfg_context_length cfg;
     cfg_prediction_length := cfg_prediction_length cfg;
     cfg_dropout_rate := cfg_dropout_rate cfg;
     cfg_target_dim := cfg_target_dim cfg;
     cfg_conditioning_length := cfg_conditioning_length cfg;
     cfg_diff_steps := cfg_diff_steps cfg;
     cfg_loss_type := cfg_loss_type cfg;
     cfg_beta_end := cfg_beta_end cfg;
     cfg_beta_schedule := cfg_beta_schedule cfg;
     cfg_residual_layers := cfg_residual_layers cfg;
     cfg_residual_channels := cfg_residual_channels cfg;
     cfg_dilation_cycle_length := cfg_dilation_cycle_length cfg;
     cfg_embedding_dimension := cfg_embedding_dimension cfg;
     cfg_scaling := cfg_scaling cfg;
     cfg_num_feat_dynamic_real := cfg_num_feat_dynamic_real cfg;
     cfg_lags_seq := cfg_lags_seq cfg;
     cfg_scaler_type := cfg_scaler_type cfg;
     cfg_div_by_std := b;
     cfg_minimum_std := cfg_minimum_std cfg;
     cfg_minimum_std_cst := cfg_minimum_std_cst cfg;
     cfg_default_scale := cfg_default_scale cfg;
     cfg_default_scale_cst := cfg_default_scale_cst cfg;
     cfg_add_minimum_std := cfg_add_minimum_std cfg |}.

Definition with_div_by_std (b : bool) (net : network) : network :=
  {| scaler_type := scaler_type net;
     div_by_std := b;
     minimum_std := minimum_std net;
     minimum_std_cst := minimum_std_cst net;
     default_scale := default_scale net;
     default_scale_cst := default_scale_cst net;
     add_minimum_std := add_minimum_std net;
     lags_seq := lags_seq net;
     history_length := history_length net;
     target_dim := target_dim net;
     prediction_length := prediction_length net;
     context_length := context_length net;
     scaling := scaling net;
     num_parallel_samples := num_parallel_samples net;
     shifted_lags := shifted_lags net;
     num_feat_dynamic_real := num_feat_dynamic_real net;
     embed_dim := embed_dim net;
     scaler := scaler net;
     input_size := input_size net;
     cell_type := cell_type net |}.

(** The scaler types that [unroll] and [unroll_encoder] dispatch on. *)
Definition recognised (st : string) : bool :=
  String.eqb st "mean" || String.eqb st "mean_std"
  || String.eqb st "centered_mean".

(** The [scale_params] component of what [unroll_encoder] returns. *)
Definition scale_params_of
    (r : tensor * rnn_state F * dict tensor * tensor * tensor) : dict tensor :=
  let '(_, _, scale_params, _, _) := r in scale_params.

End TimeGrad.

(** ** The training orchestrator *)

(** Values found in [trainer_kwargs]. Objects are references. *)
Inductive pyval : Type :=
  | VNone
  | VBool (b : bool)
  | VInt (z : Z)
  | VStr (s : string)
  | VRef (l : nat)
  | VRefs (ls : list nat).

(** Python truthiness, as tested by [if validation_only:]. *)
Definition truthy (v : pyval) : bool :=
  match v with
  | VNone => false
  | VBool b => b
  | VInt z => negb (z =? 0)
  | VStr s => negb (String.eqb s "")
  | VRef _ => true
  | VRefs ls => negb (bool_decide (ls = []))
  end.

(** The object references a value holds. *)
Definition refs_of (v : pyval) : list nat :=
  match v with
  | VRef l => [l]
  | VRefs ls => ls
  | _ => []
  end.

(** [[x] + v] *)
Definition list_add (xs : list nat) (v : pyval) : res pyval :=
  match v with
  | VRefs ls => Ok (VRefs (xs ++ ls))
  | _ => Raise TypeError
  end.

(** Callback objects on the heap. *)
Inductive callback_obj : Type :=
  | ModelCheckpoint (monitor mode : string) (verbose : bool)
      (best_model_path : string)
  | UserCallback (tag : nat).

(** What the orchestrator asks of its collaborators, in call order. *)
Inductive event : Type :=
  | EvCreateTransformation
  | EvApply (is_validation : bool)
  | EvCreateModule (module : nat)
  | EvTrainingLoader (module : nat)
  | EvValidationLoader (module : nat)
  | EvLoadStateDict (module source : nat)
  | EvModelCheckpoint (callback : nat) (monitor : string)
  | EvTrainer (kwargs : gmap string pyval)
  | EvValidate (module : nat) (ckpt_path : option string)
  | EvFit (module : nat) (ckpt_path : option string)
  | EvLoadFromCheckpoint (path : string)
  | EvCreatePredictor (module : nat).

(** The abstract methods of the estimator and the Lightning objects it
    drives.  Networks are references ([nat]); [sys_state] is everything the
    collaborators own (weights, files, devices). *)
Class EstimatorEnv : Type := {
  sys_state : Type;
  Dataset : Type;
  Transformation : Type;
  Loader : Type;
  Predictor : Type;
  create_transformation_call : sys_state -> res Transformation * sys_state;
  dataset_len : Dataset -> sys_state -> res Z * sys_state;
  apply_call : Transformation -> Dataset -> bool -> Z ->
               sys_state -> res Dataset * sys_state;
  Cached : Dataset -> Dataset;
  create_lightning_module_call : sys_state -> res nat * sys_state;
  create_training_data_loader_call : Dataset -> nat -> option Z ->
               sys_state -> res Loader * sys_state;
  create_validation_data_loader_call : Dataset -> nat ->
               sys_state -> res Loader * sys_state;
  predictor_network : Predictor -> nat;
  is_pytorch_predictor : Predictor -> bool;
  load_state_dict_call : nat -> nat -> sys_state -> res unit * sys_state;
  trainer_ctor : gmap string pyval -> sys_state -> res unit * sys_state;
  validate_call : gmap string pyval -> nat -> option Loader -> option string ->
               sys_state -> res unit * sys_state;
  fit_call : gmap string pyval -> nat -> Loader -> option Loader -> option string ->
               sys_state -> res unit * sys_state;
  hook_update : gmap string pyval -> sys_state -> nat -> callback_obj -> callback_obj;
  load_from_checkpoint_call : nat -> string -> sys_state -> res nat * sys_state;
  create_predictor_call : Transformation -> nat -> sys_state -> res Predictor * sys_state
}.

Record TrainOutput {E : EstimatorEnv} : Type := mkTrainOutput {
  transformation : Transformation;
  trained_net : nat;
  trainer : gmap string pyval;
  predictor : Predictor
}.

(** The estimator's world: its collaborators' state, the callback objects,
    the next free reference, the calls made so far and
    [self.trainer_kwargs]. *)
Record eworld {E : EstimatorEnv} : Type := EWorld {
  sys : sys_state;
  heap : gmap nat callback_obj;
  next_loc : nat;
  trace : list event;
  trainer_kwargs : gmap string pyval
}.

(** The number of [trainer.validate] calls among some events. *)
Fixpoint validate_events (evs : list event) : nat :=
  match evs with
  | [] => 0
  | EvValidate _ _ :: evs' => S (validate_events evs')
  | _ :: evs' => validate_events evs'
  end.

Section Estimator.

Context {E : EstimatorEnv}.
#[local] Abbreviation Est := (M eworld).

Definition log (ev : event) : Est unit :=
  fun w => (Ok tt, {| sys := sys w; heap := heap w; next_loc := next_loc w;
                      trace := (trace w ++ [ev])%list;
                      trainer_kwargs := trainer_kwargs w |}).

Definition ecall {A} (f : sys_state -> res A * sys_state) : Est A :=
  fun w =>
    let '(r, s) := f (sys w) in
    (r, {| sys := s; heap := heap w; next_loc := next_loc w;
           trace := trace w; trainer_kwargs := trainer_kwargs w |}).

(** [self.trainer_kwargs.pop(key, default)] *)
Definition kwargs_pop (key : string) (d : pyval) : Est pyval :=
  fun w =>
    (Ok (default d (trainer_kwargs w !! key)),
     {| sys := sys w; heap := heap w; next_loc := next_loc w;
        trace := trace w; trainer_kwargs := delete key (trainer_kwargs w) |}).

Definition get_kwargs : Est (gmap string pyval) :=
  fun w => (Ok (trainer_kwargs w), w).

(** [pl.callbacks.ModelCheckpoint(monitor=monitor, mode="min",
    verbose=True)]: a new object whose [best_model_path] is empty. *)
Definition new_model_checkpoint (monitor : string) : Est nat :=
  fun w =>
    (Ok (next_loc w),
     {| sys := sys w;
        heap := <[next_loc w := ModelCheckpoint monitor "min" true ""]> (heap w);
        next_loc := S (next_loc w);
        trace := (trace w ++ [EvModelCheckpoint (next_loc w) monitor])%list;
        trainer_kwargs := trainer_kwargs w |}).

(** The callbacks a trainer holds are those of its [callbacks] argument. *)
Definition trainer_callbacks (trainer : gmap string pyval) : list nat :=
  match trainer !! "callbacks" with
  | Some v => refs_of v
  | None => []
  end.

(** While it runs, a trainer calls the hooks of the callbacks it holds;
    these may update themselves (a checkpoint callback records
    [best_model_path]), also when the run ends in an exception.  No other
    callback object is touched. *)
Definition with_hooks (trainer : gmap string pyval)
    (f : sys_state -> res unit * sys_state) : Est unit :=
  fun w =>
    let '(r, s) := f (sys w) in
    (r,
     {| sys := s;
        heap := map_imap (fun l obj =>
                  Some (if bool_decide (l ∈ trainer_callbacks trainer)
                        then hook_update trainer s l obj else obj))
                  (heap w);
        next_loc := next_loc w; trace := trace w;
        trainer_kwargs := trainer_kwargs w |}).

(** [checkpoint.best_model_path] *)
Definition best_model_path_of (checkpoint : nat) : Est string :=
  fun w =>
    (match heap w !! checkpoint with
     | Some (ModelCheckpoint _ _ _ path) => Ok path
     | _ => Raise AttributeError
     end, w).

(** [pl.Trainer(accelerator="auto", callbacks=all_callbacks, logger=...,
    ...the kwargs that are left)] : a later key wins. *)
Definition trainer_arguments (all_callbacks logger : pyval)
    (rest : gmap string pyval) : gmap string pyval :=
  rest ∪ <["accelerator" := VStr "auto"]>
           (<["callbacks" := all_callbacks]> (<["logger" := logger]> ∅)).

Definition new_trainer (kwargs : gmap string pyval) : Est (gmap string pyval) :=
  run _ <- log (EvTrainer kwargs);
  run _ <- ecall (trainer_ctor kwargs);
  ret kwargs.

Definition transform (transformation : Transformation) (data : Dataset)
    (is_validation cache_data : bool) : Est Dataset :=
  run n <- ecall (dataset_len data);
  run _ <- log (EvApply is_validation);
  run transformed <- ecall (apply_call transformation data true (Z.max n 100));
  ret (if cache_data then Cached transformed else transformed).

Definition trainer_validate (trainer : gmap string pyval) (model : nat)
    (dataloaders : option Loader) (ckpt_path : option string) : Est unit :=
  run _ <- log (EvValidate model ckpt_path);
  with_hooks trainer (validate_call trainer model dataloaders ckpt_path).

Definition trainer_fit (trainer : gmap string pyval) (model : nat)
    (train_dataloaders : Loader) (val_dataloaders : option Loader)
    (ckpt_path : option string) : Est unit :=
  run _ <- log (EvFit model ckpt_path);
  with_hooks trainer
    (fit_call trainer model train_dataloaders val_dataloaders ckpt_path).

Definition train_model (training_data : Dataset)
    (validation_data : option Dataset) (from_predictor : option Predictor)
    (shuffle_buffer_length : option Z) (cache_data : bool)
    (ckpt_path : option string) : Est TrainOutput :=
  run _ <- log EvCreateTransformation;
  run transformation <- ecall create_transformation_call;
  run transformed_training_data <-
    transform transformation training_data false cache_data;
  run training_network <- ecall create_lightning_module_call;
  run _ <- log (EvCreateModule training_network);
  run _ <- log (EvTrainingLoader training_network);
  run training_data_loader <-
    ecall (create_training_data_loader_call transformed_training_data
             training_network shuffle_buffer_length);
  run validation_data_loader <-
    match validation_data with
    | Some validation_data =>
        run transformed_validation_data <-
          transform transformation validation_data true cache_data;
        run _ <- log (EvValidationLoader training_network);
        run loader <- ecall (create_validation_data_loader_call
                               transformed_validation_data training_network);
        ret (Some loader)
    | None => ret None
    end;
  run _ <-
    match from_predictor with
    | Some from_predictor =>
        run _ <- log (EvLoadStateDict training_network
                        (predictor_network from_predictor));
        ecall (load_state_dict_call training_network
                 (predictor_network from_predictor))
    | None => ret tt
    end;
  let monitor := match validation_data with
                 | None => "train_loss"
                 | Some _ => "val_loss"
                 end in
  run checkpoint <- new_model_checkpoint monitor;
  run custom_callbacks <- kwargs_pop "callbacks" (VRefs []);
  run all_callbacks <-
    match validation_data with
    | None => lift (list_add [checkpoint] custom_callbacks)
    | Some _ => ret custom_callbacks
    end;
  run validation_only <- kwargs_pop "validation_only" (VBool false);
  run logger <- kwargs_pop "logger" VNone;
  run rest <- get_kwargs;
  run trainer <- new_trainer (trainer_arguments all_callbacks logger rest);
  run best_model <-
    (if truthy validation_only then
       run _ <- trainer_validate trainer training_network
                  validation_data_loader ckpt_path;
       ret training_network
     else
       run _ <- trainer_fit trainer training_network training_data_loader
                  validation_data_loader ckpt_path;
       run path <- best_model_path_of checkpoint;
       if negb (String.eqb path "") then
         run _ <- log (EvLoadFromCheckpoint path);
         ecall (load_from_checkpoint_call training_network path)
       else ret training_network);
  run _ <- log (EvCreatePredictor best_model);
  run predictor <- ecall (create_predictor_call transformation best_model);
  ret {| transformation := transformation;
         trained_net := best_model;
         trainer := trainer;
         predictor := predictor |}.

(** [train] and [train_from] *)
Definition train (training_data : Dataset) (validation_data : option Dataset)
    (shuffle_buffer_length : option Z) (cache_data : bool)
    (ckpt_path : option string) : Est Predictor :=
  run out <- train_model training_data validation_data None
               shuffle_buffer_length cache_data ckpt_path;
  ret (predictor out).

Definition train_from (from : Predictor) (training_data : Dataset)
    (validation_data : option Dataset) (shuffle_buffer_length : option Z)
    (cache_data : bool) (ckpt_path : option string) : Est Predictor :=
  if is_pytorch_predictor from then
    run out <- train_model training_data validation_data (Some from)
                 shuffle_buffer_length cache_data ckpt_path;
    ret (predictor out)
  else lift (Raise AssertionError).

End Estimator.


(** ** Further definitions

    [describe_inputs], and the predicates and tables that the further
    properties of the two files are stated with. *)

(** The scaler types that [__init__] has a branch for. *)
Definition constructible (st : string) : bool :=
  String.eqb st "mean" || String.eqb st "nops"
  || String.eqb st "centered_mean" || String.eqb st "mean_std".

(** A computation that leaves [diffusion.scale] as it found it, whether it
    returns or raises. *)
Definition keeps_scale {F : Type} {C : Collaborators F} {A : Type}
    (m : M (world F) A) : Prop :=
  forall w, diffusion_scale (snd (m w)) = diffusion_scale w.

(** *** [describe_inputs] *)

Inductive dtype : Type := torch_long | torch_float.

(** [Input(shape=..., dtype=...)] *)
Record Input : Type := mkInput {
  input_shape : list Z;
  input_dtype : dtype
}.

(** The dictionary that [describe_inputs] hands to [InputSpec], in source
    order. *)
Definition describe_inputs {F : Type} (net : network F) (batch_size : Z)
    : dict Input :=
  [ ("target_dimension_indicator",
     mkInput [batch_size; target_dim net] torch_long);
    ("past_target_cdf",
     mkInput [batch_size; history_length net; target_dim net] torch_float);
    ("past_observed_values",
     mkInput [batch_size; history_length net; target_dim net] torch_float);
    ("past_is_pad",
     mkInput [batch_size; history_length net] torch_float);
    ("future_time_feat",
     mkInput [batch_size; prediction_length net; num_feat_dynamic_real net]
       torch_float);
    ("past_time_feat",
     mkInput [batch_size; history_length net; num_feat_dynamic_real net]
       torch_float);
    ("future_target_cdf",
     mkInput [batch_size; prediction_length net; target_dim net] torch_float);
    ("future_observed_values",
     mkInput [batch_size; prediction_length net; target_dim net] torch_float) ].

(** Does [t] have the shape that [spec] gives for [name]? *)
Definition matches_input {F : Type} (spec : dict Input) (name : string)
    (t : tensor F) : bool :=
  match dict_get spec name with
  | Ok i => list_eqb_nat (shape t) (map Z.to_nat (input_shape i))
  | Raise _ => false
  end.

(** The calls of a run of [train_model] that returns, in order. *)
Definition expected_events (has_validation : bool) (source : option nat)
    (validation_only : bool) (module checkpoint : nat)
    (trainer : gmap string pyval) (ckpt_path : option string)
    (best_model_path : string) (best_model : nat) : list event :=
  ([EvCreateTransformation; EvApply false; EvCreateModule module;
    EvTrainingLoader module]
   ++ (if has_validation then [EvApply true; EvValidationLoader module] else [])
   ++ match source with
      | Some s => [EvLoadStateDict module s]
      | None => []
      end
   ++ [EvModelCheckpoint checkpoint
         (if has_validation then "val_loss" else "train_loss");
       EvTrainer trainer]
   ++ (if validation_only then [EvValidate module ckpt_path]
       else EvFit module ckpt_path ::
            (if String.eqb best_model_path "" then []
             else [EvLoadFromCheckpoint best_model_path]))
   ++ [EvCreatePredictor best_model])%list.


(** A computation that adds nothing to [self.trainer_kwargs] and changes
    none of its entries, whether it returns or raises. *)
Definition only_pops {E : EstimatorEnv} {A : Type} (m : M eworld A) : Prop :=
  forall w, trainer_kwargs (snd (m w)) ⊆ trainer_kwargs w.

(** ** A concrete instance, for running the model

    Integer elements and collaborators small enough to evaluate: the scalers
    return unit scales, the recurrent cell echoes its input, the diffusion
    head samples zeros. *)

#[export] Instance Z_ops : FloatOps Z :=
  {| fone := 1; fsub := Z.sub; fdiv := Z.div; fmin := Z.min |}.

Definition const_tensor (s : list nat) (v : Z) : tensor Z :=
  {| shape := s; entry := fun _ => v |}.

(** A rank-3 tensor from nested lists. *)
Definition tensor3_of (rows : list (list (list Z))) : tensor Z :=
  {| shape := [length rows;
               length (nth 0 rows []);
               length (nth 0 (nth 0 rows []) [])];
     entry := fun idx =>
       match idx with
       | [b; t; c] => nth c (nth t (nth b rows []) []) 0
       | _ => 0
       end |}.

(** A rank-2 tensor from nested lists. *)
Definition tensor2_of (rows : list (list Z)) : tensor Z :=
  {| shape := [length rows; length (nth 0 rows [])];
     entry := fun idx =>
       match idx with
       | [b; t] => nth t (nth b rows []) 0
       | _ => 0
       end |}.

Definition toy_scaler (sc : scaler_obj Z) (data observed : tensor Z)
    : res (list (tensor Z)) :=
  match shape data with
  | [b; _; d] =>
      match sc with
      | MeanScaler | NOPScaler => Ok [data; const_tensor [b; 1%nat; d] 1]
      | _ => Ok [data; const_tensor [b; 1%nat; d] 0; const_tensor [b; 1%nat; d] 1]
      end
  | _ => Raise RuntimeError
  end.

Definition toy_state (cell : string) (inputs : tensor Z) : rnn_state Z :=
  let h := const_tensor [1%nat; nth 0 (shape inputs) 0%nat; 1%nat] 0 in
  if String.eqb cell "LSTM" then StateTuple [h; h] else StateTensor h.

Definition toy_sample (scale : option (dict (tensor Z))) : res (tensor Z) :=
  match scale with
  | Some ((_, s) :: _) => Ok (const_tensor (shape s) 0)
  | _ => Raise RuntimeError
  end.

#[export] Instance toy_collaborators : Collaborators Z :=
  {| ext_state := nat;
     distr_args_t := tensor Z;
     head_ctor := fun _ _ _ _ _ _ _ _ _ _ _ => Ok tt;
     rnn_ctor := fun _ _ _ _ _ => Ok tt;
     scaler_call := fun sc data observed e => (toy_scaler sc data observed, e);
     embed_call := fun ind e =>
       (Ok (const_tensor (shape ind ++ [1%nat]) 0), e);
     rnn_call := fun cell inputs state e =>
       (Ok (inputs, toy_state cell inputs), e);
     proj_dist_args_call := fun out e => (Ok [out], e);
     log_prob_call := fun scale target args e =>
       (Ok (const_tensor (take 2 (shape target)) 0), e);
     sample_call := fun scale args e => (toy_sample scale, S e);
     weighted_average_call := fun x weights dim e => (Ok x, e);
     mean_call := fun t => entry t [0%nat; 0%nat; 0%nat] |}.

Definition toy_config (lags : list Z) (scaler_type : string) (scaling : bool)
    : config Z :=
  {| cfg_num_parallel_samples := 2;
     cfg_num_layers := 1;
     cfg_num_cells := 1;
     cfg_cell_type := "GRU";
     cfg_context_length := 2;
     cfg_prediction_length := 1;
     cfg_dropout_rate := 0;
     cfg_target_dim := 1;
     cfg_conditioning_length := 1;
     cfg_diff_steps := 1;
     cfg_loss_type := "l2";
     cfg_beta_end := 0;
     cfg_beta_schedule := "linear";
     cfg_residual_layers := 1;
     cfg_residual_channels := 1;
     cfg_dilation_cycle_length := 1;
     cfg_embedding_dimension := 1;
     cfg_scaling := scaling;
     cfg_num_feat_dynamic_real := 1;
     cfg_lags_seq := lags;
     cfg_scaler_type := scaler_type;
     cfg_div_by_std := false;
     cfg_minimum_std := 0;
     cfg_minimum_std_cst := 0;
     cfg_default_scale := true;
     cfg_default_scale_cst := true;
     cfg_add_minimum_std := true |}.

(** The network that [toy_config lags scaler_type true] constructs. *)
Definition toy_network (lags : list Z) (scaler_type : string) : network Z :=
  match init (toy_config lags scaler_type true) with
  | Ok net => net
  | Raise _ =>
      {| scaler_type := scaler_type; div_by_std := false; minimum_std := 0;
         minimum_std_cst := 0; default_scale := true;
         default_scale_cst := true; add_minimum_std := true;
         lags_seq := []; history_length := 0; target_dim := 0;
         prediction_length := 0; context_length := 0; scaling := true;
         num_parallel_samples := 0; shifted_lags := [];
         num_feat_dynamic_real := 0; embed_dim := 0; scaler := NOPScaler;
         input_size := 0; cell_type := "" |}
  end.

Definition toy_world : world Z := {| ext := 0%nat; diffusion_scale := None |}.

(** One series of one dimension, four past steps and one future step. *)
Definition toy_past_target_cdf : tensor Z := tensor3_of [[[1]; [2]; [3]; [4]]].
Definition toy_past_observed_values : tensor Z := tensor3_of [[[1]; [1]; [0]; [1]]].
Definition toy_past_is_pad : tensor Z := tensor2_of [[1; 0; 0; 0]].
Definition toy_past_time_feat : tensor Z := tensor3_of [[[5]; [6]; [7]; [8]]].
Definition toy_future_time_feat : tensor Z := tensor3_of [[[9]]].
Definition toy_future_target_cdf : tensor Z := tensor3_of [[[10]]].
Definition toy_future_observed_values : tensor Z := tensor3_of [[[1]]].
Definition toy_target_dimension_indicator : tensor Z := tensor2_of [[0]].

(** The same configuration with two target dimensions, the network it
    constructs, and one series of two dimensions: the third past step misses
    its second dimension, the fourth is padding. *)
Definition toy_config2 : config Z :=
  {| cfg_num_parallel_samples := 2;
     cfg_num_layers := 1;
     cfg_num_cells := 1;
     cfg_cell_type := "GRU";
     cfg_context_length := 2;
     cfg_prediction_length := 1;
     cfg_dropout_rate := 0;
     cfg_target_dim := 2;
     cfg_conditioning_length := 1;
     cfg_diff_steps := 1;
     cfg_loss_type := "l2";
     cfg_beta_end := 0;
     cfg_beta_schedule := "linear";
     cfg_residual_layers := 1;
     cfg_residual_channels := 1;
     cfg_dilation_cycle_length := 1;
     cfg_embedding_dimension := 1;
     cfg_scaling := true;
     cfg_num_feat_dynamic_real := 1;
     cfg_lags_seq := [1; 2];
     cfg_scaler_type := "mean";
     cfg_div_by_std := false;
     cfg_minimum_std := 0;
     cfg_minimum_std_cst := 0;
     cfg_default_scale := true;
     cfg_default_scale_cst := true;
     cfg_add_minimum_std := true |}.

Definition toy_network2 : network Z :=
  match init toy_config2 with
  | Ok net => net
  | Raise _ => toy_network [1; 2] "mean"
  end.

Definition toy2_past_target_cdf : tensor Z :=
  tensor3_of [[[1; 5]; [2; 6]; [3; 7]; [4; 8]]].
Definition toy2_past_observed_values : tensor Z :=
  tensor3_of [[[1; 1]; [1; 1]; [1; 0]; [1; 1]]].
Definition toy2_past_is_pad : tensor Z := tensor2_of [[0; 0; 0; 1]].
Definition toy2_future_target_cdf : tensor Z := tensor3_of [[[9; 10]]].
Definition toy2_future_observed_values : tensor Z := tensor3_of [[[1; 1]]].
Definition toy2_target_dimension_indicator : tensor Z := tensor2_of [[0; 1]].

(** Collaborators of the estimator that always succeed: networks are
    numbered from the system counter, a trainer's checkpoint callbacks
    record a path while it runs. *)
#[export] Instance toy_env : EstimatorEnv :=
  {| sys_state := nat;
     Dataset := nat;
     Transformation := unit;
     Loader := unit;
     Predictor := nat;
     create_transformation_call := fun s => (Ok tt, s);
     dataset_len := fun d s => (Ok (Z.of_nat d), s);
     apply_call := fun _ d _ _ s => (Ok d, s);
     Cached := fun d => d;
     create_lightning_module_call := fun s => (Ok s, S s);
     create_training_data_loader_call := fun _ _ _ s => (Ok tt, s);
     create_validation_data_loader_call := fun _ _ s => (Ok tt, s);
     predictor_network := fun p => p;
     is_pytorch_predictor := fun _ => true;
     load_state_dict_call := fun _ _ s => (Ok tt, s);
     trainer_ctor := fun _ s => (Ok tt, s);
     validate_call := fun _ _ _ _ s => (Ok tt, s);
     fit_call := fun _ _ _ _ _ s => (Ok tt, S s);
     hook_update := fun _ _ _ obj =>
       match obj with
       | ModelCheckpoint monitor mode verbose _ =>
           ModelCheckpoint monitor mode verbose "best.ckpt"
       | UserCallback tag => UserCallback tag
       end;
     load_from_checkpoint_call := fun _ _ s => (Ok (100 + s)%nat, s);
     create_predictor_call := fun _ m s => (Ok m, s) |}.

(** An estimator with one user callback and the given [trainer_kwargs]. *)
Definition toy_eworld (kwargs : gmap string pyval) : eworld :=
  {| sys := 0%nat;
     heap := {[ 0%nat := UserCallback 7 ]};
     next_loc := 1%nat;
     trace := [];
     trainer_kwargs := kwargs |}.


(** [toy_config] with other lags, cell type and context length. *)
Definition toy_config_with (lags : list Z) (cell : string)
    (context_length : Z) : config Z :=
  {| cfg_num_parallel_samples := 2;
     cfg_num_layers := 1;
     cfg_num_cells := 1;
     cfg_cell_type := cell;
     cfg_context_length := context_length;
     cfg_prediction_length := 1;
     cfg_dropout_rate := 0;
     cfg_target_dim := 1;
     cfg_conditioning_length := 1;
     cfg_diff_steps := 1;
     cfg_loss_type := "l2";
     cfg_beta_end := 0;
     cfg_beta_schedule := "linear";
     cfg_residual_layers := 1;
     cfg_residual_channels := 1;
     cfg_dilation_cycle_length := 1;
     cfg_embedding_dimension := 1;
     cfg_scaling := true;
     cfg_num_feat_dynamic_real := 1;
     cfg_lags_seq := lags;
     cfg_scaler_type := "mean";
     cfg_div_by_std := false;
     cfg_minimum_std := 0;
     cfg_minimum_std_cst := 0;
     cfg_default_scale := true;
     cfg_default_scale_cst := true;
     cfg_add_minimum_std := true |}.

(** The network that [toy_config_with] constructs. *)
Definition toy_network_with (lags : list Z) (cell : string)
    (context_length : Z) : network Z :=
  match init (toy_config_with lags cell context_length) with
  | Ok net => net
  | Raise _ => toy_network lags "mean"
  end.

(** [toy_env] where only the predictors numbered below 100 are
    [PyTorchPredictor]s. *)
Definition toy_env_checked : EstimatorEnv :=
  {| sys_state := nat;
     Dataset := nat;
     Transformation := unit;
     Loader := unit;
     Predictor := nat;
     create_transformation_call := fun s => (Ok tt, s);
     dataset_len := fun d s => (Ok (Z.of_nat d), s);
     apply_call := fun _ d _ _ s => (Ok d, s);
     Cached := fun d => d;
     create_lightning_module_call := fun s => (Ok s, S s);
     create_training_data_loader_call := fun _ _ _ s => (Ok tt, s);
     create_validation_data_loader_call := fun _ _ s => (Ok tt, s);
     predictor_network := fun p => p;
     is_pytorch_predictor := fun p => (p <? 100)%nat;
     load_state_dict_call := fun _ _ s => (Ok tt, s);
     trainer_ctor := fun _ s => (Ok tt, s);
     validate_call := fun _ _ _ _ s => (Ok tt, s);
     fit_call := fun _ _ _ _ _ s => (Ok tt, S s);
     hook_update := fun _ _ _ obj =>
       match obj with
       | ModelCheckpoint monitor mode verbose _ =>
           ModelCheckpoint monitor mode verbose "best.ckpt"
       | UserCallback tag => UserCallback tag
       end;
     load_from_checkpoint_call := fun _ _ s => (Ok (100 + s)%nat, s);
     create_predictor_call := fun _ m s => (Ok m, s) |}.

(** The estimator of [toy_eworld] in that setting. *)
Definition toy_eworld_checked (kwargs : gmap string pyval)
    : @eworld toy_env_checked :=
  @EWorld toy_env_checked 0%nat {[ 0%nat := UserCallback 7 ]} 1%nat [] kwargs.

(** * Properties *)

(** ** Built-ins *)

Lemma rbind_ok {A B} (m : res A) (k : A -> res B) (b : B) :
  rbind m k = Ok b -> exists a, m = Ok a /\ k a = Ok b.
Proof. destruct m as [a|e]; simpl; [eauto | discriminate]. Qed.

Lemma fold_max_ge (l : list Z) (x : Z) : x <= fold_left Z.max l x.
Proof.
  revert x; induction l as [|y l IH]; intros x; simpl; [lia|].
  specialize (IH (Z.max x y)); lia.
Qed.

Lemma fold_max_bound (l : list Z) (x y : Z) :
  In y l -> y <= fold_left Z.max l x.
Proof.
  revert x; induction l as [|z l IH]; intros x; simpl; [tauto|].
  intros [->|Hin]; [|auto].
  pose proof (fold_max_ge l (Z.max x y)); lia.
Qed.

Lemma pymax_bound (l : list Z) (m y : Z) :
  pymax l = Some m -> In y l -> y <= m.
Proof.
  destruct l as [|x l]; simpl; [discriminate|].
  intros [= <-] [->|Hin]; [apply fold_max_ge | by apply fold_max_bound].
Qed.

Lemma pymax_nonempty (l : list Z) : l <> [] -> exists m, pymax l = Some m.
Proof. destruct l; [congruence | simpl; eauto]. Qed.

Lemma fold_max_in (l : list Z) (x : Z) :
  fold_left Z.max l x = x \/ In (fold_left Z.max l x) l.
Proof.
  revert x; induction l as [|y l IH]; intros x; simpl; [auto|].
  destruct (IH (Z.max x y)) as [H|H]; [|auto].
  rewrite H. destruct (Z.max_spec x y) as [[_ ->]|[_ ->]]; auto.
Qed.

Lemma pymax_in (l : list Z) (m : Z) : pymax l = Some m -> In m l.
Proof.
  destruct l as [|x l]; simpl; [discriminate|].
  intros [= <-]. destruct (fold_max_in l x) as [->|H]; auto.
Qed.

Lemma forallb_nonneg (l : list Z) :
  forallb (fun lag_index => 0 <=? lag_index) l = true <->
  (forall y, In y l -> 0 <= y).
Proof.
  rewrite forallb_forall. split; intros H y Hy; specialize (H y Hy); lia.
Qed.

Lemma rmap_ok_map {A B} (f : A -> res B) (g : A -> B) (l : list A) :
  (forall x, In x l -> f x = Ok (g x)) -> rmap f l = Ok (map g l).
Proof.
  induction l as [|x l IH]; intros H; simpl; [done|].
  rewrite (H x) by (by left). simpl. rewrite IH; [done|].
  intros y Hy. apply H. by right.
Qed.

Lemma sort_insert_in (x y : Z) (l : list Z) :
  In y (sort_insert x l) <-> y = x \/ In y l.
Proof.
  induction l as [|z l IH]; simpl; [intuition|].
  destruct (x <=? z); simpl; [intuition|]. rewrite IH. intuition.
Qed.

Lemma pysort_in (y : Z) (l : list Z) : In y (pysort l) <-> In y l.
Proof.
  induction l as [|x l IH]; simpl; [done|].
  unfold pysort in *. simpl. rewrite sort_insert_in, IH. intuition.
Qed.

Lemma pysort_length (l : list Z) : length (pysort l) = length l.
Proof.
  assert (Hins : forall x l', length (sort_insert x l') = S (length l')).
  { intros x l'. induction l' as [|z l' IH]; simpl; [done|].
    destruct (x <=? z); simpl; [done | by rewrite IH]. }
  induction l as [|x l IH]; [done|].
  unfold pysort in *. simpl. by rewrite Hins, IH.
Qed.

(** ** The lag extractor *)

Section TorchFacts.

Context {F : Type} {ops : FloatOps F}.
#[local] Abbreviation tensor := (tensor F).

(** One lag of a well-placed window is a slice of length
    [subsequences_length] that starts [lag + subsequences_length] steps
    before the end. *)
Lemma lagged_slice_ok (sequence : tensor) (N T C : nat) (S lag : Z) :
  shape sequence = [N; T; C] ->
  0 <= lag -> 0 < S -> lag + S <= Z.of_nat T ->
  exists t,
    lagged_slice sequence S lag = Ok t /\
    shape t = [N; 1%nat; Z.to_nat S; C] /\
    forall b u j c,
      entry t [b; u; j; c]
      = entry sequence [b; (Z.to_nat (Z.of_nat T - lag - S) + j)%nat; c].
Proof.
  intros Hs Hlag HS Hfit.
  unfold lagged_slice, slice_time. rewrite Hs.
  unfold slice_bounds, adjust_index.
  assert (Hb : (- lag - S <? 0) = true) by lia. rewrite Hb.
  destruct (0 <? lag) eqn:Hpos.
  - assert (Hn : (- lag <? 0) = true) by lia. rewrite Hn. simpl.
    eexists; split; [reflexivity|]. simpl.
    change (Z.to_nat 1) with 1%nat. unfold insert_at, remove_at. simpl. split.
    + do 3 f_equal. lia.
    + intros b u j c. do 3 f_equal. lia.
  - simpl. eexists; split; [reflexivity|]. simpl.
    change (Z.to_nat 1) with 1%nat. unfold insert_at, remove_at. simpl. split.
    + do 3 f_equal. lia.
    + intros b u j c. do 3 f_equal. lia.
Qed.

Lemma cat_entry_stack (N K C : nat) (rest : list tensor) :
  forall (t0 : tensor) (i b j c : nat),
    Forall (fun t => shape t = [N; 1%nat; K; C]) (t0 :: rest) ->
    (i < length (t0 :: rest))%nat ->
    cat_entry 1 t0 rest [b; i; j; c] = entry (nth i (t0 :: rest) t0) [b; 0%nat; j; c].
Proof.
  induction rest as [|t1 rest IH]; intros t0 i b j c Hall Hi.
  - simpl in *. assert (i = 0%nat) as -> by lia. done.
  - inversion Hall as [|? ? H0 Hrest]; subst.
    simpl. unfold dim_size. rewrite H0. simpl.
    destruct i as [|i]; [done|].
    change (S i <? 1)%nat with false. simpl.
    replace (i - 0)%nat with i by lia.
    rewrite (IH t1 i b j c Hrest) by (simpl in *; lia).
    destruct i; [done|]. simpl. f_equal. apply nth_indep. simpl in Hi. lia.
Qed.

Lemma fold_add_ones (N K C : nat) (ts : list tensor) (acc : nat) :
  Forall (fun t => shape t = [N; 1%nat; K; C]) ts ->
  fold_left Nat.add (map (fun t => dim_size t 1) ts) acc = (acc + length ts)%nat.
Proof.
  revert acc; induction ts as [|t ts IH]; intros acc Hall; simpl; [lia|].
  inversion Hall as [|? ? H0 Hrest]; subst.
  rewrite IH by done. unfold dim_size. rewrite H0. simpl. lia.
Qed.

(** Concatenating along axis 1 tensors of shape [(N, 1, S, C)] stacks
    them. *)
Lemma cat_stack (N K C : nat) (ts : list tensor) :
  ts <> [] ->
  Forall (fun t => shape t = [N; 1%nat; K; C]) ts ->
  exists out,
    cat ts 1 = Ok out /\
    shape out = [N; length ts; K; C] /\
    forall i b j c t,
      ts !! i = Some t ->
      entry out [b; i; j; c] = entry t [b; 0%nat; j; c].
Proof.
  intros Hne Hall. destruct ts as [|t0 rest]; [done|]. clear Hne.
  unfold cat.
  assert (Hkeep : List.filter (fun t => negb (cat_skip t)) (t0 :: rest) = t0 :: rest).
  { clear - Hall. induction Hall as [|t ts Ht _ IH]; [done|].
    cbn [List.filter]. rewrite IH.
    unfold cat_skip, list_eqb_nat. rewrite Ht.
    by rewrite bool_decide_eq_false_2 by discriminate. }
  rewrite Hkeep.
  inversion Hall as [|? ? H0 Hrest]; subst.
  unfold rank. rewrite H0. simpl. change (Z.to_nat 1) with 1%nat.
  assert (Hcompat : forallb (cat_compatible 1 t0) rest = true).
  { apply forallb_forall. intros t Ht.
    rewrite Forall_forall in Hrest. specialize (Hrest t).
    rewrite <- list_elem_of_In in Ht. specialize (Hrest Ht).
    unfold cat_compatible, list_eqb_nat, rank. rewrite H0, Hrest. simpl.
    by rewrite bool_decide_eq_true_2. }
  rewrite Hcompat. eexists; split; [reflexivity|]. simpl. split.
  - rewrite (fold_add_ones N K C) by done. unfold dim_size. rewrite H0. done.
  - intros i b j c t Hi.
    rewrite (cat_entry_stack N K C) by (done || by apply lookup_lt_Some in Hi).
    f_equal. by apply nth_lookup_Some with (d := t0) in Hi.
Qed.

Lemma permute_lagged (N I K C : nat) (t : tensor) :
  shape t = [N; I; K; C] ->
  exists out,
    permute [0; 2; 3; 1]%nat t = Ok out /\
    shape out = [N; K; C; I] /\
    forall b j c i, entry out [b; j; c; i] = entry t [b; i; j; c].
Proof.
  intros Hs. unfold permute, rank, dim_size. rewrite Hs. simpl.
  eexists; split; [reflexivity|]. simpl. split; done.
Qed.

(** The extractor on a series of shape [(N, sequence_length, C)] and
    subsequences of positive length. *)
Lemma get_lagged_subsequences_spec (sequence : tensor) (N C : nat)
    (sequence_length : Z) (indices : list Z) (subsequences_length m : Z) :
  0 <= sequence_length ->
  shape sequence = [N; Z.to_nat sequence_length; C] ->
  pymax indices = Some m ->
  m + subsequences_length <= sequence_length ->
  (forall lag, In lag indices -> 0 <= lag) ->
  0 < subsequences_length ->
  exists out,
    get_lagged_subsequences sequence sequence_length indices subsequences_length
      = Ok out /\
    shape out = [N; Z.to_nat subsequences_length; C; length indices] /\
    forall b t c i lag,
      indices !! i = Some lag ->
      entry out [b; t; c; i]
      = entry sequence
          [b; (Z.to_nat (sequence_length - lag - subsequences_length) + t)%nat; c].
Proof.
  intros HL Hs Hmax Hfit Hnn HS.
  unfold get_lagged_subsequences. rewrite Hmax.
  assert (H1 : (m + subsequences_length <=? sequence_length) = true) by lia.
  rewrite H1. simpl.
  assert (H2 : forallb (fun lag_index => 0 <=? lag_index) indices = true)
    by (by apply forallb_nonneg).
  rewrite H2. simpl.
  assert (Hslice : forall lag, In lag indices ->
    exists t, lagged_slice sequence subsequences_length lag = Ok t /\
      shape t = [N; 1%nat; Z.to_nat subsequences_length; C] /\
      forall b u j c, entry t [b; u; j; c]
        = entry sequence
            [b; (Z.to_nat (sequence_length - lag - subsequences_length) + j)%nat; c]).
  { intros lag Hin.
    destruct (lagged_slice_ok sequence N (Z.to_nat sequence_length) C
                subsequences_length lag) as (t & Ht & Hsh & He); try done.
    - by apply Hnn.
    - pose proof (pymax_bound _ _ _ Hmax Hin). lia.
    - exists t. repeat split; try done.
      intros b u j c. rewrite He. by rewrite Z2Nat.id. }
  assert (Hrmap : exists ts,
    rmap (lagged_slice sequence subsequences_length) indices = Ok ts /\
    length ts = length indices /\
    forall i lag, indices !! i = Some lag ->
      exists t, ts !! i = Some t /\
        shape t = [N; 1%nat; Z.to_nat subsequences_length; C] /\
        forall b u j c, entry t [b; u; j; c]
          = entry sequence
              [b; (Z.to_nat (sequence_length - lag - subsequences_length) + j)%nat; c]).
  { clear - Hslice. induction indices as [|lag indices IH].
    - exists []. by repeat split.
    - destruct (Hslice lag) as (t & Ht & Hsh & He); [by left|].
      destruct IH as (ts & Hts & Hlen & Hent).
      { intros lag' Hin. apply Hslice. by right. }
      exists (t :: ts). simpl. rewrite Ht. simpl. rewrite Hts. simpl.
      repeat split; [by rewrite Hlen|].
      intros [|i] lag' Hi; simpl in *.
      + injection Hi as <-. eauto.
      + eauto. }
  destruct Hrmap as (ts & Hts & Hlen & Hent). rewrite Hts. simpl.
  assert (Hne : ts <> []).
  { destruct indices; [done|]. destruct ts; [done|]. done. }
  assert (Hall : Forall (fun t => shape t = [N; 1%nat; Z.to_nat subsequences_length; C]) ts).
  { apply Forall_lookup_2. intros i t Hi.
    destruct (indices !! i) as [lag|] eqn:Hlag.
    - destruct (Hent i lag Hlag) as (t' & Ht' & Hsh & _). congruence.
    - apply lookup_lt_Some in Hi. apply lookup_ge_None in Hlag. lia. }
  destruct (cat_stack N (Z.to_nat subsequences_length) C ts Hne Hall)
    as (stacked & Hcat & Hshape & Hentry).
  rewrite Hcat. simpl.
  destruct (permute_lagged N (length ts) (Z.to_nat subsequences_length) C stacked Hshape)
    as (out & Hperm & Hsh & He).
  exists out. split; [done|]. split; [by rewrite Hsh, Hlen|].
  intros b t c i lag Hi. rewrite He.
  destruct (Hent i lag Hi) as (ti & Hti & _ & Hval).
  rewrite (Hentry i b t c ti Hti). apply Hval.
Qed.

End TorchFacts.

Section LagAssertions.

Context {F : Type}.

Lemma lagged_assert_overflow (sequence : tensor F) (sequence_length : Z)
    (indices : list Z) (subsequences_length m : Z) :
  pymax indices = Some m ->
  sequence_length < m + subsequences_length ->
  get_lagged_subsequences sequence sequence_length indices subsequences_length
    = Raise AssertionError.
Proof.
  intros Hmax Hover. unfold get_lagged_subsequences. rewrite Hmax.
  assert (H : (m + subsequences_length <=? sequence_length) = false) by lia.
  by rewrite H.
Qed.

Lemma lagged_assert_negative (sequence : tensor F) (sequence_length : Z)
    (indices : list Z) (subsequences_length lag : Z) :
  In lag indices -> lag < 0 ->
  get_lagged_subsequences sequence sequence_length indices subsequences_length
    = Raise AssertionError.
Proof.
  intros Hin Hneg. unfold get_lagged_subsequences.
  destruct (pymax indices) as [m|] eqn:Hmax.
  - destruct (m + subsequences_length <=? sequence_length); [|done]. simpl.
    assert (H : forallb (fun lag_index => 0 <=? lag_index) indices = false).
    { apply not_true_is_false. rewrite forallb_nonneg.
      intros H. specialize (H lag Hin). lia. }
    by rewrite H.
  - destruct indices; [done | discriminate].
Qed.

End LagAssertions.

(** C3. Whenever [max(indices) + subsequences_length] exceeds
    [sequence_length], or some index is negative, the call to
    [get_lagged_subsequences] ends in an [AssertionError]: no tensor is
    returned, truncated or otherwise. *)
Theorem get_lagged_subsequences_fails_fast {F : Type} (sequence : tensor F)
    (sequence_length : Z) (indices : list Z) (subsequences_length : Z) :
  (exists m, pymax indices = Some m /\ sequence_length < m + subsequences_length)
  \/ (exists lag, In lag indices /\ lag < 0) ->
  get_lagged_subsequences sequence sequence_length indices subsequences_length
    = Raise AssertionError.
Proof.
  intros [(m & Hmax & Hover) | (lag & Hin & Hneg)].
  - by apply lagged_assert_overflow with (m := m).
  - by apply lagged_assert_negative with (lag := lag).
Qed.

Lemma get_lagged_subsequences_fails_fast_witness :
  get_lagged_subsequences (tensor3_of [[[1]; [2]; [3]]]) 3 [2; 0] 2
    = Raise AssertionError
  /\ get_lagged_subsequences (tensor3_of [[[1]; [2]; [3]]]) 3 [1; -1] 1
    = Raise AssertionError.
Proof.
  split.
  - apply get_lagged_subsequences_fails_fast. left. exists 2.
    split; [reflexivity | lia].
  - apply get_lagged_subsequences_fails_fast. right. exists (-1).
    split; [simpl; tauto | lia].
Defined.

(** C1, at a window of length zero.  With [subsequences_length = 0] and the
    lag [0] both assertions pass, [begin_index] is [-0 = 0] and [end_index]
    is [None], so the slice is the whole series: the result has one time
    step where the documented shape [(N, S, C, I)] has none. *)
Theorem get_lagged_subsequences_zero_length :
  exists out,
    get_lagged_subsequences (tensor3_of [[[7]]]) 1 [0] 0 = Ok out /\
    shape out = [1; 1; 1; 1]%nat /\
    shape out <> [1; Z.to_nat 0; 1; 1]%nat /\
    entry out [0; 0; 0; 0]%nat = 7.
Proof.
  eexists. split; [reflexivity|]. simpl. repeat split; discriminate.
Qed.

(** ** Stateful computations *)

Lemma bind_ok {W A B} (m : M W A) (k : A -> M W B) (w w' : W) (b : B) :
  bind m k w = (Ok b, w') ->
  exists a w1, m w = (Ok a, w1) /\ k a w1 = (Ok b, w').
Proof.
  unfold bind. destruct (m w) as [[a|e] w1]; [eauto | discriminate].
Qed.

Lemma lift_ok {W A} (r : res A) (w w' : W) (a : A) :
  lift r w = (Ok a, w') -> r = Ok a /\ w' = w.
Proof. unfold lift. by intros [= -> ->]. Qed.

Lemma ret_ok {W A} (x a : A) (w w' : W) :
  ret x w = (Ok a, w') -> a = x /\ w' = w.
Proof. unfold ret. by intros [= -> ->]. Qed.

Lemma bind_raise {W A B} (m : M W A) (k : A -> M W B) (w : W) :
  (forall a w1, m w = (Ok a, w1) -> exists e, fst (k a w1) = Raise e) ->
  exists e, fst (bind m k w) = Raise e.
Proof.
  intros H. unfold bind. destruct (m w) as [[a|e] w1]; [by apply H | simpl; eauto].
Qed.

Lemma returns_inv {W A} (x : res A * W) :
  is_ok (fst x) = true -> exists a w, x = (Ok a, w).
Proof. destruct x as [[a|e] w]; simpl; [eauto | discriminate]. Qed.

Lemma bind_ext {W A B} (m : M W A) (k1 k2 : A -> M W B) (w : W) :
  (forall a w1, k1 a w1 = k2 a w1) -> bind m k1 w = bind m k2 w.
Proof. intros H. unfold bind. destruct (m w) as [[a|e] w1]; [apply H | done]. Qed.

(** ** The forecasting network *)

Section TimeGradFacts.

Context {F : Type} {ops : FloatOps F} {C : Collaborators F}.
#[local] Abbreviation tensor := (tensor F).
#[local] Abbreviation network := (network F).

(** What a successful construction stores. *)
Lemma init_ok_fields (cfg : config F) (net : network) :
  init cfg = Ok net ->
  lags_seq net = pysort (cfg_lags_seq cfg)
  /\ shifted_lags net = map (fun l => l - 1) (cfg_lags_seq cfg)
  /\ scaler_type net = cfg_scaler_type cfg
  /\ scaling net = cfg_scaling cfg
  /\ div_by_std net = cfg_div_by_std cfg
  /\ select_scaler cfg = Ok (scaler net).
Proof.
  unfold init. destruct (pymax (cfg_lags_seq cfg)); [|discriminate].
  intros H.
  apply rbind_ok in H as (_ & _ & H).
  apply rbind_ok in H as (sc & Hsc & H).
  apply rbind_ok in H as (_ & _ & H).
  apply rbind_ok in H as (_ & _ & H).
  injection H as <-. by simpl.
Qed.

(** *** The scaler type at construction and at use *)

Lemma select_scaler_nops (cfg : config F) :
  cfg_scaler_type cfg = "nops" -> select_scaler cfg = Ok NOPScaler.
Proof. unfold select_scaler. intros ->. by destruct (cfg_scaling cfg). Qed.

Lemma select_scaler_unscaled (cfg : config F) :
  cfg_scaling cfg = false -> select_scaler cfg = Ok NOPScaler.
Proof. unfold select_scaler. by intros ->. Qed.

Lemma compute_scale_params_unrecognised (net : network)
    (past_target_cdf past_observed_values : tensor) (w : world F) :
  recognised (scaler_type net) = false ->
  compute_scale_params net past_target_cdf past_observed_values w
    = (Raise (invalid_scaler (scaler_type net)), w).
Proof.
  unfold recognised, compute_scale_params. intros H.
  destruct (String.eqb (scaler_type net) "mean"); [done|].
  destruct (String.eqb (scaler_type net) "mean_std"); [done|].
  destruct (String.eqb (scaler_type net) "centered_mean"); [done|].
  done.
Qed.

(** With a scaler type outside [mean], [mean_std], [centered_mean],
    [unroll_encoder] never returns. *)
Lemma unroll_encoder_unrecognised (net : network)
    (past_time_feat past_target_cdf past_observed_values past_is_pad : tensor)
    (future_time_feat future_target_cdf : option tensor)
    (target_dimension_indicator : tensor) (w : world F) :
  recognised (scaler_type net) = false ->
  exists e,
    fst (unroll_encoder net past_time_feat past_target_cdf
           past_observed_values past_is_pad future_time_feat
           future_target_cdf target_dimension_indicator w) = Raise e.
Proof.
  intros H. unfold unroll_encoder.
  apply bind_raise. intros eff w1 _.
  apply bind_raise. intros [[[tf sq] sl] ssl] w2 _.
  apply bind_raise. intros lags w3 _.
  apply bind_raise. intros sp w4 Hsp.
  rewrite compute_scale_params_unrecognised in Hsp by done. discriminate.
Qed.


(** *** [div_by_std] *)

Lemma init_div_by_std (b : bool) (cfg : config F) :
  init (cfg_with_div_by_std b cfg)
  = try net <- init cfg; Ok (with_div_by_std b net).
Proof.
  unfold init. simpl.
  destruct (pymax (cfg_lags_seq cfg)); [|done].
  destruct (head_ctor _ _ _ _ _ _ _ _ _ _ _); [|done]. simpl.
  change (select_scaler (cfg_with_div_by_std b cfg)) with (select_scaler cfg).
  destruct (select_scaler cfg); [|done]. simpl.
  destruct (select_cell _); [|done]. simpl.
  destruct (rnn_ctor _ _ _ _ _); done.
Qed.

Lemma decode_loop_div_by_std (b : bool) (net : network)
    (repeated_time_feat repeated_target_dimension_indicator : tensor)
    (repeated_scale : dict tensor) (ks : list Z) :
  forall acc w,
    decode_loop (with_div_by_std b net) repeated_time_feat
      repeated_target_dimension_indicator repeated_scale ks acc w
    = decode_loop net repeated_time_feat
        repeated_target_dimension_indicator repeated_scale ks acc w.
Proof.
  induction ks as [|k ks IH]; intros acc w; [done|].
  cbn [decode_loop].
  change (decode_step (with_div_by_std b net)) with (decode_step net).
  apply bind_ext. intros acc' w1. apply IH.
Qed.

Lemma forward_div_by_std (b : bool) (net : network) (target_dimension_indicator
    past_target_cdf past_observed_values past_is_pad future_time_feat
    past_time_feat future_target_cdf future_observed_values : tensor)
    (w : world F) :
  forward (with_div_by_std b net) target_dimension_indicator past_target_cdf
    past_observed_values past_is_pad future_time_feat past_time_feat
    future_target_cdf future_observed_values w
  = forward net target_dimension_indicator past_target_cdf
      past_observed_values past_is_pad future_time_feat past_time_feat
      future_target_cdf future_observed_values w.
Proof.
  unfold forward. apply bind_ext. intros eff w1.
  change (unroll_encoder (with_div_by_std b net)) with (unroll_encoder net).
  apply bind_ext. intros [[[[o st] sp] ls] inp] w2.
  unfold sampling_decoder.
  change (repeat (with_div_by_std b net)) with (repeat net).
  change (repeat_dict (with_div_by_std b net)) with (repeat_dict net).
  change (repeat_states (with_div_by_std b net)) with (repeat_states net).
  repeat (apply bind_ext; intros ? ?).
  unfold bind. rewrite decode_loop_div_by_std. reflexivity.
Qed.

(** *** Scale parameters and the future *)

(** What [unroll_encoder] returns as [scale_params] is what
    [compute_scale_params] makes of the past target and the effective
    past mask, in the world the call started from. *)
Lemma unroll_encoder_scale (net : network)
    (past_time_feat past_target_cdf past_observed_values past_is_pad : tensor)
    (future_time_feat future_target_cdf : option tensor)
    (target_dimension_indicator : tensor) (w w' : world F)
    (r : tensor * rnn_state F * dict tensor * tensor * tensor) :
  unroll_encoder net past_time_feat past_target_cdf past_observed_values
    past_is_pad future_time_feat future_target_cdf
    target_dimension_indicator w = (Ok r, w') ->
  exists effective w1,
    effective_observed past_observed_values past_is_pad = Ok effective /\
    compute_scale_params net past_target_cdf effective w
      = (Ok (scale_params_of r), w1).
Proof.
  unfold unroll_encoder. intros H.
  apply bind_ok in H as (eff & w1 & Heff & H).
  apply lift_ok in Heff as [Heff ->].
  apply bind_ok in H as ([[[tf sq] sl] ssl] & w2 & Hwin & H).
  apply lift_ok in Hwin as [Hwin ->].
  apply bind_ok in H as (lags & w3 & Hlags & H).
  apply lift_ok in Hlags as [Hlags ->].
  apply bind_ok in H as (sp & w4 & Hsp & H).
  apply bind_ok in H as ([[[o st] ls] inp] & w5 & Hun & H).
  apply ret_ok in H as [-> ->].
  exists eff, w4. by simpl.
Qed.

Lemma call_ok {A} (f : ext_state -> res A * ext_state) (w w' : world F) (a : A) :
  call f w = (Ok a, w') -> f (ext w) = (Ok a, ext w').
Proof.
  unfold call. destruct (f (ext w)) as [r e]. by intros [= -> <-].
Qed.

(** The scaler is called on two slices only: the last [context_length]
    steps of the past target and of the effective past mask. *)
Lemma compute_scale_params_window (net : network)
    (past_target_cdf effective : tensor) (w w1 : world F) (sp : dict tensor) :
  compute_scale_params net past_target_cdf effective w = (Ok sp, w1) ->
  exists target_window observed_window out,
    slice_time past_target_cdf (- context_length net) None = Ok target_window
    /\ slice_time effective (- context_length net) None = Ok observed_window
    /\ scaler_call (scaler net) target_window observed_window (ext w)
       = (Ok out, ext w1)
    /\ ((exists x scale, out = [x; scale] /\ sp = [("scale", scale)])
        \/ (exists x mean std,
              out = [x; mean; std] /\ sp = [("mean", mean); ("std", std)])).
Proof.
  unfold compute_scale_params. intros H.
  destruct (String.eqb (scaler_type net) "mean").
  - apply bind_ok in H as (tw & v1 & Htw & H). apply lift_ok in Htw as [Htw ->].
    apply bind_ok in H as (ow & v2 & How & H). apply lift_ok in How as [How ->].
    apply bind_ok in H as (out & v3 & Hcall & H). apply call_ok in Hcall.
    destruct out as [|x [|scale [|? ?]]];
      try (apply lift_ok in H as [? _]; discriminate).
    apply ret_ok in H as [-> ->].
    exists tw, ow, [x; scale]. repeat split; try done. left. eauto.
  - destruct (String.eqb (scaler_type net) "mean_std"
              || String.eqb (scaler_type net) "centered_mean").
    + apply bind_ok in H as (tw & v1 & Htw & H). apply lift_ok in Htw as [Htw ->].
      apply bind_ok in H as (ow & v2 & How & H). apply lift_ok in How as [How ->].
      apply bind_ok in H as (out & v3 & Hcall & H). apply call_ok in Hcall.
      destruct out as [|x [|mean [|std [|? ?]]]];
        try (apply lift_ok in H as [? _]; discriminate).
      apply ret_ok in H as [-> ->].
      exists tw, ow, [x; mean; std]. repeat split; try done. right. eauto.
    + apply lift_ok in H as [? _]. discriminate.
Qed.

(** *** Sampling and the lag [0] *)

Lemma decode_step_asserts (net : network)
    (repeated_time_feat repeated_target_dimension_indicator : tensor)
    (repeated_scale : dict tensor) (k : Z)
    (acc : tensor * rnn_state F * list tensor) (w : world F) (lag : Z) :
  In lag (shifted_lags net) -> lag < 0 ->
  decode_step net repeated_time_feat repeated_target_dimension_indicator
    repeated_scale k acc w = (Raise AssertionError, w).
Proof.
  intros Hin Hneg. destruct acc as [[past states] samples].
  unfold decode_step, bind, lift.
  by rewrite (lagged_assert_negative _ _ _ _ lag Hin Hneg).
Qed.

Lemma sampling_decoder_asserts (net : network)
    (past_target_cdf target_dimension_indicator time_feat : tensor)
    (begin_states : rnn_state F) (scale_params : dict tensor)
    (w : world F) (lag : Z) :
  In lag (shifted_lags net) -> lag < 0 ->
  exists e,
    fst (sampling_decoder net past_target_cdf target_dimension_indicator
           time_feat begin_states scale_params w) = Raise e.
Proof.
  intros Hin Hneg. unfold sampling_decoder.
  apply bind_raise. intros rp w1 _.
  apply bind_raise. intros rtf w2 _.
  apply bind_raise. intros rsc w3 _.
  apply bind_raise. intros [] w4 _.
  apply bind_raise. intros rind w5 _.
  apply bind_raise. intros rst w6 _.
  apply bind_raise. intros [[p s] samples] w7 Hloop.
  destruct (pyrange (prediction_length net)) as [|k ks].
  - simpl in Hloop. apply ret_ok in Hloop as [Hacc ->].
    injection Hacc as -> -> ->.
    apply bind_raise. intros x w8 Hcat. discriminate.
  - cbn [decode_loop] in Hloop. unfold bind at 1 in Hloop.
    rewrite (decode_step_asserts _ _ _ _ _ _ _ lag Hin Hneg) in Hloop.
    discriminate.
Qed.

Lemma forward_asserts (net : network) (target_dimension_indicator
    past_target_cdf past_observed_values past_is_pad future_time_feat
    past_time_feat future_target_cdf future_observed_values : tensor)
    (w : world F) (lag : Z) :
  In lag (shifted_lags net) -> lag < 0 ->
  exists e,
    fst (forward net target_dimension_indicator past_target_cdf
           past_observed_values past_is_pad future_time_feat past_time_feat
           future_target_cdf future_observed_values w) = Raise e.
Proof.
  intros Hin Hneg. unfold forward.
  apply bind_raise. intros eff w1 _.
  apply bind_raise. intros [[[[o st] sp] ls] inp] w2 _.
  by apply sampling_decoder_asserts with (lag := lag).
Qed.

Lemma shifted_lag_negative (cfg : config F) (net : network) (lag : Z) :
  init cfg = Ok net -> In lag (lags_seq net) -> lag < 1 ->
  In (lag - 1) (shifted_lags net) /\ lag - 1 < 0.
Proof.
  intros Hinit Hin Hlt.
  destruct (init_ok_fields cfg net Hinit) as (Hl & Hs & _).
  rewrite Hl, pysort_in in Hin. rewrite Hs. split; [|lia].
  apply in_map_iff. eauto.
Qed.

End TimeGradFacts.

(** C6, at the scaler types the constructor lets through.  [__init__]
    takes ["nops"] (and, when [scaling] is off, any string) and builds a
    [NOPScaler]; [unroll_encoder] then dispatches on the string alone and
    raises [ValueError] for everything but [mean], [mean_std] and
    [centered_mean].  The error is deferred to the first [loss] or
    [forward] call. *)
Theorem scaler_type_rejected_after_construction {F : Type} {ops : FloatOps F}
    {C : Collaborators F} (cfg : config F) (net : network F) :
  cfg_scaler_type cfg = "nops"
  \/ (cfg_scaling cfg = false /\ recognised (cfg_scaler_type cfg) = false) ->
  init cfg = Ok net ->
  scaler net = NOPScaler
  /\ forall past_time_feat past_target_cdf past_observed_values past_is_pad
       future_time_feat future_target_cdf target_dimension_indicator w,
       exists e,
         fst (unroll_encoder net past_time_feat past_target_cdf
                past_observed_values past_is_pad future_time_feat
                future_target_cdf target_dimension_indicator w) = Raise e.
Proof.
  intros Hcase Hinit.
  destruct (init_ok_fields cfg net Hinit) as (_ & _ & Hst & _ & _ & Hsel).
  split.
  - destruct Hcase as [Hnops | [Hoff _]].
    + rewrite select_scaler_nops in Hsel by done. congruence.
    + rewrite select_scaler_unscaled in Hsel by done. congruence.
  - intros. apply unroll_encoder_unrecognised. rewrite Hst.
    destruct Hcase as [-> | [_ H]]; done.
Qed.

Lemma scaler_type_rejected_after_construction_witness :
  exists net,
    init (toy_config [1; 2] "nops" true) = Ok net
    /\ scaler net = NOPScaler
    /\ fst (loss net toy_target_dimension_indicator toy_past_target_cdf
              toy_past_observed_values toy_past_is_pad toy_future_time_feat
              toy_past_time_feat toy_future_target_cdf
              toy_future_observed_values toy_world)
       = Raise (ValueError "Invalid scaler type: nops")
    /\ exists e,
         fst (unroll_encoder net toy_past_time_feat toy_past_target_cdf
                toy_past_observed_values toy_past_is_pad None None
                toy_target_dimension_indicator toy_world) = Raise e.
Proof.
  eexists. split; [reflexivity|].
  split; [reflexivity|]. split; [reflexivity|].
  eapply (scaler_type_rejected_after_construction (toy_config [1; 2] "nops" true)).
  - left. reflexivity.
  - reflexivity.
Defined.

(** C8. [div_by_std] is copied into the network by [__init__] and read by
    nothing: two networks that differ in it alone have the same [loss],
    [unroll_encoder] and [forward] (same inputs, same collaborator state,
    so same randomness). *)
Theorem div_by_std_has_no_effect {F : Type} {ops : FloatOps F}
    {C : Collaborators F} (b : bool) :
  (forall cfg : config F,
     init (cfg_with_div_by_std b cfg)
     = try net <- init cfg; Ok (with_div_by_std b net))
  /\ (forall (net : network F) (target_dimension_indicator past_target_cdf
        past_observed_values past_is_pad future_time_feat past_time_feat
        future_target_cdf future_observed_values : tensor F)
        (future_time_feat' future_target_cdf' : option (tensor F))
        (w : world F),
        div_by_std (with_div_by_std b net) = b
        /\ loss (with_div_by_std b net) target_dimension_indicator
             past_target_cdf past_observed_values past_is_pad future_time_feat
             past_time_feat future_target_cdf future_observed_values w
           = loss net target_dimension_indicator
               past_target_cdf past_observed_values past_is_pad future_time_feat
               past_time_feat future_target_cdf future_observed_values w
        /\ unroll_encoder (with_div_by_std b net) past_time_feat past_target_cdf
             past_observed_values past_is_pad future_time_feat'
             future_target_cdf' target_dimension_indicator w
           = unroll_encoder net past_time_feat past_target_cdf
               past_observed_values past_is_pad future_time_feat'
               future_target_cdf' target_dimension_indicator w
        /\ forward (with_div_by_std b net) target_dimension_indicator
             past_target_cdf past_observed_values past_is_pad future_time_feat
             past_time_feat future_target_cdf future_observed_values w
           = forward net target_dimension_indicator
               past_target_cdf past_observed_values past_is_pad future_time_feat
               past_time_feat future_target_cdf future_observed_values w).
Proof.
  split; [apply init_div_by_std|].
  intros. split; [reflexivity|]. split; [reflexivity|].
  split; [reflexivity | apply forward_div_by_std].
Qed.

(** C2. The scale parameters that [unroll_encoder] returns do not depend on
    [future_time_feat] or [future_target_cdf]: two calls from the same
    state that agree on the past arguments and both return, return the same
    [scale_params], whatever each was given as future (tensors or [None]).
    They are what the scaler makes of the slices [-context_length:] of
    [past_target_cdf] and of the effective past mask. *)
Theorem scale_params_ignore_future {F : Type} {ops : FloatOps F}
    {C : Collaborators F} (net : network F)
    (past_time_feat past_target_cdf past_observed_values past_is_pad : tensor F)
    (future_time_feat1 future_target_cdf1 : option (tensor F))
    (future_time_feat2 future_target_cdf2 : option (tensor F))
    (target_dimension_indicator : tensor F) (w w1 w2 : world F)
    (r1 r2 : tensor F * rnn_state F * dict (tensor F) * tensor F * tensor F) :
  unroll_encoder net past_time_feat past_target_cdf past_observed_values
    past_is_pad future_time_feat1 future_target_cdf1
    target_dimension_indicator w = (Ok r1, w1) ->
  unroll_encoder net past_time_feat past_target_cdf past_observed_values
    past_is_pad future_time_feat2 future_target_cdf2
    target_dimension_indicator w = (Ok r2, w2) ->
  scale_params_of r1 = scale_params_of r2
  /\ exists effective target_window observed_window out e,
       effective_observed past_observed_values past_is_pad = Ok effective
       /\ slice_time past_target_cdf (- context_length net) None
          = Ok target_window
       /\ slice_time effective (- context_length net) None = Ok observed_window
       /\ scaler_call (scaler net) target_window observed_window (ext w)
          = (Ok out, e)
       /\ ((exists x scale,
              out = [x; scale] /\ scale_params_of r1 = [("scale", scale)])
           \/ (exists x mean std,
                 out = [x; mean; std]
                 /\ scale_params_of r1 = [("mean", mean); ("std", std)])).
Proof.
  intros H1 H2.
  apply unroll_encoder_scale in H1 as (e1 & u1 & He1 & Hs1).
  apply unroll_encoder_scale in H2 as (e2 & u2 & He2 & Hs2).
  rewrite He1 in He2. injection He2 as <-.
  split; [rewrite Hs1 in Hs2; by injection Hs2|].
  apply compute_scale_params_window in Hs1 as (tw & ow & out & Htw & How & Hc & Hf).
  exists e1, tw, ow, out, (ext u1). by repeat split.
Qed.

Lemma scale_params_ignore_future_witness :
  exists r1 w1 r2 w2,
    unroll_encoder (toy_network [1; 2] "mean") toy_past_time_feat
      toy_past_target_cdf toy_past_observed_values toy_past_is_pad None None
      toy_target_dimension_indicator toy_world = (Ok r1, w1)
    /\ unroll_encoder (toy_network [1; 2] "mean") toy_past_time_feat
         toy_past_target_cdf toy_past_observed_values toy_past_is_pad
         (Some toy_future_time_feat) (Some toy_future_target_cdf)
         toy_target_dimension_indicator toy_world = (Ok r2, w2)
    /\ scale_params_of r1 = scale_params_of r2.
Proof.
  destruct (returns_inv (unroll_encoder (toy_network [1; 2] "mean")
      toy_past_time_feat toy_past_target_cdf toy_past_observed_values
      toy_past_is_pad None None toy_target_dimension_indicator toy_world))
    as (r1 & w1 & H1); [vm_compute; reflexivity|].
  destruct (returns_inv (unroll_encoder (toy_network [1; 2] "mean")
      toy_past_time_feat toy_past_target_cdf toy_past_observed_values
      toy_past_is_pad (Some toy_future_time_feat) (Some toy_future_target_cdf)
      toy_target_dimension_indicator toy_world))
    as (r2 & w2 & H2); [vm_compute; reflexivity|].
  exists r1, w1, r2, w2. split; [exact H1|]. split; [exact H2|].
  exact (proj1 (scale_params_ignore_future _ _ _ _ _ _ _ _ _ _ _ _ _ _ _ H1 H2)).
Defined.

(** C10. [forward] returns only for networks whose lags are all at least
    1: the decoder hands [shifted_lags], the lags minus one, to
    [get_lagged_subsequences], so with a lag [0] the very first decoding
    step ends in an [AssertionError], while [__init__] and [loss] take a
    lag [0]. *)
Theorem forward_requires_positive_lags {F : Type} {ops : FloatOps F}
    {C : Collaborators F} (cfg : config F) (net : network F) :
  init cfg = Ok net ->
  (forall target_dimension_indicator past_target_cdf past_observed_values
      past_is_pad future_time_feat past_time_feat future_target_cdf
      future_observed_values w out w',
      forward net target_dimension_indicator past_target_cdf
        past_observed_values past_is_pad future_time_feat past_time_feat
        future_target_cdf future_observed_values w = (Ok out, w') ->
      forall lag, In lag (lags_seq net) -> 1 <= lag)
  /\ (In 0 (lags_seq net) ->
      forall repeated_time_feat repeated_target_dimension_indicator
        repeated_scale acc w,
        decode_step net repeated_time_feat repeated_target_dimension_indicator
          repeated_scale 0 acc w = (Raise AssertionError, w)).
Proof.
  intros Hinit. split.
  - intros ind ptc pov pad ftf ptf ftc fov w out w' Hfwd lag Hin.
    destruct (Z_lt_le_dec lag 1) as [Hlt|]; [|done]. exfalso.
    destruct (shifted_lag_negative cfg net lag Hinit Hin Hlt) as [Hs Hneg].
    destruct (forward_asserts net ind ptc pov pad ftf ptf ftc fov w _ Hs Hneg)
      as [e He].
    rewrite Hfwd in He. discriminate.
  - intros Hin rtf rind rsc acc w.
    destruct (shifted_lag_negative cfg net 0 Hinit Hin) as [Hs Hneg]; [lia|].
    by apply decode_step_asserts with (lag := 0 - 1).
Qed.

Lemma forward_requires_positive_lags_witness :
  (* a lag 0: constructed, trained on, not sampled from *)
  (init (toy_config [1; 0] "mean" true) = Ok (toy_network [1; 0] "mean")
   /\ is_ok (fst (loss (toy_network [1; 0] "mean")
                    toy_target_dimension_indicator (tensor3_of [[[1]; [2]; [3]]])
                    (tensor3_of [[[1]; [1]; [0]]]) (tensor2_of [[1; 0; 0]])
                    toy_future_time_feat (tensor3_of [[[5]; [6]; [7]]])
                    toy_future_target_cdf toy_future_observed_values
                    toy_world)) = true
   /\ fst (forward (toy_network [1; 0] "mean")
             toy_target_dimension_indicator (tensor3_of [[[1]; [2]; [3]]])
             (tensor3_of [[[1]; [1]; [0]]]) (tensor2_of [[1; 0; 0]])
             toy_future_time_feat (tensor3_of [[[5]; [6]; [7]]])
             toy_future_target_cdf toy_future_observed_values toy_world)
      = Raise AssertionError
   /\ forall acc w,
        decode_step (toy_network [1; 0] "mean") toy_future_time_feat
          toy_target_dimension_indicator [] 0 acc w = (Raise AssertionError, w))
  (* lags 1 and 2: sampled from *)
  /\ (is_ok (fst (forward (toy_network [1; 2] "mean")
                    toy_target_dimension_indicator toy_past_target_cdf
                    toy_past_observed_values toy_past_is_pad
                    toy_future_time_feat toy_past_time_feat
                    toy_future_target_cdf toy_future_observed_values
                    toy_world)) = true
      /\ forall lag, In lag (lags_seq (toy_network [1; 2] "mean")) -> 1 <= lag).
Proof.
  split.
  - split; [reflexivity|]. split; [vm_compute; reflexivity|].
    split; [vm_compute; reflexivity|].
    intros acc w.
    assert (Hinit : init (toy_config [1; 0] "mean" true)
                    = Ok (toy_network [1; 0] "mean")) by reflexivity.
    apply (proj2 (forward_requires_positive_lags _ _ Hinit)).
    simpl. tauto.
  - split; [vm_compute; reflexivity|].
    destruct (returns_inv (forward (toy_network [1; 2] "mean")
        toy_target_dimension_indicator toy_past_target_cdf
        toy_past_observed_values toy_past_is_pad toy_future_time_feat
        toy_past_time_feat toy_future_target_cdf toy_future_observed_values
        toy_world)) as (out & w' & Hfwd); [vm_compute; reflexivity|].
    assert (Hinit : init (toy_config [1; 2] "mean" true)
                    = Ok (toy_network [1; 2] "mean")) by reflexivity.
    exact (proj1 (forward_requires_positive_lags _ _ Hinit)
             _ _ _ _ _ _ _ _ _ _ _ Hfwd).
Defined.

(** ** The loss mask *)

Section MaskFacts.

Context {F : Type} {ops : FloatOps F}.
#[local] Abbreviation tensor := (tensor F).

Lemma slice_time_spec (t : tensor) (n len : nat) (rest : list nat)
    (start : Z) (stop : option Z) :
  shape t = n :: len :: rest ->
  exists t',
    slice_time t start stop = Ok t' /\
    shape t' = n :: snd (slice_bounds len start stop) :: rest /\
    forall b j r,
      entry t' (b :: j :: r)
      = entry t (b :: (fst (slice_bounds len start stop) + j)%nat :: r).
Proof.
  intros Hs. unfold slice_time. rewrite Hs.
  destruct (slice_bounds len start stop) as [off k].
  eexists. split; [reflexivity|]. by simpl.
Qed.

Lemma not_skipped3 (t : tensor) (a b c : nat) :
  shape t = [a; b; c] -> cat_skip t = false.
Proof.
  intros H. unfold cat_skip, list_eqb_nat. rewrite H.
  by apply bool_decide_eq_false_2.
Qed.

(** Two tensors that agree on batch and feature sizes, joined in time. *)
Lemma cat_pair_time (a b : tensor) (B l1 l2 D : nat) :
  shape a = [B; l1; D] -> shape b = [B; l2; D] ->
  exists out,
    cat [a; b] 1 = Ok out /\
    shape out = [B; (l1 + l2)%nat; D] /\
    (forall x t c, (t < l1)%nat -> entry out [x; t; c] = entry a [x; t; c]) /\
    (forall x t c, entry out [x; (l1 + t)%nat; c] = entry b [x; t; c]).
Proof.
  intros Ha Hb. unfold cat. cbn [List.filter].
  rewrite (not_skipped3 a B l1 D), (not_skipped3 b B l2 D) by done.
  cbn [negb].
  unfold rank. rewrite Ha. simpl. change (Z.to_nat 1) with 1%nat.
  unfold cat_compatible, list_eqb_nat, rank, remove_at. rewrite Ha, Hb. simpl.
  rewrite bool_decide_eq_true_2 by done. simpl.
  eexists. split; [reflexivity|]. simpl. unfold dim_size. rewrite Ha, Hb. simpl.
  split; [done|]. split.
  - intros x t c Ht. apply Nat.ltb_lt in Ht. by rewrite Ht.
  - intros x t c.
    replace (l1 + t <? l1)%nat with false by (symmetry; apply Nat.ltb_ge; lia).
    do 3 f_equal. lia.
Qed.

Lemma broadcast_index_inside (B T D b t c : nat) :
  (b < B)%nat -> (t < T)%nat -> (c < D)%nat ->
  broadcast_index [B; T; D] [b; t; c] = [b; t; c].
Proof.
  intros Hb Ht Hc. unfold broadcast_index. simpl.
  assert (E : forall n i, (i < n)%nat -> (if (n =? 1)%nat then 0%nat else i) = i).
  { intros n i H. destruct (Nat.eqb_spec n 1); [lia | done]. }
  by rewrite !E.
Qed.

Lemma broadcast_index_last (B T b t c : nat) :
  (b < B)%nat -> (t < T)%nat ->
  broadcast_index [B; T; 1%nat] [b; t; c] = [b; t; 0%nat].
Proof.
  intros Hb Ht. unfold broadcast_index. simpl.
  assert (E : forall n i, (i < n)%nat -> (if (n =? 1)%nat then 0%nat else i) = i).
  { intros n i H. destruct (Nat.eqb_spec n 1); [lia | done]. }
  by rewrite !E.
Qed.

Lemma broadcast_shapes_mask (B T D : nat) :
  broadcast_shapes [B; T; D] [B; T; 1%nat] = Ok [B; T; D].
Proof.
  unfold broadcast_shapes. simpl. rewrite !Nat.eqb_refl. simpl.
  destruct (D =? 1)%nat; done.
Qed.

(** Observed and not padded, elementwise. *)
Lemma effective_observed_spec (past_observed_values past_is_pad : tensor)
    (B T D : nat) :
  shape past_observed_values = [B; T; D] ->
  shape past_is_pad = [B; T] ->
  exists eff,
    effective_observed past_observed_values past_is_pad = Ok eff /\
    shape eff = [B; T; D] /\
    forall b t c, (b < B)%nat -> (t < T)%nat -> (c < D)%nat ->
      entry eff [b; t; c]
      = fmin (entry past_observed_values [b; t; c])
             (fsub fone (entry past_is_pad [b; t])).
Proof.
  intros Ho Hp. unfold effective_observed, unsqueeze, rank, norm_dim.
  rewrite Hp. simpl. unfold tmin, broadcast2, one_minus, tmap. simpl.
  rewrite Ho. unfold insert_at. simpl.
  rewrite broadcast_shapes_mask. simpl.
  eexists. split; [reflexivity|]. simpl. split; [done|].
  intros b t c Hb Ht Hc.
  rewrite broadcast_index_inside, broadcast_index_last by done. done.
Qed.

Lemma min_last_keepdim_spec (t : tensor) (B L n : nat) :
  shape t = [B; L; S n] ->
  exists out,
    min_last_keepdim t = Ok out /\
    shape out = [B; L; 1%nat] /\
    forall b l j,
      entry out [b; l; j] = fold_min n (fun c => entry t [b; l; c]).
Proof.
  intros Hs. unfold min_last_keepdim. rewrite Hs. simpl.
  eexists. split; [reflexivity|]. by simpl.
Qed.

(** A mask entry of [0] makes the minimum [0], for masks of zeros and
    ones and a [min] that is the meet on them. *)
Lemma fold_min_zero (zero : F) (n : nat) (f : nat -> F) :
  fmin zero zero = zero -> fmin zero fone = zero -> fmin fone zero = zero ->
  fmin fone fone = fone ->
  (forall c, (c <= n)%nat -> f c = zero \/ f c = fone) ->
  (exists c, (c <= n)%nat /\ f c = zero) ->
  fold_min n f = zero.
Proof.
  intros H00 H01 H10 H11 Hval [c0 [Hc0 Hz]]. unfold fold_min.
  assert (Hgen : forall l acc,
    (forall c, In c l -> f c = zero \/ f c = fone) ->
    (acc = zero \/ (acc = fone /\ exists c, In c l /\ f c = zero)) ->
    fold_left (fun acc c => fmin acc (f c)) l acc = zero).
  { induction l as [|c l IH]; intros acc Hl Hacc; simpl.
    - by destruct Hacc as [->|[_ (c & [] & _)]].
    - apply IH; [intros c' Hc'; apply Hl; by right|].
      assert (Hc : f c = zero \/ f c = fone) by (apply Hl; by left).
      destruct Hacc as [->|[-> (c' & [<-|Hin] & Hc')]].
      + left. by destruct Hc as [->| ->].
      + left. by rewrite Hc'.
      + destruct Hc as [->| ->]; [by left|].
        right. rewrite H11. eauto. }
  apply Hgen.
  - intros c Hin. apply in_seq in Hin. apply Hval. lia.
  - destruct c0 as [|c0]; [by left|].
    destruct (Hval 0%nat) as [E|E]; [lia | by left |].
    right. split; [done|]. exists (S c0). split; [|done].
    apply in_seq. lia.
Qed.

Lemma slice_bounds_to_end (n : nat) (start : Z) :
  (fst (slice_bounds n start None) + snd (slice_bounds n start None))%nat = n.
Proof.
  unfold slice_bounds, adjust_index. simpl.
  destruct (Z.ltb_spec start 0); lia.
Qed.

(** The mask of the whole window: the last [len] steps of the effective
    past mask, where [len] is what the slice [-context_length:] keeps,
    followed by the future mask. *)
Lemma observed_values_spec {C : Collaborators F} (net : network F)
    (past_observed_values past_is_pad future_observed_values : tensor)
    (B T P D : nat) :
  shape past_observed_values = [B; T; D] ->
  shape past_is_pad = [B; T] ->
  shape future_observed_values = [B; P; D] ->
  let off := fst (slice_bounds T (- context_length net) None) in
  let len := snd (slice_bounds T (- context_length net) None) in
  exists ov,
    observed_values net past_observed_values past_is_pad
      future_observed_values = Ok ov /\
    shape ov = [B; (len + P)%nat; D] /\
    (forall b t c, (b < B)%nat -> (t < len)%nat -> (c < D)%nat ->
       entry ov [b; t; c]
       = fmin (entry past_observed_values [b; (off + t)%nat; c])
              (fsub fone (entry past_is_pad [b; (off + t)%nat]))) /\
    (forall b t c,
       entry ov [b; (len + t)%nat; c] = entry future_observed_values [b; t; c]).
Proof.
  intros Ho Hp Hf off len.
  destruct (effective_observed_spec _ _ B T D Ho Hp) as (eff & Heff & Hes & Hee).
  destruct (slice_time_spec eff B T [D] (- context_length net) None Hes)
    as (pw & Hpw & Hps & Hpe).
  fold len in Hps. fold off in Hpe.
  destruct (cat_pair_time pw future_observed_values B len P D Hps Hf)
    as (ov & Hov & Hos & Hpast & Hfut).
  exists ov. unfold observed_values. rewrite Heff. simpl. rewrite Hpw. simpl.
  split; [done|]. split; [done|]. split; [|done].
  intros b t c Hb Ht Hc. rewrite Hpast by done. rewrite Hpe.
  apply Hee; try done.
  pose proof (slice_bounds_to_end T (- context_length net)).
  fold off len in H. lia.
Qed.

End MaskFacts.

Section WindowFacts.

Context {F : Type} {ops : FloatOps F} {C : Collaborators F}.
#[local] Abbreviation tensor := (tensor F).
#[local] Abbreviation network := (network F).

(** [reshape((-1, unroll_length, k))] keeps [unroll_length] as the size of
    axis 1, and fails for a negative one. *)
Lemma reshape_time (x out : tensor) (unroll_length k : Z) :
  reshape [-1; unroll_length; k] x = Ok out ->
  0 <= unroll_length /\
  exists n k', shape out = [n; Z.to_nat unroll_length; k'].
Proof.
  unfold reshape. intros H. apply rbind_ok in H as (s & Hs & H).
  injection H as <-. cbn [shape]. revert Hs. unfold reshape_dims.
  cbn [existsb List.filter]. change (-1 <? -1) with false.
  change (0 <=? -1) with false. change (-1 =? -1) with true. cbn [orb].
  destruct (Z.ltb_spec unroll_length (-1)); [discriminate|].
  destruct (Z.ltb_spec k (-1)); [discriminate|]. cbn [orb].
  destruct (Z.eqb_spec unroll_length (-1)) as [->|Hu].
  { destruct (k =? -1); discriminate. }
  destruct (Z.eqb_spec k (-1)) as [->|Hk]; [discriminate|].
  split; [lia|]. revert Hs. cbn [length].
  destruct (_ =? 0)%nat; [discriminate|].
  destruct (_ =? 0)%nat; [|discriminate].
  cbn [map]. change (-1 =? -1) with true.
  destruct (Z.eqb_spec unroll_length (-1)); [lia|].
  destruct (Z.eqb_spec k (-1)); [lia|].
  intros [= <-]. eauto.
Qed.

Lemma cat_last_time (il tf : tensor) (others : list tensor)
    (n u k B L Fe : nat) (out : tensor) :
  shape il = [n; u; k] -> shape tf = [B; L; Fe] ->
  cat (il :: others ++ [tf]) (-1) = Ok out -> u = L.
Proof.
  intros Hil Htf. unfold cat. cbn [List.filter].
  rewrite (not_skipped3 il n u k) by done. cbn [negb].
  rewrite List.filter_app. cbn [List.filter].
  rewrite (not_skipped3 tf B L Fe) by done. cbn [negb].
  unfold rank at 1. rewrite Hil. simpl.
  rewrite forallb_app. simpl.
  destruct (forallb _ (List.filter _ others)); [|discriminate]. simpl.
  unfold cat_compatible, list_eqb_nat, remove_at, rank. rewrite Hil, Htf. simpl.
  destruct (bool_decide ([n; u] = [B; L])) eqn:E; [|discriminate].
  apply bool_decide_eq_true_1 in E. intros _. congruence.
Qed.

(** What [unroll] feeds the recurrent cell has [unroll_length] steps, so
    the time features must have as many. *)
Lemma unroll_time_length (net : network) (lags : tensor)
    (scale_params : dict tensor) (time_feat target_dimension_indicator : tensor)
    (unroll_length : Z) (begin_state : option (rnn_state F))
    (w w' : world F) (r : tensor * rnn_state F * tensor * tensor)
    (B L Fe : nat) :
  shape time_feat = [B; L; Fe] ->
  unroll net lags scale_params time_feat target_dimension_indicator
    unroll_length begin_state w = (Ok r, w') ->
  0 <= unroll_length /\ L = Z.to_nat unroll_length.
Proof.
  intros Htf H. unfold unroll in H.
  apply bind_ok in H as (ls & w1 & _ & H).
  apply bind_ok in H as (il & w2 & Hil & H).
  apply lift_ok in Hil as [Hil ->].
  apply reshape_time in Hil as (Hul & n & k' & Hil).
  split; [done|].
  apply bind_ok in H as (inputs & w3 & Hin & _).
  destruct (0 <? embed_dim net).
  - apply bind_ok in Hin as (ie & w4 & _ & Hin).
    apply bind_ok in Hin as (rep & w5 & _ & Hin).
    apply lift_ok in Hin as [Hin _].
    symmetry. by apply (cat_last_time il time_feat [rep] n _ k' B L Fe inputs).
  - apply lift_ok in Hin as [Hin _].
    symmetry. by apply (cat_last_time il time_feat [] n _ k' B L Fe inputs).
Qed.

(** When [loss] returns, the window it was trained on is the last
    [context_length] past steps and the [prediction_length] future ones. *)
Lemma loss_ok_window (net : network) (target_dimension_indicator
    past_target_cdf past_observed_values past_is_pad future_time_feat
    past_time_feat future_target_cdf future_observed_values : tensor)
    (w w' : world F) (r : F * tensor * distr_args_t) (B T P Fe : nat) :
  shape past_time_feat = [B; T; Fe] ->
  shape future_time_feat = [B; P; Fe] ->
  loss net target_dimension_indicator past_target_cdf past_observed_values
    past_is_pad future_time_feat past_time_feat future_target_cdf
    future_observed_values w = (Ok r, w') ->
  0 <= context_length net + prediction_length net
  /\ (snd (slice_bounds T (- context_length net) None) + P)%nat
     = Z.to_nat (context_length net + prediction_length net)
  /\ exists wts,
       loss_weights net past_observed_values past_is_pad
         future_observed_values = Ok wts.
Proof.
  intros Hptf Hftf H. unfold loss in H.
  apply bind_ok in H as ([[[[o st] sp] ls] inp] & w1 & Hue & H).
  apply bind_ok in H as (target & w2 & _ & H).
  apply bind_ok in H as (da & w3 & _ & H).
  apply bind_ok in H as (u & w4 & _ & H).
  apply bind_ok in H as (act & w5 & _ & H).
  apply bind_ok in H as (lp & w6 & _ & H).
  apply bind_ok in H as (lk & w7 & _ & H).
  apply bind_ok in H as (wts & w8 & Hw & _).
  apply lift_ok in Hw as [Hw _].
  assert (Hlen : 0 <= context_length net + prediction_length net
                 /\ (snd (slice_bounds T (- context_length net) None) + P)%nat
                    = Z.to_nat (context_length net + prediction_length net)).
  { unfold unroll_encoder in Hue.
    apply bind_ok in Hue as (eff & v1 & _ & Hue).
    apply bind_ok in Hue as ([[[tf sq] sl] ssl] & v2 & Hwin & Hue).
    apply lift_ok in Hwin as [Hwin _].
    apply bind_ok in Hue as (lags & v3 & _ & Hue).
    apply bind_ok in Hue as (sp' & v4 & _ & Hue).
    apply bind_ok in Hue as (ur & v5 & Hun & _).
    unfold encoder_window in Hwin.
    destruct (slice_time_spec past_time_feat B T [Fe]
                (- context_length net) None Hptf) as (ptw & Hptw & Hps & _).
    rewrite Hptw in Hwin. cbn [rbind] in Hwin.
    destruct (cat_pair_time ptw future_time_feat B _ P Fe Hps Hftf)
      as (tf' & Htf' & Hts & _).
    rewrite Htf' in Hwin. cbn [rbind] in Hwin.
    apply rbind_ok in Hwin as (sq' & _ & Hwin).
    injection Hwin as <- <- <- <-.
    destruct (unroll_time_length _ _ _ _ _ _ _ _ _ _ _ _ _ Hts Hun). done. }
  destruct Hlen. eauto.
Qed.

(** What [loss] returns is the mean of [weighted_average] of the
    likelihoods with the weights [loss_weights], along the time axis; the
    likelihoods are [log_prob] of the window's targets with a last axis
    added. *)
Lemma loss_ok_weighted_average (net : network) (target_dimension_indicator
    past_target_cdf past_observed_values past_is_pad future_time_feat
    past_time_feat future_target_cdf future_observed_values : tensor)
    (w w' : world F) (r : F * tensor * distr_args_t) :
  loss net target_dimension_indicator past_target_cdf past_observed_values
    past_is_pad future_time_feat past_time_feat future_target_cdf
    future_observed_values w = (Ok r, w') ->
  exists (wts target log_prob likelihoods weighted : tensor)
         (distr_args : distr_args_t) (e0 e1 : ext_state),
    loss_weights net past_observed_values past_is_pad
      future_observed_values = Ok wts
    /\ (try past_window <- slice_time past_target_cdf (- context_length net) None;
        cat [past_window; future_target_cdf] 1) = Ok target
    /\ log_prob_call (diffusion_scale w') target distr_args e0
       = (Ok log_prob, e1)
    /\ unsqueeze (-1) log_prob = Ok likelihoods
    /\ weighted_average_call likelihoods wts 1 e1 = (Ok weighted, ext w')
    /\ r = (mean_call weighted, likelihoods, distr_args).
Proof.
  intros H. unfold loss in H.
  apply bind_ok in H as ([[[[o st] sp] ls] inp] & w1 & _ & H).
  apply bind_ok in H as (target & w2 & Ht & H).
  apply lift_ok in Ht as [Ht ->].
  apply bind_ok in H as (da & w3 & _ & H).
  apply bind_ok in H as (u & w4 & _ & H).
  apply bind_ok in H as (act & w5 & Hact & H).
  unfold get_diffusion_scale in Hact. injection Hact as <- <-.
  apply bind_ok in H as (lp & w6 & Hlp & H).
  assert (Hs6 : diffusion_scale w6 = diffusion_scale w4).
  { unfold call in Hlp. destruct (log_prob_call _ _ _ _) as [x e].
    by injection Hlp as _ <-. }
  apply call_ok in Hlp.
  apply bind_ok in H as (lk & w7 & Hlk & H).
  apply lift_ok in Hlk as [Hlk ->].
  apply bind_ok in H as (wts & w8 & Hw & H).
  apply lift_ok in Hw as [Hw ->].
  apply bind_ok in H as (weighted & w9 & Hwa & H).
  assert (Hs9 : diffusion_scale w9 = diffusion_scale w6).
  { unfold call in Hwa. destruct (weighted_average_call _ _ _ _) as [x e].
    by injection Hwa as _ <-. }
  apply call_ok in Hwa.
  apply ret_ok in H as [-> ->].
  exists wts, target, lp, lk, weighted, da, (ext w4), (ext w6).
  rewrite Hs9, Hs6. done.
Qed.

End WindowFacts.

(** C4. In a [loss] call that returns, on inputs of the documented shapes,
    the loss returned is the mean of [weighted_average] of the likelihoods
    along the time axis with the weights [wts], and the weight of each step
    of the context-plus-prediction window is the minimum over the target
    dimensions of the mask [observed_values]; that mask is, on the context
    steps, [min(past_observed_values, 1 - past_is_pad)] at the last
    [context_length] past steps and, on the prediction steps,
    [future_observed_values].  On masks of zeros and ones one zero among the
    dimensions of a step makes the weight of the step zero. *)
Theorem loss_weights_are_min_of_mask {F : Type} {ops : FloatOps F}
    {C : Collaborators F} (net : network F) (target_dimension_indicator
    past_target_cdf past_observed_values past_is_pad future_time_feat
    past_time_feat future_target_cdf future_observed_values : tensor F)
    (w w' : world F) (r : F * tensor F * distr_args_t) (B T P D Fe : nat) :
  prediction_length net = Z.of_nat P ->
  shape past_observed_values = [B; T; D] ->
  shape past_is_pad = [B; T] ->
  shape future_observed_values = [B; P; D] ->
  shape past_time_feat = [B; T; Fe] ->
  shape future_time_feat = [B; P; Fe] ->
  loss net target_dimension_indicator past_target_cdf past_observed_values
    past_is_pad future_time_feat past_time_feat future_target_cdf
    future_observed_values w = (Ok r, w') ->
  exists (ctx : nat) (ov wts : tensor F),
    context_length net = Z.of_nat ctx /\ (ctx <= T)%nat /\ (0 < D)%nat /\
    observed_values net past_observed_values past_is_pad
      future_observed_values = Ok ov /\
    loss_weights net past_observed_values past_is_pad
      future_observed_values = Ok wts /\
    (exists (target log_prob likelihoods weighted : tensor F)
            (distr_args : distr_args_t) (e0 e1 : ext_state),
       (try past_window <- slice_time past_target_cdf (- context_length net) None;
        cat [past_window; future_target_cdf] 1) = Ok target /\
       log_prob_call (diffusion_scale w') target distr_args e0
       = (Ok log_prob, e1) /\
       unsqueeze (-1) log_prob = Ok likelihoods /\
       weighted_average_call likelihoods wts 1 e1 = (Ok weighted, ext w') /\
       r = (mean_call weighted, likelihoods, distr_args)) /\
    shape wts = [B; (ctx + P)%nat; 1%nat] /\
    (forall b t, (b < B)%nat -> (t < ctx + P)%nat ->
       entry wts [b; t; 0%nat]
       = fold_min (D - 1) (fun c => entry ov [b; t; c])) /\
    (forall b t c, (b < B)%nat -> (t < ctx)%nat -> (c < D)%nat ->
       entry ov [b; t; c]
       = fmin (entry past_observed_values [b; (T - ctx + t)%nat; c])
              (fsub fone (entry past_is_pad [b; (T - ctx + t)%nat]))) /\
    (forall b t c, (b < B)%nat -> (t < P)%nat -> (c < D)%nat ->
       entry ov [b; (ctx + t)%nat; c] = entry future_observed_values [b; t; c]) /\
    (let zero := fsub fone fone in
     fmin zero zero = zero -> fmin zero fone = zero ->
     fmin fone zero = zero -> fmin fone fone = fone ->
     forall b t, (b < B)%nat -> (t < ctx + P)%nat ->
       (forall c, (c < D)%nat ->
          entry ov [b; t; c] = zero \/ entry ov [b; t; c] = fone) ->
       (exists c, (c < D)%nat /\ entry ov [b; t; c] = zero) ->
       entry wts [b; t; 0%nat] = zero).
Proof.
  intros HP Ho Hp Hf Hptf Hftf Hloss.
  destruct (loss_ok_window _ _ _ _ _ _ _ _ _ _ _ _ B T P Fe Hptf Hftf Hloss)
    as (Hnn & Hlen & wts0 & _).
  destruct (loss_ok_weighted_average _ _ _ _ _ _ _ _ _ _ _ _ Hloss)
    as (wts & target & lp & lk & weighted & da & e0 & e1
        & Hw & Htarget & Hlp & Hlk & Hwa & Hr).
  clear wts0.
  destruct (observed_values_spec net _ _ _ B T P D Ho Hp Hf)
    as (ov & Hov & Hos & Hpast & Hfut).
  pose proof (slice_bounds_to_end T (- context_length net)) as Hend.
  set (off := fst (slice_bounds T (- context_length net) None)) in *.
  set (len := snd (slice_bounds T (- context_length net) None)) in *.
  assert (Hctx : 0 <= context_length net /\ len = Z.to_nat (context_length net)).
  { subst off len. revert Hlen Hend. rewrite HP in *.
    unfold slice_bounds, adjust_index. simpl.
    destruct (Z.ltb_spec (- context_length net) 0); lia. }
  destruct Hctx as [Hc0 Hlc].
  assert (Hoff : off = (T - len)%nat) by lia.
  unfold loss_weights in Hw. rewrite Hov in Hw. cbn [rbind] in Hw.
  destruct D as [|n].
  { unfold min_last_keepdim in Hw. rewrite Hos in Hw. discriminate. }
  destruct (min_last_keepdim_spec ov B (len + P) n Hos) as (wts' & Hw' & Hws & Hwe).
  rewrite Hw' in Hw. injection Hw as ->.
  exists len, ov, wts.
  split; [lia|]. split; [lia|]. split; [lia|]. split; [done|].
  split; [by unfold loss_weights; rewrite Hov|].
  split; [by exists target, lp, lk, weighted, da, e0, e1|].
  split; [done|].
  replace (S n - 1)%nat with n by lia.
  split; [intros; apply Hwe|].
  split; [intros b t c Hb Ht Hc; rewrite <- Hoff; by apply Hpast|].
  split; [intros; apply Hfut|].
  intros zero H00 H01 H10 H11 b t Hb Ht Hval Hex. rewrite Hwe.
  apply fold_min_zero; try done.
  - intros c Hc. apply Hval. lia.
  - destruct Hex as (c & Hc & Hz). exists c. split; [lia | done].
Qed.

Lemma loss_weights_are_min_of_mask_witness :
  exists (r : Z * tensor Z * tensor Z) (w' : world Z) (ctx : nat)
         (ov wts likelihoods weighted : tensor Z) (e1 : nat),
    loss toy_network2 toy2_target_dimension_indicator toy2_past_target_cdf
      toy2_past_observed_values toy2_past_is_pad toy_future_time_feat
      toy_past_time_feat toy2_future_target_cdf toy2_future_observed_values
      toy_world = (Ok r, w') /\
    context_length toy_network2 = Z.of_nat ctx /\
    loss_weights toy_network2 toy2_past_observed_values toy2_past_is_pad
      toy2_future_observed_values = Ok wts /\
    weighted_average_call likelihoods wts 1 e1 = (Ok weighted, ext w') /\
    fst (fst r) = mean_call weighted /\
    shape wts = [1; (ctx + 1); 1]%nat /\
    (forall b t, (b < 1)%nat -> (t < ctx + 1)%nat ->
       entry wts [b; t; 0%nat]
       = fold_min (2 - 1) (fun c => entry ov [b; t; c])) /\
    (* third past step: one dimension missing; fourth: padding; future:
       both dimensions observed *)
    (entry ov [0; 0; 0]%nat = 1 /\ entry ov [0; 0; 1]%nat = 0
     /\ entry wts [0; 0; 0]%nat = 0) /\
    (entry ov [0; 1; 0]%nat = 0 /\ entry ov [0; 1; 1]%nat = 0
     /\ entry wts [0; 1; 0]%nat = 0) /\
    (entry ov [0; 2; 0]%nat = 1 /\ entry ov [0; 2; 1]%nat = 1
     /\ entry wts [0; 2; 0]%nat = 1).
Proof.
  destruct (returns_inv (loss toy_network2 toy2_target_dimension_indicator
      toy2_past_target_cdf toy2_past_observed_values toy2_past_is_pad
      toy_future_time_feat toy_past_time_feat toy2_future_target_cdf
      toy2_future_observed_values toy_world))
    as (r & w' & Hloss); [vm_compute; reflexivity|].
  destruct (loss_weights_are_min_of_mask toy_network2
      toy2_target_dimension_indicator toy2_past_target_cdf
      toy2_past_observed_values toy2_past_is_pad toy_future_time_feat
      toy_past_time_feat toy2_future_target_cdf toy2_future_observed_values
      toy_world w' r 1 4 1 2 1
      eq_refl eq_refl eq_refl eq_refl eq_refl eq_refl Hloss)
    as (ctx & ov & wts & Hctx & _ & _ & Hov & Hw
        & (target & lp & lk & weighted & da & e0 & e1 & _ & _ & _ & Hwa & Hr)
        & Hs & He & _).
  exists r, w', ctx, ov, wts, lk, weighted, e1.
  split; [exact Hloss|]. split; [exact Hctx|]. split; [exact Hw|].
  split; [exact Hwa|]. split; [by rewrite Hr|]. split; [exact Hs|].
  split; [exact He|].
  vm_compute in Hov. injection Hov as <-.
  vm_compute in Hw. injection Hw as <-. vm_compute. auto 10.
Defined.

(** ** The training orchestrator *)

Lemma trainer_arguments_callbacks (all_callbacks logger : pyval)
    (kwargs : gmap string pyval) :
  trainer_arguments all_callbacks logger
    (delete "logger" (delete "validation_only" (delete "callbacks" kwargs)))
  !! "callbacks" = Some all_callbacks.
Proof.
  unfold trainer_arguments.
  rewrite lookup_union_r.
  - rewrite lookup_insert_ne by done. by rewrite lookup_insert_eq.
  - rewrite !lookup_delete_ne by done. by rewrite lookup_delete_eq.
Qed.

Lemma trainer_callbacks_arguments (all_callbacks logger : pyval)
    (kwargs : gmap string pyval) :
  trainer_callbacks
    (trainer_arguments all_callbacks logger
       (delete "logger" (delete "validation_only" (delete "callbacks" kwargs))))
  = refs_of all_callbacks.
Proof. unfold trainer_callbacks. by rewrite trainer_arguments_callbacks. Qed.

(** Runs [train_model] symbolically: every collaborator call is split into
    its two outcomes, every lookup in [trainer_kwargs] into present and
    absent. *)
Ltac exec_train_model :=
  unfold train_model, transform, trainer_validate, trainer_fit,
    new_trainer, new_model_checkpoint, kwargs_pop, get_kwargs, with_hooks,
    best_model_path_of, bind, log, ecall, ret, lift;
  repeat first
    [ progress cbn [sys heap next_loc trace trainer_kwargs mbind option_bind negb
                    String.eqb]
    | rewrite lookup_delete_ne by done
    | rewrite map_lookup_imap, lookup_insert_eq
    | rewrite trainer_callbacks_arguments
    | match goal with
      | H : truthy _ = _ |- _ => rewrite H
      | H : bool_decide _ = _ |- _ => rewrite H
      end
    | match goal with
      | |- context [if ?c then ?a else ?b] =>
          is_var c; generalize (if c then a else b); intro
      end
    | match goal with
      | |- context [let '(_, _) := ?x in _] =>
          lazymatch x with
          | context [let '(_, _) := _ in _] => fail
          | context [match _ with _ => _ end] => fail
          | _ => destruct x as [[?|?] ?] eqn:?
          end
      | |- context [truthy ?x] => destruct (truthy x) eqn:?
      | |- context [list_add ?l ?x] => destruct (list_add l x) eqn:?
      | |- context [bool_decide ?P] => destruct (bool_decide P) eqn:?
      | |- context [hook_update ?a ?b ?c ?d] =>
          destruct (hook_update a b c d) eqn:?
      | |- context [String.eqb ?p ""] => destruct (String.eqb p "") eqn:?
      end ].

(** Names the events of a finished run. *)
Ltac name_events :=
  intros [= <- <-]; cbn [trace]; rewrite <- ?app_assoc;
  (eexists; split; [reflexivity|]); cbn [app].

Lemma list_add_ok (xs : list nat) (v a : pyval) :
  list_add xs v = Ok a -> exists refs, v = VRefs refs /\ a = VRefs (xs ++ refs).
Proof. destruct v; simpl; try discriminate. intros [= <-]. eauto. Qed.

(** Splits a membership in a list of events that is written out. *)
Ltac in_cases H :=
  simpl in H; repeat (destruct H as [H|H]; [try discriminate H|]);
  try contradiction.

Ltac in_list := simpl; repeat (first [left; reflexivity | right]).

(** C7. With [validation_only] set, [train_model] never calls
    [trainer.fit] and never reloads a checkpoint; it calls
    [trainer.validate] at most once, and exactly once when it returns; the
    network it returns is the one it created and validated, to which it has
    done nothing else but, when [from_predictor] is given, load that
    predictor's state. *)
Theorem validation_only_never_fits {E : EstimatorEnv}
    (training_data : Dataset) (validation_data : option Dataset)
    (from_predictor : option Predictor) (shuffle_buffer_length : option Z)
    (cache_data : bool) (ckpt_path : option string) (w w' : eworld)
    (res : res TrainOutput) :
  truthy (default (VBool false) (trainer_kwargs w !! "validation_only")) = true ->
  train_model training_data validation_data from_predictor
    shuffle_buffer_length cache_data ckpt_path w = (res, w') ->
  exists evs, trace w' = (trace w ++ evs)%list
    /\ (forall m p, ~ In (EvFit m p) evs)
    /\ (forall p, ~ In (EvLoadFromCheckpoint p) evs)
    /\ (validate_events evs <= 1)%nat
    /\ (from_predictor = None -> forall m s, ~ In (EvLoadStateDict m s) evs)
    /\ forall out, res = Ok out ->
         validate_events evs = 1%nat
         /\ In (EvCreateModule (trained_net out)) evs
         /\ In (EvValidate (trained_net out) ckpt_path) evs
         /\ In (EvCreatePredictor (trained_net out)) evs.
Proof.
  intros Ht. destruct validation_data, from_predictor.
  all: exec_train_model.
  all: name_events.
  all: repeat split; try (simpl; lia).
  all: try (intros; simpl; intuition discriminate).
  all: match goal with
       | H : _ = Ok ?o |- _ => first [discriminate H | injection H as <-]
       end; simpl; intuition.
Qed.

Lemma validation_only_never_fits_witness :
  exists res w',
    train_model (E := toy_env) 5%nat (Some 3%nat) None None false None
      (toy_eworld {[ "validation_only" := VBool true ]}) = (res, w')
    /\ is_ok res = true
    /\ exists evs, trace w' = ([] ++ evs)%list
         /\ (forall m p, ~ In (EvFit m p) evs)
         /\ (forall p, ~ In (EvLoadFromCheckpoint p) evs)
         /\ (validate_events evs <= 1)%nat
         /\ (@None (@Predictor toy_env) = None -> forall m s, ~ In (EvLoadStateDict m s) evs)
         /\ forall out, res = Ok out ->
              validate_events evs = 1%nat
              /\ In (EvCreateModule (trained_net out)) evs
              /\ In (EvValidate (trained_net out) None) evs
              /\ In (EvCreatePredictor (trained_net out)) evs.
Proof.
  destruct (train_model (E := toy_env) 5%nat (Some 3%nat) None None false None
              (toy_eworld {[ "validation_only" := VBool true ]}))
    as [res w'] eqn:Hrun.
  exists res, w'. split; [reflexivity|]. split.
  - vm_compute in Hrun. by injection Hrun as <- _.
  - apply (validation_only_never_fits (E := toy_env) 5%nat (Some 3%nat) None None false None
             (toy_eworld {[ "validation_only" := VBool true ]}) w' res);
      [reflexivity | exact Hrun].
Defined.

(** C5. Without validation data the checkpoint callback that [train_model]
    builds monitors ["train_loss"] and the trainer is constructed with that
    callback in front of the user's callbacks; with validation data it
    monitors ["val_loss"] and the trainer is constructed with the user's
    callbacks alone, so the callback of [train_model], a new object, is not
    among them. *)
Theorem checkpoint_policy {E : EstimatorEnv}
    (training_data : Dataset) (validation_data : option Dataset)
    (from_predictor : option Predictor) (shuffle_buffer_length : option Z)
    (cache_data : bool) (ckpt_path : option string) (w w' : eworld)
    (res : res TrainOutput) :
  train_model training_data validation_data from_predictor
    shuffle_buffer_length cache_data ckpt_path w = (res, w') ->
  let custom := default (VRefs []) (trainer_kwargs w !! "callbacks") in
  let monitor := match validation_data with
                 | None => "train_loss"
                 | Some _ => "val_loss"
                 end in
  exists evs, trace w' = (trace w ++ evs)%list
    /\ (forall l m, In (EvModelCheckpoint l m) evs ->
          l = next_loc w /\ m = monitor)
    /\ (forall kwargs, In (EvTrainer kwargs) evs ->
          In (EvModelCheckpoint (next_loc w) monitor) evs
          /\ match validation_data with
             | None =>
                 exists refs, custom = VRefs refs
                   /\ kwargs !! "callbacks" = Some (VRefs (next_loc w :: refs))
             | Some _ =>
                 kwargs !! "callbacks" = Some custom
                 /\ ((forall l, In l (refs_of custom) -> (l < next_loc w)%nat) ->
                     ~ In (next_loc w) (trainer_callbacks kwargs))
             end)
    /\ (forall out, res = Ok out -> In (EvTrainer (trainer out)) evs).
Proof.
  intros H custom monitor. subst custom monitor. revert H.
  destruct validation_data, from_predictor.
  all: exec_train_model.
  all: name_events.
  all: split; [| split].
  all: lazymatch goal with
       | |- forall l m, In (EvModelCheckpoint l m) _ -> _ =>
           intros l m Hin; in_cases Hin; by injection Hin as <- <-
       | |- forall kwargs, In (EvTrainer kwargs) _ -> _ =>
           intros kw Hin; in_cases Hin; injection Hin as <-;
           (split; [in_list|]);
           rewrite ?trainer_arguments_callbacks, ?trainer_callbacks_arguments;
           lazymatch goal with
           | |- exists _, _ =>
               match goal with
               | Hadd : list_add _ _ = Ok _ |- _ =>
                   apply list_add_ok in Hadd as (refs & Hc & ->);
                   exists refs; by split
               end
           | |- _ /\ _ =>
               split; [done|]; intros Hold Hin; apply Hold in Hin; lia
           end
       | |- forall out, _ = Ok out -> _ =>
           intros out Hout;
           first [discriminate Hout | injection Hout as <-; in_list]
       end.
Qed.

Lemma checkpoint_policy_witness :
  (exists res w',
     train_model (E := toy_env) 5%nat None None None false None
       (toy_eworld {[ "callbacks" := VRefs [0%nat] ]}) = (res, w')
     /\ exists out, res = Ok out
          /\ trainer out !! "callbacks" = Some (VRefs [1%nat; 0%nat])
          /\ In (EvModelCheckpoint 1%nat "train_loss") (trace w'))
  /\ (exists res w',
        train_model (E := toy_env) 5%nat (Some 3%nat) None None false None
          (toy_eworld {[ "callbacks" := VRefs [0%nat] ]}) = (res, w')
        /\ exists out, res = Ok out
             /\ trainer out !! "callbacks" = Some (VRefs [0%nat])
             /\ In (EvModelCheckpoint 1%nat "val_loss") (trace w')).
Proof.
  split.
  - destruct (train_model (E := toy_env) 5%nat None None None false None
                (toy_eworld {[ "callbacks" := VRefs [0%nat] ]}))
      as [res w'] eqn:Hrun.
    exists res, w'. split; [reflexivity|].
    destruct (checkpoint_policy (E := toy_env) 5%nat None None None false None
                (toy_eworld {[ "callbacks" := VRefs [0%nat] ]}) w' res Hrun)
      as (evs & Htr & _ & Hkw & Hout).
    destruct res as [out|e]; [|vm_compute in Hrun; discriminate].
    exists out. split; [reflexivity|].
    destruct (Hkw _ (Hout out eq_refl)) as (Hin & refs & Hc & Hcb).
    injection Hc as <-. split; [exact Hcb|].
    rewrite Htr. exact Hin.
  - destruct (train_model (E := toy_env) 5%nat (Some 3%nat) None None false None
                (toy_eworld {[ "callbacks" := VRefs [0%nat] ]}))
      as [res w'] eqn:Hrun.
    exists res, w'. split; [reflexivity|].
    destruct (checkpoint_policy (E := toy_env) 5%nat (Some 3%nat) None None
                false None
                (toy_eworld {[ "callbacks" := VRefs [0%nat] ]}) w' res Hrun)
      as (evs & Htr & _ & Hkw & Hout).
    destruct res as [out|e]; [|vm_compute in Hrun; discriminate].
    exists out. split; [reflexivity|].
    destruct (Hkw _ (Hout out eq_refl)) as (Hin & Hcb & _).
    split; [exact Hcb|]. rewrite Htr. exact Hin.
Defined.

(** C9. With validation data and without [validation_only], the trainer is
    constructed without the checkpoint callback of [train_model]; after
    [trainer.fit] that callback still has an empty [best_model_path], no
    checkpoint is reloaded, and the network returned is the one that was
    created and fitted.  (The user's callbacks are objects that existed
    before the call.) *)
Theorem no_reload_with_validation_data {E : EstimatorEnv}
    (training_data validation_data : Dataset)
    (from_predictor : option Predictor) (shuffle_buffer_length : option Z)
    (cache_data : bool) (ckpt_path : option string) (w w' : eworld)
    (res : res TrainOutput) :
  truthy (default (VBool false) (trainer_kwargs w !! "validation_only")) = false ->
  (forall l, In l (refs_of (default (VRefs []) (trainer_kwargs w !! "callbacks"))) ->
             (l < next_loc w)%nat) ->
  train_model training_data (Some validation_data) from_predictor
    shuffle_buffer_length cache_data ckpt_path w = (res, w') ->
  exists evs, trace w' = (trace w ++ evs)%list
    /\ (forall kwargs, In (EvTrainer kwargs) evs ->
          ~ In (next_loc w) (trainer_callbacks kwargs))
    /\ (forall path, ~ In (EvLoadFromCheckpoint path) evs)
    /\ (forall m p, In (EvFit m p) evs ->
          heap w' !! next_loc w
          = Some (ModelCheckpoint "val_loss" "min" true ""))
    /\ (forall out, res = Ok out ->
          In (EvCreateModule (trained_net out)) evs
          /\ In (EvFit (trained_net out) ckpt_path) evs
          /\ In (EvCreatePredictor (trained_net out)) evs).
Proof.
  intros Ht Hold.
  assert (Hnot : bool_decide
            (next_loc w ∈ refs_of (default (VRefs []) (trainer_kwargs w !! "callbacks")))
          = false).
  { apply bool_decide_eq_false_2. rewrite list_elem_of_In.
    intros Hin. apply Hold in Hin. lia. }
  destruct from_predictor.
  all: exec_train_model.
  all: name_events.
  all: split; [| split; [| split]].
  all: lazymatch goal with
       | |- forall kwargs, In (EvTrainer kwargs) _ -> _ =>
           intros kw Hin; in_cases Hin; injection Hin as <-;
           rewrite trainer_callbacks_arguments;
           intros Hin; apply Hold in Hin; lia
       | |- forall path, ~ In (EvLoadFromCheckpoint path) _ =>
           intros path Hin; in_cases Hin
       | |- forall m p, In (EvFit m p) _ -> _ =>
           intros ? ? Hin; in_cases Hin; cbn [heap];
           rewrite map_lookup_imap, lookup_insert_eq;
           cbn [mbind option_bind]; by rewrite Hnot
       | |- forall out, _ = Ok out -> _ =>
           intros out Hout;
           first [discriminate Hout
                 | injection Hout as <-; repeat split; in_list]
       end.
Qed.

Lemma no_reload_with_validation_data_witness :
  exists res w',
    train_model (E := toy_env) 5%nat (Some 3%nat) None None false None
      (toy_eworld {[ "callbacks" := VRefs [0%nat] ]}) = (res, w')
    /\ (exists out, res = Ok out /\ trained_net out = 0%nat)
    /\ heap w' !! 1%nat = Some (ModelCheckpoint "val_loss" "min" true "")
    /\ exists evs, trace w' = ([] ++ evs)%list
         /\ (forall path, ~ In (EvLoadFromCheckpoint path) evs)
         /\ (forall out, res = Ok out ->
               In (EvFit (trained_net out) None) evs).
Proof.
  destruct (train_model (E := toy_env) 5%nat (Some 3%nat) None None false None
              (toy_eworld {[ "callbacks" := VRefs [0%nat] ]}))
    as [res w'] eqn:Hrun.
  exists res, w'. split; [reflexivity|].
  assert (Hold : forall l,
    In l (refs_of (default (VRefs [])
            (trainer_kwargs (toy_eworld {[ "callbacks" := VRefs [0%nat] ]})
             !! "callbacks"))) ->
    (l < next_loc (toy_eworld {[ "callbacks" := VRefs [0%nat] ]}))%nat).
  { intros l [<-|[]]. simpl. lia. }
  assert (Ht : truthy (default (VBool false)
            (trainer_kwargs (toy_eworld {[ "callbacks" := VRefs [0%nat] ]})
             !! "validation_only")) = false) by reflexivity.
  destruct (no_reload_with_validation_data (E := toy_env) 5%nat 3%nat None
              None false None
              (toy_eworld {[ "callbacks" := VRefs [0%nat] ]}) w' res
              Ht Hold Hrun)
    as (evs & Htr & _ & Hnr & Hheap & Hout).
  split; [|split].
  - vm_compute in Hrun. injection Hrun as <- _. eexists. split; reflexivity.
  - destruct res as [out|e]; [|vm_compute in Hrun; discriminate].
    destruct (Hout out eq_refl) as (_ & Hfit & _).
    exact (Hheap _ _ Hfit).
  - exists evs. split; [exact Htr|]. split; [exact Hnr|].
    intros out Hres. by destruct (Hout out Hres) as (_ & Hfit & _).
Defined.

(** In the same toy setting without validation data, the callback is
    installed, records a path, and the returned network is a reloaded one. *)
Example reload_without_validation_data :
  exists out w',
    train_model (E := toy_env) 5%nat None None None false None
      (toy_eworld {[ "callbacks" := VRefs [0%nat] ]}) = (Ok out, w')
    /\ trained_net out = 102%nat
    /\ In (EvLoadFromCheckpoint "best.ckpt") (trace w').
Proof.
  eexists _, _. split; [vm_compute; reflexivity|].
  split; [reflexivity|]. cbn [trace]. in_list.
Qed.

(** * Further properties of the network *)

(** ** More on the lag extractor *)

Section LagExtras.

Context {F : Type}.
#[local] Abbreviation tensor := (tensor F).

Lemma lagged_slices_ok (sequence : tensor) (N T C : nat)
    (subsequences_length : Z) (indices : list Z) :
  shape sequence = [N; T; C] ->
  0 < subsequences_length ->
  (forall lag, In lag indices ->
     0 <= lag /\ lag + subsequences_length <= Z.of_nat T) ->
  exists ts,
    rmap (lagged_slice sequence subsequences_length) indices = Ok ts /\
    length ts = length indices /\
    forall i lag, indices !! i = Some lag ->
      exists t, ts !! i = Some t /\
        shape t = [N; 1%nat; Z.to_nat subsequences_length; C] /\
        forall b u j c, entry t [b; u; j; c]
          = entry sequence
              [b; (Z.to_nat (Z.of_nat T - lag - subsequences_length) + j)%nat; c].
Proof.
  intros Hs HS. induction indices as [|lag indices IH]; intros Hall.
  - exists []. by repeat split.
  - destruct (Hall lag) as [Hlag Hfit]; [by left|].
    destruct (lagged_slice_ok sequence N T C subsequences_length lag Hs Hlag HS Hfit)
      as (t & Ht & Hsh & He).
    destruct IH as (ts & Hts & Hlen & Hent).
    { intros lag' Hin. apply Hall. by right. }
    exists (t :: ts). simpl. rewrite Ht. simpl. rewrite Hts. simpl.
    repeat split; [by rewrite Hlen|].
    intros [|i] lag' Hi; simpl in *.
    + injection Hi as <-. eauto.
    + eauto.
Qed.

(** X1. Lags are counted from the end of the tensor that is passed, not
    from [sequence_length]: when both assertions pass and the tensor is long
    enough for the longest lag, entry [(b, t, c, i)] of the result is the
    series at time [T - indices[i] - subsequences_length + t], where [T] is
    the tensor's own length. *)
Theorem lags_count_from_the_end (sequence : tensor) (N T C : nat)
    (sequence_length : Z) (indices : list Z) (subsequences_length m : Z) :
  shape sequence = [N; T; C] ->
  pymax indices = Some m ->
  m + subsequences_length <= sequence_length ->
  m + subsequences_length <= Z.of_nat T ->
  (forall lag, In lag indices -> 0 <= lag) ->
  0 < subsequences_length ->
  exists out,
    get_lagged_subsequences sequence sequence_length indices subsequences_length
      = Ok out /\
    shape out = [N; Z.to_nat subsequences_length; C; length indices] /\
    forall b t c i lag,
      indices !! i = Some lag ->
      entry out [b; t; c; i]
      = entry sequence
          [b; (Z.to_nat (Z.of_nat T - lag - subsequences_length) + t)%nat; c].
Proof.
  intros Hs Hmax Hassert Hfit Hnn HS.
  unfold get_lagged_subsequences. rewrite Hmax.
  assert (H1 : (m + subsequences_length <=? sequence_length) = true) by lia.
  rewrite H1. simpl.
  assert (H2 : forallb (fun lag_index => 0 <=? lag_index) indices = true)
    by (by apply forallb_nonneg).
  rewrite H2. simpl.
  destruct (lagged_slices_ok sequence N T C subsequences_length indices Hs HS)
    as (ts & Hts & Hlen & Hent).
  { intros lag Hin. split; [by apply Hnn|].
    pose proof (pymax_bound _ _ _ Hmax Hin). lia. }
  rewrite Hts. simpl.
  assert (Hne : ts <> []).
  { destruct indices; [done|]. by destruct ts. }
  assert (Hall : Forall (fun t => shape t = [N; 1%nat; Z.to_nat subsequences_length; C]) ts).
  { apply Forall_lookup_2. intros i t Hi.
    destruct (indices !! i) as [lag|] eqn:Hlag.
    - destruct (Hent i lag Hlag) as (t' & Ht' & Hsh & _). congruence.
    - apply lookup_lt_Some in Hi. apply lookup_ge_None in Hlag. lia. }
  destruct (cat_stack N (Z.to_nat subsequences_length) C ts Hne Hall)
    as (stacked & Hcat & Hshape & Hentry).
  rewrite Hcat. simpl.
  destruct (permute_lagged N (length ts) (Z.to_nat subsequences_length) C stacked Hshape)
    as (out & Hperm & Hsh & He).
  exists out. split; [done|]. split; [by rewrite Hsh, Hlen|].
  intros b t c i lag Hi. rewrite He.
  destruct (Hent i lag Hi) as (ti & Hti & _ & Hval).
  rewrite (Hentry i b t c ti Hti). apply Hval.
Qed.

Lemma lagged_slice_shape (sequence : tensor) (N T C : nat)
    (subsequences_length lag : Z) :
  shape sequence = [N; T; C] ->
  exists x,
    lagged_slice sequence subsequences_length lag = Ok x /\
    shape x = [N; 1%nat;
               snd (slice_bounds T (- lag - subsequences_length)
                      (if 0 <? lag then Some (- lag) else None));
               C].
Proof.
  intros Hs. unfold lagged_slice.
  destruct (slice_time_spec sequence N T [C] (- lag - subsequences_length)
              (if 0 <? lag then Some (- lag) else None) Hs)
    as (sl & Hsl & Hsh & _).
  rewrite Hsl. cbn [rbind].
  unfold unsqueeze, rank, norm_dim. rewrite Hsh. simpl.
  eexists. split; [reflexivity|]. done.
Qed.

(** X2. The assertions look at [sequence_length], not at the tensor.  With
    one lag and a tensor of any length [T], the call returns
    [min(T, lag + S) - min(T, lag)] time steps: fewer than
    [subsequences_length] as soon as [T < lag + subsequences_length]. *)
Theorem short_tensor_is_truncated (sequence : tensor) (N T C : nat)
    (sequence_length lag subsequences_length : Z) :
  shape sequence = [N; T; C] ->
  0 <= lag -> 0 < subsequences_length ->
  lag + subsequences_length <= sequence_length ->
  exists out,
    get_lagged_subsequences sequence sequence_length [lag] subsequences_length
      = Ok out /\
    shape out
    = [N;
       Z.to_nat (Z.min (Z.of_nat T) (lag + subsequences_length)
                 - Z.min (Z.of_nat T) lag);
       C; 1%nat] /\
    (Z.of_nat T < lag + subsequences_length ->
     (nth 1 (shape out) 0 < Z.to_nat subsequences_length)%nat).
Proof.
  intros Hs Hlag HS Hassert.
  unfold get_lagged_subsequences. cbn [pymax fold_left forallb].
  assert (H1 : (lag + subsequences_length <=? sequence_length) = true) by lia.
  rewrite H1.
  assert (H2 : (0 <=? lag) = true) by lia. rewrite H2. cbn [negb andb rmap].
  destruct (lagged_slice_shape sequence N T C subsequences_length lag Hs)
    as (x & Hx & Hxs).
  rewrite Hx. cbn [rbind].
  set (len := snd (slice_bounds T (- lag - subsequences_length)
                     (if 0 <? lag then Some (- lag) else None))) in *.
  assert (Hall : Forall (fun t : tensor => shape t = [N; 1%nat; len; C]) [x])
    by (by repeat constructor).
  destruct (cat_stack N len C [x] ltac:(done) Hall)
    as (stacked & Hcat & Hshape & _).
  rewrite Hcat. cbn [rbind].
  destruct (permute_lagged N 1 len C stacked Hshape) as (out & Hperm & Hso & _).
  exists out. split; [done|].
  assert (Hlen : len = Z.to_nat (Z.min (Z.of_nat T) (lag + subsequences_length)
                                 - Z.min (Z.of_nat T) lag)).
  { subst len. unfold slice_bounds, adjust_index.
    destruct (Z.ltb_spec 0 lag); simpl.
    - destruct (Z.ltb_spec (- lag - subsequences_length) 0); [|lia].
      destruct (Z.ltb_spec (- lag) 0); lia.
    - destruct (Z.ltb_spec (- lag - subsequences_length) 0); lia. }
  rewrite Hso, <- Hlen. split; [done|].
  intros Hshort. simpl. lia.
Qed.

Lemma rmap_raise_inv {A B} (f : A -> res B) (l : list A) (e : exn) :
  rmap f l = Raise e -> exists x, In x l /\ f x = Raise e.
Proof.
  induction l as [|x l IH]; simpl; [discriminate|].
  destruct (f x) as [y|e'] eqn:Hx; simpl.
  - destruct (rmap f l) as [ys|e'']; simpl; [discriminate|].
    intros [= <-]. destruct IH as (x' & Hin & Hx'); [done|]. eauto.
  - intros [= <-]. eauto.
Qed.

Lemma norm_dim_raise (r : nat) (d : Z) (e : exn) :
  norm_dim r d = Raise e -> e = IndexError.
Proof. unfold norm_dim. destruct (_ || _); [by intros [= <-] | discriminate]. Qed.

Lemma lagged_slice_raise (sequence : tensor) (subsequences_length lag : Z)
    (e : exn) :
  lagged_slice sequence subsequences_length lag = Raise e -> e = IndexError.
Proof.
  unfold lagged_slice, slice_time.
  destruct (shape sequence) as [|n [|len rest]]; try (by intros [= <-]).
  destruct (slice_bounds _ _ _) as [off k]. cbn [rbind].
  unfold unsqueeze. destruct (norm_dim _ _) eqn:Hn; [discriminate|].
  cbn [rbind]. intros [= <-]. by apply norm_dim_raise in Hn.
Qed.

Lemma cat_raise (ts : list tensor) (d : Z) (e : exn) :
  cat ts d = Raise e -> e = RuntimeError \/ e = IndexError.
Proof.
  unfold cat. destruct ts as [|t ts]; [intros [= <-]; by left|].
  destruct (List.filter _ _) as [|t0 rest]; [discriminate|].
  destruct (norm_dim _ _) eqn:Hn; cbn [rbind].
  - destruct (forallb _ _); [discriminate|]. intros [= <-]. by left.
  - intros [= <-]. right. by apply norm_dim_raise in Hn.
Qed.

Lemma permute_raise (dims : list nat) (t : tensor) (e : exn) :
  permute dims t = Raise e -> e = RuntimeError.
Proof. unfold permute. destruct (is_perm _ _); [discriminate | by intros [= <-]]. Qed.

Lemma forallb_nonneg_false (l : list Z) :
  forallb (fun lag_index => 0 <=? lag_index) l = false ->
  exists lag, In lag l /\ lag < 0.
Proof.
  induction l as [|x l IH]; simpl; [discriminate|].
  destruct (Z.leb_spec 0 x); simpl.
  - intros Hl. destruct (IH Hl) as (lag & Hin & Hneg). eauto.
  - intros _. eauto.
Qed.

(** The two assertions are the only source of an [AssertionError]. *)
Lemma lagged_assertion_iff (sequence : tensor) (sequence_length : Z)
    (indices : list Z) (subsequences_length : Z) :
  get_lagged_subsequences sequence sequence_length indices subsequences_length
    = Raise AssertionError
  <-> (exists m, pymax indices = Some m
                 /\ sequence_length < m + subsequences_length)
      \/ (exists lag, In lag indices /\ lag < 0).
Proof.
  split.
  - unfold get_lagged_subsequences.
    destruct (pymax indices) as [m|] eqn:Hmax; [|discriminate].
    destruct (Z.leb_spec (m + subsequences_length) sequence_length);
      [|intros _; left; eauto]. cbn [negb].
    destruct (forallb _ indices) eqn:Hall; cbn [negb].
    + intros Hres.
      destruct (rmap _ indices) as [ts|e] eqn:Hr; cbn [rbind] in Hres.
      * destruct (cat ts 1) as [st|e] eqn:Hc; cbn [rbind] in Hres.
        -- apply permute_raise in Hres. discriminate.
        -- injection Hres as ->. apply cat_raise in Hc as [?|?]; discriminate.
      * injection Hres as ->. apply rmap_raise_inv in Hr as (x & _ & Hx).
        apply lagged_slice_raise in Hx. discriminate.
    + intros _. right. by apply forallb_nonneg_false.
  - intros [(m & Hmax & Hover) | (lag & Hin & Hneg)].
    + by apply lagged_assert_overflow with (m := m).
    + by apply lagged_assert_negative with (lag := lag).
Qed.

(** X3. [get_lagged_subsequences] raises [AssertionError] exactly when
    [max(indices) + subsequences_length > sequence_length] or some index is
    negative; on an empty index list it raises the [ValueError] of [max]
    instead, before either assertion is checked. *)
Theorem assertion_error_exactly_on_bad_lags (sequence : tensor)
    (sequence_length : Z) (indices : list Z) (subsequences_length : Z) :
  (get_lagged_subsequences sequence sequence_length indices subsequences_length
     = Raise AssertionError
   <-> (exists m, pymax indices = Some m
                  /\ sequence_length < m + subsequences_length)
       \/ (exists lag, In lag indices /\ lag < 0))
  /\ get_lagged_subsequences sequence sequence_length [] subsequences_length
     = Raise (ValueError "max() arg is an empty sequence").
Proof. split; [apply lagged_assertion_iff | reflexivity]. Qed.

End LagExtras.

(** ** Construction *)

Lemma sort_insert_sorted (x : Z) (l : list Z) :
  Sorted Z.le l -> Sorted Z.le (sort_insert x l).
Proof.
  induction l as [|y l IH]; intros Hs; simpl.
  - by repeat constructor.
  - destruct (Z.leb_spec x y).
    + constructor; [done|]. by constructor.
    + inversion Hs as [|? ? Hl Hhd]; subst.
      constructor; [by apply IH|].
      destruct l as [|z l]; simpl.
      * constructor. lia.
      * destruct (Z.leb_spec x z); constructor; [lia|].
        by inversion Hhd.
Qed.

Lemma pysort_sorted (l : list Z) : Sorted Z.le (pysort l).
Proof.
  induction l as [|x l IH]; [constructor|].
  unfold pysort in *. simpl. by apply sort_insert_sorted.
Qed.

Lemma sort_insert_perm (x : Z) (l : list Z) :
  Permutation (sort_insert x l) (x :: l).
Proof.
  induction l as [|y l IH]; simpl; [done|].
  destruct (x <=? y); [done|].
  rewrite IH. apply perm_swap.
Qed.

Lemma pysort_perm (l : list Z) : Permutation (pysort l) l.
Proof.
  induction l as [|x l IH]; [done|].
  unfold pysort in *. simpl. rewrite sort_insert_perm. by constructor.
Qed.

Lemma pysort_of_sorted (l : list Z) : Sorted Z.le l -> pysort l = l.
Proof.
  induction l as [|x l IH]; intros Hs; [done|].
  inversion Hs as [|? ? Hl Hhd]; subst.
  unfold pysort in *. simpl. rewrite IH by done.
  destruct l as [|y l]; [done|]. simpl.
  inversion Hhd; subst. by destruct (Z.leb_spec x y); [|lia].
Qed.

(** [max] is the member that bounds all members. *)
Lemma pymax_unique (l : list Z) (m m' : Z) :
  pymax l = Some m -> In m' l -> (forall y, In y l -> y <= m') -> m = m'.
Proof.
  intros Hmax Hin Hb.
  pose proof (pymax_in _ _ Hmax). pose proof (pymax_bound _ _ _ Hmax Hin).
  specialize (Hb m H). lia.
Qed.

Lemma pymax_pysort (l : list Z) : pymax (pysort l) = pymax l.
Proof.
  destruct (pymax l) as [m|] eqn:Hmax.
  - destruct (pymax_nonempty (pysort l)) as [m' Hm'].
    { intros Hnil. apply pymax_in in Hmax. apply pysort_in in Hmax.
      by rewrite Hnil in Hmax. }
    rewrite Hm'. f_equal.
    apply (pymax_unique _ _ _ Hm').
    + apply pysort_in. by apply pymax_in.
    + intros y Hy. apply (proj1 (pysort_in y l)) in Hy.
      exact (pymax_bound l m y Hmax Hy).
  - destruct l; [done | discriminate].
Qed.

Lemma pymax_shift (l : list Z) (m : Z) :
  pymax l = Some m -> pymax (map (fun x => x - 1) l) = Some (m - 1).
Proof.
  intros Hmax.
  destruct (pymax_nonempty (map (fun x => x - 1) l)) as [m' Hm'].
  { destruct l; [discriminate | done]. }
  rewrite Hm'. f_equal.
  apply (pymax_unique _ _ _ Hm').
  - apply in_map_iff. exists m. split; [done | by apply pymax_in].
  - intros y Hy. apply in_map_iff in Hy as (x & <- & Hx).
    pose proof (pymax_bound _ _ _ Hmax Hx). lia.
Qed.

Section InitExtras.

Context {F : Type} {ops : FloatOps F} {C : Collaborators F}.
#[local] Abbreviation network := (network F).

(** X4. What [__init__] rejects, in the order it checks: an empty
    [lags_seq] ([ValueError] from [max]); with [scaling] on, a scaler type
    it has no branch for ([ValueError]); a cell type other than ["LSTM"]
    and ["GRU"] ([KeyError]).  With [scaling] off the scaler type is not
    looked at. *)
Theorem init_rejections (cfg : config F) :
  head_ctor (cfg_target_dim cfg) (cfg_conditioning_length cfg)
    (cfg_residual_layers cfg) (cfg_residual_channels cfg)
    (cfg_dilation_cycle_length cfg) (cfg_diff_steps cfg) (cfg_loss_type cfg)
    (cfg_beta_end cfg) (cfg_beta_schedule cfg) (cfg_num_cells cfg)
    (cfg_embedding_dimension cfg) = Ok tt ->
  (cfg_lags_seq cfg = [] ->
   init cfg = Raise (ValueError "max() arg is an empty sequence"))
  /\ (cfg_lags_seq cfg <> [] ->
      cfg_scaling cfg = true -> constructible (cfg_scaler_type cfg) = false ->
      init cfg = Raise (invalid_scaler (cfg_scaler_type cfg)))
  /\ (cfg_lags_seq cfg <> [] ->
      cfg_scaling cfg = false \/ constructible (cfg_scaler_type cfg) = true ->
      String.eqb (cfg_cell_type cfg) "LSTM" = false ->
      String.eqb (cfg_cell_type cfg) "GRU" = false ->
      init cfg = Raise (KeyError (cfg_cell_type cfg))).
Proof.
  intros Hhead. unfold init. repeat split.
  - by intros ->.
  - intros Hne Hsc Hst.
    destruct (pymax_nonempty _ Hne) as [m ->]. rewrite Hhead. cbn [rbind].
    unfold select_scaler, constructible in *. rewrite Hsc.
    destruct (String.eqb _ "mean"); [done|].
    destruct (String.eqb _ "nops"); [done|].
    destruct (String.eqb _ "centered_mean"); [done|].
    by destruct (String.eqb _ "mean_std").
  - intros Hne Hsc Hl Hg.
    destruct (pymax_nonempty _ Hne) as [m ->]. rewrite Hhead. cbn [rbind].
    assert (Hsel : exists sc, select_scaler cfg = Ok sc).
    { unfold select_scaler, constructible in *.
      destruct (cfg_scaling cfg); [|eauto].
      destruct Hsc as [?|Hsc]; [done|].
      destruct (String.eqb _ "mean"); [eauto|].
      destruct (String.eqb _ "nops"); [eauto|].
      destruct (String.eqb _ "centered_mean"); [eauto|].
      destruct (String.eqb _ "mean_std"); [eauto | done]. }
    destruct Hsel as [sc ->]. cbn [rbind].
    unfold select_cell. by rewrite Hl, Hg.
Qed.

(** The sizes that [__init__] derives from its arguments. *)
Lemma init_ok_sizes (cfg : config F) (net : network) :
  init cfg = Ok net ->
  exists m,
    pymax (cfg_lags_seq cfg) = Some m
    /\ history_length net = context_length net + m
    /\ lags_seq net = pysort (cfg_lags_seq cfg)
    /\ shifted_lags net = map (fun l => l - 1) (cfg_lags_seq cfg)
    /\ input_size net
       = Z.of_nat (length (lags_seq net)) * target_dim net
         + target_dim net * embed_dim net + num_feat_dynamic_real net.
Proof.
  intros Hinit. unfold init in Hinit.
  destruct (pymax (cfg_lags_seq cfg)) as [m|] eqn:Hmax; [|discriminate].
  apply rbind_ok in Hinit as (_ & _ & H).
  apply rbind_ok in H as (sc & Hsc & H).
  apply rbind_ok in H as (_ & _ & H).
  apply rbind_ok in H as (_ & _ & H).
  injection H as <-. cbn. by exists m.
Qed.

(** X5. What a constructed network holds: [history_length] is
    [context_length + max(lags_seq)]; [lags_seq] is the given lags in
    ascending order, duplicates kept; [shifted_lags] is the given lags minus
    one in the order they were given, which is the order of [lags_seq] when
    they were given ascending; [input_size] counts one feature per lag and
    per embedding coordinate of each target dimension, plus the time
    features. *)
Theorem init_invariants (cfg : config F) (net : network) :
  init cfg = Ok net ->
  (exists m, pymax (cfg_lags_seq cfg) = Some m
             /\ pymax (lags_seq net) = Some m
             /\ history_length net = context_length net + m)
  /\ Sorted Z.le (lags_seq net)
  /\ Permutation (lags_seq net) (cfg_lags_seq cfg)
  /\ shifted_lags net = map (fun l => l - 1) (cfg_lags_seq cfg)
  /\ (Sorted Z.le (cfg_lags_seq cfg) ->
      shifted_lags net = map (fun l => l - 1) (lags_seq net))
  /\ input_size net
     = Z.of_nat (length (lags_seq net)) * target_dim net
       + target_dim net * embed_dim net + num_feat_dynamic_real net.
Proof.
  intros Hinit.
  destruct (init_ok_sizes cfg net Hinit) as (m & Hm & Hh & -> & -> & Hsize).
  split; [exists m; by rewrite pymax_pysort|].
  split; [apply pysort_sorted|]. split; [apply pysort_perm|].
  split; [done|]. split; [|done].
  intros Hs. by rewrite pysort_of_sorted.
Qed.

(** X6. [history_length] is exactly long enough: in a constructed network
    the lag extraction of [unroll_encoder], with or without the future,
    raises [AssertionError] if and only if some lag is negative, and the
    one of decoding step [k] (for [context_length + k >= 0]) if and only if
    some lag is below 1. *)
Theorem assertions_of_a_constructed_network (cfg : config F) (net : network)
    (sequence : tensor F) :
  init cfg = Ok net ->
  (get_lagged_subsequences sequence (history_length net) (lags_seq net)
     (context_length net) = Raise AssertionError
   <-> exists lag, In lag (lags_seq net) /\ lag < 0)
  /\ (get_lagged_subsequences sequence
        (history_length net + prediction_length net) (lags_seq net)
        (context_length net + prediction_length net) = Raise AssertionError
      <-> exists lag, In lag (lags_seq net) /\ lag < 0)
  /\ (forall k, 0 <= context_length net + k ->
        (get_lagged_subsequences sequence (history_length net + k)
           (shifted_lags net) 1 = Raise AssertionError
         <-> exists lag, In lag (lags_seq net) /\ lag < 1)).
Proof.
  intros Hinit.
  destruct (init_ok_sizes cfg net Hinit) as (m & Hm0 & Hh & Hls & Hsh & _).
  assert (Hm : pymax (lags_seq net) = Some m) by (by rewrite Hls, pymax_pysort).
  assert (Hperm : Permutation (lags_seq net) (cfg_lags_seq cfg))
    by (rewrite Hls; apply pysort_perm).
  repeat split.
  - rewrite lagged_assertion_iff. intros [(m' & Hm' & Hov)|?]; [|done].
    rewrite Hm in Hm'. injection Hm' as <-. lia.
  - intros ?. apply lagged_assertion_iff. by right.
  - rewrite lagged_assertion_iff. intros [(m' & Hm' & Hov)|?]; [|done].
    rewrite Hm in Hm'. injection Hm' as <-. lia.
  - intros ?. apply lagged_assertion_iff. by right.
  - rewrite lagged_assertion_iff. intros [(m' & Hm' & Hov)|(lag & Hin & Hneg)].
    + rewrite Hsh, (pymax_shift _ _ Hm0) in Hm'. injection Hm' as <-. lia.
    + rewrite Hsh in Hin. apply in_map_iff in Hin as (x & <- & Hx).
      exists x. split; [|lia].
      apply (Permutation_in x (Permutation_sym Hperm)) in Hx. done.
  - intros (lag & Hin & Hlt). apply lagged_assertion_iff. right.
    exists (lag - 1). split; [|lia]. rewrite Hsh. apply in_map_iff.
    exists lag. split; [done|]. by apply (Permutation_in lag Hperm).
Qed.

End InitExtras.

(** ** The [diffusion.scale] attribute *)

Section ScaleChannel.

Context {F : Type} {ops : FloatOps F} {C : Collaborators F}.
#[local] Abbreviation tensor := (tensor F).
#[local] Abbreviation network := (network F).

Lemma keeps_lift {A} (r : res A) : keeps_scale (lift (W := world F) r).
Proof. by intros w. Qed.

Lemma keeps_ret {A} (a : A) : keeps_scale (ret (W := world F) a).
Proof. by intros w. Qed.

Lemma keeps_call {A} (f : ext_state -> res A * ext_state) : keeps_scale (call f).
Proof. intros w. unfold call. by destruct (f (ext w)). Qed.

Lemma keeps_get : keeps_scale get_diffusion_scale.
Proof. by intros w. Qed.

Lemma keeps_bind {A B} (m : M (world F) A) (k : A -> M (world F) B) :
  keeps_scale m -> (forall a, keeps_scale (k a)) -> keeps_scale (bind m k).
Proof.
  intros Hm Hk w. unfold bind. specialize (Hm w).
  destruct (m w) as [[a|e] w1]; [|done]. simpl in Hm. by rewrite Hk.
Qed.

Ltac keeps :=
  repeat first
    [ apply keeps_lift | apply keeps_ret | apply keeps_call | apply keeps_get
    | apply keeps_bind; [|intros ?]
    | match goal with
      | |- keeps_scale (match ?x with _ => _ end) => destruct x
      end ].

Lemma keeps_compute_scale_params (net : network) (a b : tensor) :
  keeps_scale (compute_scale_params net a b).
Proof. unfold compute_scale_params. keeps. Qed.

Lemma keeps_unroll (net : network) (lags : tensor) (sp : dict tensor)
    (tf tdi : tensor) (u : Z) (st : option (rnn_state F)) :
  keeps_scale (unroll net lags sp tf tdi u st).
Proof. unfold unroll. keeps. Qed.

Lemma keeps_unroll_encoder (net : network) (ptf ptc pov pip : tensor)
    (ftf ftc : option tensor) (tdi : tensor) :
  keeps_scale (unroll_encoder net ptf ptc pov pip ftf ftc tdi).
Proof.
  unfold unroll_encoder.
  apply keeps_bind; [keeps|intros ?].
  apply keeps_bind; [keeps|intros [[[? ?] ?] ?]].
  apply keeps_bind; [keeps|intros ?].
  apply keeps_bind; [apply keeps_compute_scale_params|intros ?].
  apply keeps_bind; [apply keeps_unroll|intros [[[? ?] ?] ?]]. keeps.
Qed.

Lemma keeps_distr_args (o : tensor) : keeps_scale (distr_args o).
Proof. unfold distr_args. keeps. Qed.

Lemma keeps_decode_step (net : network) (rtf rtdi : tensor)
    (rs : dict tensor) (k : Z) (acc : tensor * rnn_state F * list tensor) :
  keeps_scale (decode_step net rtf rtdi rs k acc).
Proof.
  unfold decode_step. destruct acc as [[? ?] ?].
  apply keeps_bind; [keeps|intros ?].
  apply keeps_bind; [keeps|intros ?].
  apply keeps_bind; [apply keeps_unroll|intros [[[? ?] ?] ?]].
  apply keeps_bind; [apply keeps_distr_args|intros ?]. keeps.
Qed.

Lemma keeps_decode_loop (net : network) (rtf rtdi : tensor)
    (rs : dict tensor) (ks : list Z) :
  forall acc, keeps_scale (decode_loop net rtf rtdi rs ks acc).
Proof.
  induction ks as [|k ks IH]; intros acc; cbn [decode_loop]; [keeps|].
  apply keeps_bind; [apply keeps_decode_step | apply IH].
Qed.

Lemma keeps_ok {A} (m : M (world F) A) (w w' : world F) (a : A) :
  keeps_scale m -> m w = (Ok a, w') -> diffusion_scale w' = diffusion_scale w.
Proof. intros Hk H. specialize (Hk w). by rewrite H in Hk. Qed.

(** X7. [loss] leaves a trace on the diffusion head.  The encoder pass and
    the projection never touch [diffusion.scale]; when [loss] returns, the
    attribute holds the [scale_params] of this call's encoder pass if
    [scaling] is on, and what it held before the call if [scaling] is off;
    with [scaling] off it is untouched even when [loss] raises. *)
Theorem loss_publishes_scale (net : network) (target_dimension_indicator
    past_target_cdf past_observed_values past_is_pad future_time_feat
    past_time_feat future_target_cdf future_observed_values : tensor) :
  (forall ftf ftc,
     keeps_scale (unroll_encoder net past_time_feat past_target_cdf
                    past_observed_values past_is_pad ftf ftc
                    target_dimension_indicator))
  /\ (forall w r w',
       loss net target_dimension_indicator past_target_cdf past_observed_values
         past_is_pad future_time_feat past_time_feat future_target_cdf
         future_observed_values w = (Ok r, w') ->
       exists enc w1,
         unroll_encoder net past_time_feat past_target_cdf past_observed_values
           past_is_pad (Some future_time_feat) (Some future_target_cdf)
           target_dimension_indicator w = (Ok enc, w1)
         /\ diffusion_scale w'
            = if scaling net then Some (scale_params_of enc)
              else diffusion_scale w)
  /\ (scaling net = false ->
      keeps_scale (loss net target_dimension_indicator past_target_cdf
                     past_observed_values past_is_pad future_time_feat
                     past_time_feat future_target_cdf future_observed_values)).
Proof.
  split; [intros; apply keeps_unroll_encoder|]. split.
  - intros w r w' H. unfold loss in H.
    apply bind_ok in H as ([[[[o st] sp] ls] inp] & w1 & Hue & H).
    exists (o, st, sp, ls, inp), w1. split; [done|]. cbn [scale_params_of].
    pose proof (keeps_ok _ _ _ _ (keeps_unroll_encoder _ _ _ _ _ _ _ _) Hue) as E1.
    apply bind_ok in H as (target & w2 & Ht & H).
    apply lift_ok in Ht as [_ ->].
    apply bind_ok in H as (da & w3 & Hda & H).
    pose proof (keeps_ok _ _ _ _ (keeps_distr_args _) Hda) as E3.
    apply bind_ok in H as (u & w4 & Hset & H).
    assert (E4 : diffusion_scale w4
                 = if scaling net then Some sp else diffusion_scale w).
    { destruct (scaling net).
      - unfold set_diffusion_scale in Hset. by injection Hset as _ <-.
      - apply ret_ok in Hset as [_ ->]. congruence. }
    rewrite <- E4. revert H. generalize w4. clear. intros w4 H.
    refine (keeps_ok _ _ _ _ _ H). keeps.
  - intros Hsc. unfold loss.
    apply keeps_bind; [apply keeps_unroll_encoder|intros [[[[? ?] ?] ?] ?]].
    apply keeps_bind; [keeps|intros ?].
    apply keeps_bind; [apply keeps_distr_args|intros ?].
    rewrite Hsc. keeps.
Qed.

(** The keys that [unroll_encoder] writes are the keys that [unroll]
    reads. *)
Lemma scale_lags_of_computed (net : network) (a b lags : tensor)
    (w w' : world F) (sp : dict tensor) :
  compute_scale_params net a b w = (Ok sp, w') ->
  (if String.eqb (scaler_type net) "mean"
   then exists scale, sp = [("scale", scale)]
   else exists mean std, sp = [("mean", mean); ("std", std)]).
Proof.
  unfold compute_scale_params. intros H.
  destruct (String.eqb (scaler_type net) "mean").
  - apply bind_ok in H as (tw & w1 & _ & H).
    apply bind_ok in H as (ow & w2 & _ & H).
    apply bind_ok in H as (out & w3 & _ & H).
    destruct out as [|? [|scale [|? ?]]]; try discriminate.
    apply ret_ok in H as [-> _]. eauto.
  - destruct (_ || _); [|discriminate].
    apply bind_ok in H as (tw & w1 & _ & H).
    apply bind_ok in H as (ow & w2 & _ & H).
    apply bind_ok in H as (out & w3 & _ & H).
    destruct out as [|? [|mean [|std [|? ?]]]]; try discriminate.
    apply ret_ok in H as [-> _]. eauto.
Qed.

(** X8. The dictionary that the encoder's scaler step returns is one that
    [unroll] can read, also after [sampling_decoder] has repeated it: scaling
    the lags with it returns or raises the [RuntimeError] of a shape
    mismatch, never [KeyError] and never the invalid-scaler-type
    [ValueError]. *)
Theorem computed_scale_params_are_readable (net : network)
    (past_target_cdf past_observed_values : tensor) (w w' : world F)
    (scale_params : dict tensor) :
  compute_scale_params net past_target_cdf past_observed_values w
    = (Ok scale_params, w') ->
  (forall lags e,
     scale_lags net lags scale_params = Raise e -> e = RuntimeError)
  /\ (forall repeated_scale lags e,
        repeat_dict net scale_params = Ok repeated_scale ->
        scale_lags net lags repeated_scale = Raise e -> e = RuntimeError).
Proof.
  revert past_target_cdf past_observed_values scale_params.
  intros a b sp H.
  pose proof (scale_lags_of_computed net a b a w w' sp H) as Hkeys.
  assert (Hty : String.eqb (scaler_type net) "mean" = false ->
                String.eqb (scaler_type net) "mean_std"
                || String.eqb (scaler_type net) "centered_mean" = true).
  { intros Hm. unfold compute_scale_params in H. rewrite Hm in H.
    by destruct (_ || _). }
  assert (Hun : forall t : tensor, exists u, unsqueeze (-1) t = Ok u).
  { intros t. unfold unsqueeze, norm_dim.
    destruct (Z.ltb_spec (-1) (- Z.of_nat (S (rank t)))); [lia|].
    destruct (Z.leb_spec (Z.of_nat (S (rank t))) (-1)); [lia|].
    cbn [orb rbind]. eauto. }
  assert (Hbr : forall f (x y : tensor) e,
            broadcast2 f x y = Raise e -> e = RuntimeError).
  { intros f x y e. unfold broadcast2, broadcast_shapes.
    generalize (rev (shape x)) (rev (shape y)). intros l1 l2.
    assert (Hrev : forall l1 l2 e, broadcast_rev l1 l2 = Raise e -> e = RuntimeError).
    { clear. induction l1 as [|x l1 IH]; intros [|y l2] e'; simpl; try discriminate.
      specialize (IH l2). destruct (broadcast_rev l1 l2); simpl.
      - repeat (destruct (_ =? _)%nat; [discriminate|]). by intros [= <-].
      - intros [= <-]. by apply IH. }
    specialize (Hrev l1 l2). destruct (broadcast_rev l1 l2); simpl; [discriminate|].
    intros [= <-]. by apply Hrev. }
  assert (Hread : forall d lags e,
            (if String.eqb (scaler_type net) "mean"
             then exists scale, d = [("scale", scale)]
             else exists mean std, d = [("mean", mean); ("std", std)]) ->
            scale_lags net lags d = Raise e -> e = RuntimeError).
  { intros d lags e Hd. unfold scale_lags.
    destruct (String.eqb (scaler_type net) "mean") eqn:Hm.
    - destruct Hd as [scale ->]. cbn [dict_get String.eqb Ascii.eqb Bool.eqb rbind].
      destruct (Hun scale) as [u ->]. cbn [rbind]. apply Hbr.
    - rewrite Hty by done. destruct Hd as (mean & std & ->).
      cbn [dict_get String.eqb Ascii.eqb Bool.eqb rbind].
      destruct (Hun mean) as [u ->]. cbn [rbind].
      destruct (tsubt lags u) as [c|e'] eqn:Hc; cbn [rbind].
      + destruct (Hun std) as [v ->]. cbn [rbind]. apply Hbr.
      + intros [= <-]. by apply (Hbr _ _ _ _ Hc). }
  split; [intros lags e; by apply Hread|].
  intros rs lags e Hrs. apply Hread. clear Hread.
  unfold repeat_dict in Hrs.
  destruct (String.eqb (scaler_type net) "mean").
  - destruct Hkeys as [scale ->]. cbn [rmap] in Hrs.
    apply rbind_ok in Hrs as (y & Hy & Hrs).
    apply rbind_ok in Hy as (v & _ & Hy). injection Hy as <-.
    cbn [rbind] in Hrs. injection Hrs as <-. eauto.
  - destruct Hkeys as (mean & std & ->). cbn [rmap] in Hrs.
    apply rbind_ok in Hrs as (y & Hy & Hrs).
    apply rbind_ok in Hy as (v & _ & Hy). injection Hy as <-.
    apply rbind_ok in Hrs as (ys & Hys & Hrs).
    apply rbind_ok in Hys as (y' & Hy' & Hys).
    apply rbind_ok in Hy' as (v' & _ & Hy'). injection Hy' as <-.
    cbn [rbind] in Hys. injection Hys as <-. injection Hrs as <-. eauto.
Qed.

(** [reshape((-1, a, b, c))] returns only for positive [a], [b], [c]. *)
Lemma reshape_samples (x out : tensor) (a b c : Z) :
  reshape [-1; a; b; c] x = Ok out ->
  1 <= a /\ 1 <= b /\ 1 <= c /\
  shape out = [(numel (shape x) / (Z.to_nat a * (Z.to_nat b * Z.to_nat c)))%nat;
               Z.to_nat a; Z.to_nat b; Z.to_nat c].
Proof.
  unfold reshape. intros H. apply rbind_ok in H as (s & Hs & H).
  injection H as <-. cbn [shape]. revert Hs. unfold reshape_dims.
  cbn [existsb List.filter]. change (-1 <? -1) with false.
  change (0 <=? -1) with false. change (-1 =? -1) with true. cbn [orb].
  destruct (Z.ltb_spec a (-1)); [discriminate|].
  destruct (Z.ltb_spec b (-1)); [discriminate|].
  destruct (Z.ltb_spec c (-1)); [discriminate|]. cbn [orb].
  destruct (Z.eqb_spec a (-1)) as [->|Ha].
  { destruct (b =? -1); [discriminate|]. destruct (c =? -1); discriminate. }
  destruct (Z.eqb_spec b (-1)) as [->|Hb].
  { destruct (c =? -1); discriminate. }
  destruct (Z.eqb_spec c (-1)) as [->|Hc]; [discriminate|].
  cbn [length].
  destruct (Z.leb_spec 0 a); [|lia]. destruct (Z.leb_spec 0 b); [|lia].
  destruct (Z.leb_spec 0 c); [|lia]. cbn [map numel fold_right].
  rewrite Nat.mul_1_r.
  destruct (Nat.eqb_spec (Z.to_nat a * (Z.to_nat b * Z.to_nat c)) 0) as [|Hne];
    [discriminate|].
  destruct (_ =? 0)%nat; [|discriminate].
  change (-1 =? -1) with true.
  destruct (Z.eqb_spec a (-1)); [lia|]. destruct (Z.eqb_spec b (-1)); [lia|].
  destruct (Z.eqb_spec c (-1)); [lia|].
  intros [= <-]. repeat split; try done; nia.
Qed.

(** X9. When [forward] returns, the samples have shape
    [(n, num_parallel_samples, prediction_length, target_dim)] with the three
    configured sizes at least 1, and [diffusion.scale] holds the encoder's
    [scale_params] repeated [num_parallel_samples] times if [scaling] is on,
    and its old value otherwise.  The encoder pass is given the mask that
    [forward] has already combined with the padding indicator. *)
Theorem forward_result (net : network) (target_dimension_indicator
    past_target_cdf past_observed_values past_is_pad future_time_feat
    past_time_feat future_target_cdf future_observed_values : tensor)
    (w w' : world F) (samples : tensor) :
  forward net target_dimension_indicator past_target_cdf past_observed_values
    past_is_pad future_time_feat past_time_feat future_target_cdf
    future_observed_values w = (Ok samples, w') ->
  1 <= num_parallel_samples net /\ 1 <= prediction_length net
  /\ 1 <= target_dim net
  /\ (exists n, shape samples
               = [n; Z.to_nat (num_parallel_samples net);
                  Z.to_nat (prediction_length net); Z.to_nat (target_dim net)])
  /\ exists eff enc w1 repeated_scale,
       effective_observed past_observed_values past_is_pad = Ok eff
       /\ unroll_encoder net past_time_feat past_target_cdf eff past_is_pad
            None None target_dimension_indicator w = (Ok enc, w1)
       /\ repeat_dict net (scale_params_of enc) = Ok repeated_scale
       /\ diffusion_scale w'
          = if scaling net then Some repeated_scale else diffusion_scale w.
Proof.
  intros H. unfold forward in H.
  apply bind_ok in H as (eff & w0 & Heff & H). apply lift_ok in Heff as [Heff ->].
  apply bind_ok in H as ([[[[o bs] sp] ls] inp] & w1 & Hue & H).
  pose proof (keeps_ok _ _ _ _ (keeps_unroll_encoder _ _ _ _ _ _ _ _) Hue) as E1.
  unfold sampling_decoder in H.
  apply bind_ok in H as (rptc & w2 & Hr & H). apply lift_ok in Hr as [_ ->].
  apply bind_ok in H as (rtf & w2 & Hr & H). apply lift_ok in Hr as [_ ->].
  apply bind_ok in H as (rs & w2 & Hrs & H). apply lift_ok in Hrs as [Hrs ->].
  apply bind_ok in H as (u & w2 & Hset & H).
  assert (E2 : diffusion_scale w2
               = if scaling net then Some rs else diffusion_scale w).
  { destruct (scaling net).
    - unfold set_diffusion_scale in Hset. by injection Hset as _ <-.
    - apply ret_ok in Hset as [_ ->]. congruence. }
  apply bind_ok in H as (rtdi & w3 & Hr & H). apply lift_ok in Hr as [_ ->].
  apply bind_ok in H as (rst & w3 & Hr & H). apply lift_ok in Hr as [_ ->].
  apply bind_ok in H as ([[? ?] fs] & w3 & Hloop & H).
  pose proof (keeps_ok _ _ _ _ (keeps_decode_loop _ _ _ _ _ _) Hloop) as E3.
  apply bind_ok in H as (cs & w4 & Hr & H). apply lift_ok in Hr as [_ ->].
  apply lift_ok in H as [H ->].
  apply reshape_samples in H as (? & ? & ? & Hshape).
  split; [done|]. split; [done|]. split; [done|]. split; [eauto|].
  exists eff, (o, bs, sp, ls, inp), w1, rs. cbn [scale_params_of].
  repeat split; try done. congruence.
Qed.

End ScaleChannel.

(** ** Described inputs *)

Section DescribedInputs.

Context {F : Type} {ops : FloatOps F} {C : Collaborators F}.
#[local] Abbreviation tensor := (tensor F).
#[local] Abbreviation network := (network F).

(** X10. Inputs of the shapes that [describe_inputs] announces fit the
    encoder of a constructed network with non-negative lags and a positive
    [context_length]: the window has [context_length (+ prediction_length)]
    steps, and the lag extraction returns a tensor of shape
    [(batch, steps, target_dim, len(lags_seq))] whose entry for step [t] and
    lag [lag] is the target [lag] steps before step [t] of the window, the
    window starting at position [max(lags_seq)] of the history. *)
Theorem described_inputs_fit_the_encoder (cfg : config F) (net : network)
    (batch_size : Z) (past_target_cdf future_target_cdf past_time_feat
    future_time_feat : tensor) :
  init cfg = Ok net ->
  (forall lag, In lag (cfg_lags_seq cfg) -> 0 <= lag) ->
  0 < context_length net -> 0 <= prediction_length net ->
  let spec := describe_inputs net batch_size in
  matches_input spec "past_target_cdf" past_target_cdf = true ->
  matches_input spec "future_target_cdf" future_target_cdf = true ->
  matches_input spec "past_time_feat" past_time_feat = true ->
  matches_input spec "future_time_feat" future_time_feat = true ->
  let B := Z.to_nat batch_size in
  let D := Z.to_nat (target_dim net) in
  let ctx := Z.to_nat (context_length net) in
  let pred := Z.to_nat (prediction_length net) in
  exists (m : nat),
    pymax (lags_seq net) = Some (Z.of_nat m)
    /\ Z.to_nat (history_length net) = (ctx + m)%nat
    /\ (exists time_feat lags,
          encoder_window net past_time_feat past_target_cdf None None
          = Ok (time_feat, past_target_cdf, history_length net,
                context_length net)
          /\ shape time_feat = [B; ctx; Z.to_nat (num_feat_dynamic_real net)]
          /\ (forall b t f,
                entry time_feat [b; t; f] = entry past_time_feat [b; (m + t)%nat; f])
          /\ get_lagged_subsequences past_target_cdf (history_length net)
               (lags_seq net) (context_length net) = Ok lags
          /\ shape lags = [B; ctx; D; length (lags_seq net)]
          /\ forall b t c i lag,
               lags_seq net !! i = Some lag ->
               entry lags [b; t; c; i]
               = entry past_target_cdf [b; (m + t - Z.to_nat lag)%nat; c])
    /\ (exists time_feat sequence lags,
          encoder_window net past_time_feat past_target_cdf
            (Some future_time_feat) (Some future_target_cdf)
          = Ok (time_feat, sequence,
                history_length net + prediction_length net,
                context_length net + prediction_length net)
          /\ shape time_feat
             = [B; (ctx + pred)%nat; Z.to_nat (num_feat_dynamic_real net)]
          /\ get_lagged_subsequences sequence
               (history_length net + prediction_length net)
               (lags_seq net) (context_length net + prediction_length net)
             = Ok lags
          /\ shape lags = [B; (ctx + pred)%nat; D; length (lags_seq net)]
          /\ forall b t c i lag,
               lags_seq net !! i = Some lag ->
               entry lags [b; t; c; i]
               = if (m + t - Z.to_nat lag <? ctx + m)%nat
                 then entry past_target_cdf [b; (m + t - Z.to_nat lag)%nat; c]
                 else entry future_target_cdf
                        [b; (m + t - Z.to_nat lag - (ctx + m))%nat; c]).
Proof.
  intros Hinit Hlags Hctx Hpred spec Hptc Hftc Hptf Hftf B D ctx pred.
  unfold spec, matches_input, list_eqb_nat in Hptc, Hftc, Hptf, Hftf.
  simpl in Hptc, Hftc, Hptf, Hftf.
  apply bool_decide_eq_true_1 in Hptc, Hftc, Hptf, Hftf.
  destruct (init_ok_sizes cfg net Hinit) as (mz & Hm0 & Hh & Hsorted & _).
  assert (Hm : pymax (lags_seq net) = Some mz)
    by (by rewrite Hsorted, pymax_pysort).
  assert (Hperm : Permutation (lags_seq net) (cfg_lags_seq cfg))
    by (rewrite Hsorted; apply pysort_perm).
  clear Hsorted.
  assert (Hmz : 0 <= mz) by (apply Hlags; by apply pymax_in).
  assert (Hnn : forall lag, In lag (lags_seq net) -> 0 <= lag).
  { intros lag Hin. apply Hlags. by apply (Permutation_in lag Hperm). }
  exists (Z.to_nat mz). rewrite Z2Nat.id by done.
  split; [done|]. split; [subst ctx; lia|].
  assert (Hb : slice_bounds (Z.to_nat (history_length net))
                 (- context_length net) None = (Z.to_nat mz, ctx)).
  { unfold slice_bounds, adjust_index.
    destruct (Z.ltb_spec (- context_length net) 0); [|lia].
    f_equal; subst ctx; lia. }
  destruct (slice_time_spec past_time_feat _ _ _ (- context_length net) None Hptf)
    as (ptw & Hptw & Hps & Hpe).
  rewrite Hb in Hps, Hpe. cbn [fst snd] in Hps, Hpe.
  split.
  - destruct (get_lagged_subsequences_spec past_target_cdf B D
                (history_length net) (lags_seq net) (context_length net) mz)
      as (lags & Hl & Hls & Hle); try done; try lia.
    exists ptw, lags. unfold encoder_window. rewrite Hptw. cbn [rbind].
    split; [done|]. split; [done|]. split; [intros; apply Hpe|].
    split; [done|]. split; [done|].
    intros b t c i lag Hi. rewrite (Hle b t c i lag Hi).
    assert (0 <= lag <= mz).
    { apply list_elem_of_lookup_2, list_elem_of_In in Hi.
      split; [by apply Hnn | by apply (pymax_bound _ _ _ Hm)]. }
    do 3 f_equal. lia.
  - destruct (cat_pair_time ptw future_time_feat B ctx pred _ Hps Hftf)
      as (tf & Htf & Htfs & _).
    destruct (cat_pair_time past_target_cdf future_target_cdf B _ pred D
                Hptc Hftc) as (sq & Hsq & Hsqs & Hsq1 & Hsq2).
    destruct (get_lagged_subsequences_spec sq B D
                (history_length net + prediction_length net) (lags_seq net)
                (context_length net + prediction_length net) mz)
      as (lags & Hl & Hls & Hle); try done; try lia.
    { rewrite Hsqs. do 2 f_equal. lia. }
    exists tf, sq, lags. unfold encoder_window. rewrite Hptw. cbn [rbind].
    rewrite Htf, Hsq. cbn [rbind].
    split; [done|]. split; [done|]. split; [done|].
    split; [rewrite Hls; do 2 f_equal; subst ctx pred; lia|].
    intros b t c i lag Hi. rewrite (Hle b t c i lag Hi).
    assert (0 <= lag <= mz).
    { apply list_elem_of_lookup_2, list_elem_of_In in Hi.
      split; [by apply Hnn | by apply (pymax_bound _ _ _ Hm)]. }
    replace (Z.to_nat (history_length net + prediction_length net - lag
                        - (context_length net + prediction_length net)) + t)%nat
      with (Z.to_nat mz + t - Z.to_nat lag)%nat by lia.
    destruct (Nat.ltb_spec (Z.to_nat mz + t - Z.to_nat lag) (ctx + Z.to_nat mz)).
    + apply Hsq1. subst ctx. lia.
    + rewrite <- Hsq2. do 3 f_equal. subst ctx. lia.
Qed.

End DescribedInputs.

(** ** The input of the recurrent cell *)

Section RnnInput.

Context {F : Type} {ops : FloatOps F} {C : Collaborators F}.
#[local] Abbreviation tensor := (tensor F).
#[local] Abbreviation network := (network F).

(** [reshape((-1, u, k))] returns a tensor with [u] rows of width [k]. *)
Lemma reshape_rows (x out : tensor) (u k : Z) :
  reshape [-1; u; k] x = Ok out ->
  0 <= u /\ 0 <= k /\ exists n, shape out = [n; Z.to_nat u; Z.to_nat k].
Proof.
  unfold reshape. intros H. apply rbind_ok in H as (s & Hs & H).
  injection H as <-. cbn [shape]. revert Hs. unfold reshape_dims.
  cbn [existsb List.filter]. change (-1 <? -1) with false.
  change (0 <=? -1) with false. change (-1 =? -1) with true. cbn [orb].
  destruct (Z.ltb_spec u (-1)); [discriminate|].
  destruct (Z.ltb_spec k (-1)); [discriminate|]. cbn [orb].
  destruct (Z.eqb_spec u (-1)) as [->|Hu].
  { destruct (k =? -1); discriminate. }
  destruct (Z.eqb_spec k (-1)) as [->|Hk]; [discriminate|].
  split; [lia|]. split; [lia|]. revert Hs. cbn [length].
  destruct (_ =? 0)%nat; [discriminate|].
  destruct (_ =? 0)%nat; [|discriminate].
  cbn [map]. change (-1 =? -1) with true.
  destruct (Z.eqb_spec u (-1)); [lia|].
  destruct (Z.eqb_spec k (-1)); [lia|].
  intros [= <-]. eauto.
Qed.

(** Concatenating rank-3 tensors along the last axis adds their widths. *)
Lemma cat_widths (t0 : tensor) (rest : list tensor) (out : tensor)
    (n u k : nat) :
  shape t0 = [n; u; k] ->
  Forall (fun t => exists a b c, shape t = [a; b; c]) rest ->
  cat (t0 :: rest) (-1) = Ok out ->
  shape out
  = [n; u; fold_left Nat.add (map (fun t => nth 2 (shape t) 0%nat) rest) k].
Proof.
  intros H0 Hrest. unfold cat. cbn [List.filter].
  rewrite (not_skipped3 t0 n u k) by done. cbn [negb].
  assert (Hf : List.filter (fun t : tensor => negb (cat_skip t)) rest = rest).
  { induction Hrest as [|t l (a & b & c & Ht) _ IH]; [done|].
    cbn [List.filter]. rewrite (not_skipped3 t a b c) by done. cbn [negb].
    by rewrite IH. }
  rewrite Hf. unfold rank at 1. rewrite H0. cbn [length norm_dim].
  change (norm_dim 3 (-1)) with (Ok (A := nat) 2%nat). cbn [rbind].
  destruct (forallb _ rest); [|discriminate].
  intros [= <-]. cbn [shape]. unfold dim_size. rewrite H0. reflexivity.
Qed.

(** X11. The tensor that [unroll] hands to the recurrent cell is as wide
    as the [input_size] the cell was constructed with: for a constructed
    network with non-negative [embed_dim] and time features of width
    [num_feat_dynamic_real], whenever [unroll] returns, its [inputs] have
    shape [(n, unroll_length, input_size)]. *)
Theorem rnn_input_has_input_size (cfg : config F) (net : network)
    (lags : tensor) (scale_params : dict tensor)
    (time_feat target_dimension_indicator : tensor) (unroll_length : Z)
    (begin_state : option (rnn_state F)) (w w' : world F)
    (outputs : tensor) (state : rnn_state F) (lags_scaled inputs : tensor)
    (B L : nat) :
  init cfg = Ok net ->
  0 <= embed_dim net -> 0 <= num_feat_dynamic_real net ->
  shape time_feat = [B; L; Z.to_nat (num_feat_dynamic_real net)] ->
  unroll net lags scale_params time_feat target_dimension_indicator
    unroll_length begin_state w = (Ok (outputs, state, lags_scaled, inputs), w') ->
  0 <= input_size net
  /\ exists n,
       shape inputs = [n; Z.to_nat unroll_length; Z.to_nat (input_size net)].
Proof.
  intros Hinit Hemb Hfeat Htf H.
  destruct (init_ok_sizes cfg net Hinit) as (m & _ & _ & _ & _ & Hsize).
  unfold unroll in H.
  apply bind_ok in H as (ls & w1 & _ & H).
  apply bind_ok in H as (il & w2 & Hil & H).
  apply lift_ok in Hil as [Hil ->].
  apply reshape_rows in Hil as (Hu & Hk & n & Hil).
  apply bind_ok in H as (inp & w3 & Hin & H).
  apply bind_ok in H as ([o st] & w4 & _ & H).
  apply ret_ok in H as [[= _ _ _ <-] _].
  destruct (Z.ltb_spec 0 (embed_dim net)).
  - apply bind_ok in Hin as (ie & w5 & _ & Hin).
    apply bind_ok in Hin as (rep & w6 & Hrep & Hin).
    apply lift_ok in Hrep as [Hrep _].
    apply rbind_ok in Hrep as (x1 & _ & Hrep).
    apply rbind_ok in Hrep as (x2 & _ & Hrep).
    apply reshape_rows in Hrep as (_ & Hk2 & n2 & Hrep).
    apply lift_ok in Hin as [Hin _].
    apply (cat_widths il [rep; time_feat] inputs _ _ _ Hil) in Hin;
      [|repeat constructor; eauto].
    cbn [map fold_left] in Hin. rewrite Hrep, Htf in Hin. cbn [nth] in Hin.
    split; [lia|]. exists n. rewrite Hin. do 3 f_equal. lia.
  - apply lift_ok in Hin as [Hin _].
    apply (cat_widths il [time_feat] inputs _ _ _ Hil) in Hin;
      [|repeat constructor; eauto].
    cbn [map fold_left] in Hin. rewrite Htf in Hin. cbn [nth] in Hin.
    assert (embed_dim net = 0) as He by lia. rewrite He in Hsize.
    split; [lia|]. exists n. rewrite Hin. do 3 f_equal. lia.
Qed.

End RnnInput.

(** ** A context of length zero *)

Section ZeroContext.

Context {F : Type} {ops : FloatOps F} {C : Collaborators F}.
#[local] Abbreviation tensor := (tensor F).
#[local] Abbreviation network := (network F).

(** No tensor can be reshaped to zero rows with an inferred batch size. *)
Lemma reshape_zero_rows (x : tensor) (k : Z) :
  exists e, reshape [-1; 0; k] x = Raise e.
Proof.
  unfold reshape, reshape_dims. cbn [existsb List.filter].
  change (-1 <? -1) with false. change (0 <? -1) with false.
  change (0 <=? -1) with false. change (0 <=? 0) with true.
  change (-1 =? -1) with true. change (0 =? -1) with false. cbn [orb].
  destruct (Z.ltb_spec k (-1)); [cbn [rbind]; eauto|].
  destruct (Z.eqb_spec k (-1)) as [->|Hk]; [cbn; eauto|].
  destruct (Z.leb_spec 0 k); [|lia]. cbn [length map numel fold_right].
  change (Z.to_nat 0) with 0%nat. cbn [Nat.mul Nat.eqb rbind]. eauto.
Qed.

Lemma unroll_zero_length (net : network) (lags : tensor)
    (scale_params : dict tensor) (time_feat target_dimension_indicator : tensor)
    (begin_state : option (rnn_state F)) (w : world F) :
  exists e,
    fst (unroll net lags scale_params time_feat target_dimension_indicator 0
           begin_state w) = Raise e.
Proof.
  unfold unroll. apply bind_raise. intros ls w1 _.
  apply bind_raise. intros il w2 Hil. apply lift_ok in Hil as [Hil _].
  destruct (reshape_zero_rows ls (Z.of_nat (length (lags_seq net)) * target_dim net))
    as [e He].
  rewrite He in Hil. discriminate.
Qed.

(** X12. [context_length = 0] is not a usable setting: the slice
    [[-0:]] keeps the whole history instead of nothing.  [forward] then
    never returns, whatever its inputs, and [loss] returns only when the
    past time features have no time step at all. *)
Theorem zero_context_length (net : network) (target_dimension_indicator
    past_target_cdf past_observed_values past_is_pad future_time_feat
    past_time_feat future_target_cdf future_observed_values : tensor)
    (w : world F) :
  context_length net = 0 ->
  (exists e,
     fst (forward net target_dimension_indicator past_target_cdf
            past_observed_values past_is_pad future_time_feat past_time_feat
            future_target_cdf future_observed_values w) = Raise e)
  /\ forall r w' (B T P Fe : nat),
       prediction_length net = Z.of_nat P ->
       shape past_time_feat = [B; T; Fe] ->
       shape future_time_feat = [B; P; Fe] ->
       loss net target_dimension_indicator past_target_cdf past_observed_values
         past_is_pad future_time_feat past_time_feat future_target_cdf
         future_observed_values w = (Ok r, w') ->
       T = 0%nat.
Proof.
  intros Hctx. split.
  - unfold forward. apply bind_raise. intros eff w0 _.
    apply bind_raise. intros enc w1 Henc. exfalso.
    unfold unroll_encoder in Henc.
    apply bind_ok in Henc as (eff2 & v1 & _ & Henc).
    apply bind_ok in Henc as ([[[tf sq] sl] ssl] & v2 & Hwin & Henc).
    apply lift_ok in Hwin as [Hwin _].
    apply bind_ok in Henc as (lags & v3 & _ & Henc).
    apply bind_ok in Henc as (sp & v4 & _ & Henc).
    apply bind_ok in Henc as (ur & v5 & Hun & _).
    unfold encoder_window in Hwin.
    apply rbind_ok in Hwin as (tf' & _ & Hwin).
    injection Hwin as _ _ _ <-. rewrite Hctx in Hun.
    destruct (unroll_zero_length net lags sp tf target_dimension_indicator
                None v4) as [e He].
    rewrite Hun in He. discriminate.
  - intros r w' B T P Fe Hpred Hptf Hftf Hloss.
    destruct (loss_ok_window _ _ _ _ _ _ _ _ _ _ _ _ B T P Fe Hptf Hftf Hloss)
      as (_ & Hlen & _).
    rewrite Hctx, Hpred in Hlen. unfold slice_bounds, adjust_index in Hlen.
    cbn [snd] in Hlen. change (- 0 <? 0) with false in Hlen.
    cbn match in Hlen. lia.
Qed.

End ZeroContext.

(** ** The properties above on the concrete instance *)

Lemma lags_count_from_the_end_witness :
  exists out,
    get_lagged_subsequences (tensor3_of [[[1]; [2]; [3]; [4]; [5]]]) 3 [1; 0] 2
      = Ok out
    /\ shape out = [1; 2; 1; 2]%nat
    /\ entry out [0; 0; 0; 0]%nat = 3 /\ entry out [0; 1; 0; 0]%nat = 4
    /\ entry out [0; 0; 0; 1]%nat = 4 /\ entry out [0; 1; 0; 1]%nat = 5.
Proof.
  destruct (lags_count_from_the_end (tensor3_of [[[1]; [2]; [3]; [4]; [5]]])
              1 5 1 3 [1; 0] 2 1)
    as (out & H & Hs & He);
    [reflexivity | reflexivity | lia | lia
    | intros lag [<-|[<-|[]]]; lia | lia |].
  exists out. split; [exact H|]. split; [exact Hs|].
  rewrite (He 0%nat 0%nat 0%nat 0%nat 1 eq_refl), (He 0%nat 1%nat 0%nat 0%nat 1 eq_refl),
    (He 0%nat 0%nat 0%nat 1%nat 0 eq_refl), (He 0%nat 1%nat 0%nat 1%nat 0 eq_refl).
  repeat split.
Defined.

Lemma short_tensor_is_truncated_witness :
  exists out,
    get_lagged_subsequences (tensor3_of [[[1]; [2]]]) 10 [1] 3 = Ok out
    /\ shape out = [1; 1; 1; 1]%nat
    /\ (nth 1 (shape out) 0 < 3)%nat.
Proof.
  destruct (short_tensor_is_truncated (tensor3_of [[[1]; [2]]]) 1 2 1 10 1 3)
    as (out & H & Hs & Hlt); [reflexivity | lia | lia | lia |].
  exists out. split; [exact H|]. split; [exact Hs|].
  apply Hlt. simpl. lia.
Defined.

Lemma init_rejections_witness :
  init (toy_config [] "mean" true)
  = Raise (ValueError "max() arg is an empty sequence")
  /\ init (toy_config [1; 2] "robust" true)
     = Raise (ValueError "Invalid scaler type: robust")
  /\ init (toy_config_with [1; 2] "RNN" 2) = Raise (KeyError "RNN").
Proof.
  destruct (init_rejections (toy_config [] "mean" true)) as (H1 & _);
    [reflexivity|].
  destruct (init_rejections (toy_config [1; 2] "robust" true)) as (_ & H2 & _);
    [reflexivity|].
  destruct (init_rejections (toy_config_with [1; 2] "RNN" 2)) as (_ & _ & H3);
    [reflexivity|].
  split; [apply H1; reflexivity|].
  split; [apply H2; [discriminate | reflexivity | reflexivity]|].
  apply H3; [discriminate | right; reflexivity | reflexivity | reflexivity].
Defined.

Lemma init_invariants_witness :
  init (toy_config [2; 1; 2] "mean" true) = Ok (toy_network [2; 1; 2] "mean")
  /\ history_length (toy_network [2; 1; 2] "mean") = 2 + 2
  /\ Sorted Z.le (lags_seq (toy_network [2; 1; 2] "mean"))
  /\ Permutation (lags_seq (toy_network [2; 1; 2] "mean")) [2; 1; 2]
  /\ shifted_lags (toy_network [2; 1; 2] "mean") = [1; 0; 1]
  /\ input_size (toy_network [2; 1; 2] "mean") = 3 * 1 + 1 * 1 + 1.
Proof.
  assert (Hinit : init (toy_config [2; 1; 2] "mean" true)
                  = Ok (toy_network [2; 1; 2] "mean")) by reflexivity.
  destruct (init_invariants _ _ Hinit)
    as ((m & Hm0 & _ & Hh) & Hsorted & Hperm & Hsh & _ & Hsize).
  split; [exact Hinit|].
  split; [injection Hm0 as <-; exact Hh|].
  split; [exact Hsorted|]. split; [exact Hperm|].
  split; [exact Hsh | exact Hsize].
Defined.

Lemma assertions_of_a_constructed_network_witness :
  init (toy_config [1; 0] "mean" true) = Ok (toy_network [1; 0] "mean")
  /\ get_lagged_subsequences toy_past_target_cdf
       (history_length (toy_network [1; 0] "mean"))
       (lags_seq (toy_network [1; 0] "mean"))
       (context_length (toy_network [1; 0] "mean")) <> Raise AssertionError
  /\ get_lagged_subsequences toy_past_target_cdf
       (history_length (toy_network [1; 0] "mean") + 0)
       (shifted_lags (toy_network [1; 0] "mean")) 1 = Raise AssertionError.
Proof.
  assert (Hinit : init (toy_config [1; 0] "mean" true)
                  = Ok (toy_network [1; 0] "mean")) by reflexivity.
  destruct (assertions_of_a_constructed_network _ _ toy_past_target_cdf Hinit)
    as (Henc & _ & Hdec).
  split; [exact Hinit|]. split.
  - intros Hraise. apply Henc in Hraise as (lag & Hin & Hneg).
    destruct Hin as [<-|[<-|[]]]; lia.
  - apply (Hdec 0); [simpl; lia|]. exists 0. split; [left; reflexivity | lia].
Defined.

Lemma loss_publishes_scale_witness :
  exists r w' enc w1,
    loss (toy_network [1; 2] "mean") toy_target_dimension_indicator
      toy_past_target_cdf toy_past_observed_values toy_past_is_pad
      toy_future_time_feat toy_past_time_feat toy_future_target_cdf
      toy_future_observed_values toy_world = (Ok r, w')
    /\ unroll_encoder (toy_network [1; 2] "mean") toy_past_time_feat
         toy_past_target_cdf toy_past_observed_values toy_past_is_pad
         (Some toy_future_time_feat) (Some toy_future_target_cdf)
         toy_target_dimension_indicator toy_world = (Ok enc, w1)
    /\ diffusion_scale w1 = None
    /\ diffusion_scale w' = Some (scale_params_of enc).
Proof.
  destruct (returns_inv (loss (toy_network [1; 2] "mean")
      toy_target_dimension_indicator toy_past_target_cdf
      toy_past_observed_values toy_past_is_pad toy_future_time_feat
      toy_past_time_feat toy_future_target_cdf toy_future_observed_values
      toy_world)) as (r & w' & Hloss); [vm_compute; reflexivity|].
  destruct (loss_publishes_scale (toy_network [1; 2] "mean")
      toy_target_dimension_indicator toy_past_target_cdf
      toy_past_observed_values toy_past_is_pad toy_future_time_feat
      toy_past_time_feat toy_future_target_cdf toy_future_observed_values)
    as (Hkeep & Hret & _).
  destruct (Hret _ _ _ Hloss) as (enc & w1 & Henc & Hscale).
  exists r, w', enc, w1. split; [exact Hloss|]. split; [exact Henc|].
  split; [|exact Hscale].
  specialize (Hkeep (Some toy_future_time_feat) (Some toy_future_target_cdf)
                toy_world).
  rewrite Henc in Hkeep. exact Hkeep.
Defined.

Lemma forward_result_witness :
  exists samples w',
    forward (toy_network [1; 2] "mean") toy_target_dimension_indicator
      toy_past_target_cdf toy_past_observed_values toy_past_is_pad
      toy_future_time_feat toy_past_time_feat toy_future_target_cdf
      toy_future_observed_values toy_world = (Ok samples, w')
    /\ (exists n, shape samples = [n; 2; 1; 1]%nat)
    /\ exists repeated_scale, diffusion_scale w' = Some repeated_scale.
Proof.
  destruct (returns_inv (forward (toy_network [1; 2] "mean")
      toy_target_dimension_indicator toy_past_target_cdf
      toy_past_observed_values toy_past_is_pad toy_future_time_feat
      toy_past_time_feat toy_future_target_cdf toy_future_observed_values
      toy_world)) as (samples & w' & Hfwd); [vm_compute; reflexivity|].
  destruct (forward_result _ _ _ _ _ _ _ _ _ _ _ _ Hfwd)
    as (_ & _ & _ & Hshape & eff & enc & w1 & rs & _ & _ & _ & Hscale).
  exists samples, w'. split; [exact Hfwd|]. split; [exact Hshape|].
  exists rs. exact Hscale.
Defined.

Lemma computed_scale_params_are_readable_witness :
  exists sp w',
    compute_scale_params (toy_network [1; 2] "mean") toy_past_target_cdf
      toy_past_observed_values toy_world = (Ok sp, w')
    /\ forall lags e,
         scale_lags (toy_network [1; 2] "mean") lags sp = Raise e ->
         e = RuntimeError.
Proof.
  destruct (returns_inv (compute_scale_params (toy_network [1; 2] "mean")
      toy_past_target_cdf toy_past_observed_values toy_world))
    as (sp & w' & H); [vm_compute; reflexivity|].
  exists sp, w'. split; [exact H|].
  exact (proj1 (computed_scale_params_are_readable _ _ _ _ _ _ H)).
Defined.

Lemma described_inputs_fit_the_encoder_witness :
  exists time_feat sequence lags,
    encoder_window (toy_network [1; 2] "mean") toy_past_time_feat
      toy_past_target_cdf (Some toy_future_time_feat)
      (Some toy_future_target_cdf)
    = Ok (time_feat, sequence, 4 + 1, 2 + 1)
    /\ get_lagged_subsequences sequence (4 + 1)
         (lags_seq (toy_network [1; 2] "mean")) (2 + 1) = Ok lags
    /\ shape lags = [1; 3; 1; 2]%nat
    /\ entry lags [0; 0; 0; 0]%nat = 2 /\ entry lags [0; 2; 0; 0]%nat = 4
    /\ entry lags [0; 0; 0; 1]%nat = 1 /\ entry lags [0; 2; 0; 1]%nat = 3.
Proof.
  assert (Hinit : init (toy_config [1; 2] "mean" true)
                  = Ok (toy_network [1; 2] "mean")) by reflexivity.
  destruct (described_inputs_fit_the_encoder (toy_config [1; 2] "mean" true)
              (toy_network [1; 2] "mean") 1 toy_past_target_cdf
              toy_future_target_cdf toy_past_time_feat toy_future_time_feat
              Hinit)
    as (m & Hm & _ & _ & tf & sq & lags & Hwin & _ & Hl & Hs & He);
    [ intros lag [<-|[<-|[]]]; lia | simpl; lia | simpl; lia
    | reflexivity | reflexivity | reflexivity | reflexivity |].
  assert (m = 2%nat) as -> by (injection Hm; lia).
  exists tf, sq, lags. split; [exact Hwin|]. split; [exact Hl|].
  split; [exact Hs|].
  rewrite (He 0%nat 0%nat 0%nat 0%nat 1 eq_refl), (He 0%nat 2%nat 0%nat 0%nat 1 eq_refl),
    (He 0%nat 0%nat 0%nat 1%nat 2 eq_refl), (He 0%nat 2%nat 0%nat 1%nat 2 eq_refl).
  repeat split.
Defined.

Lemma rnn_input_has_input_size_witness :
  exists r w',
    unroll (toy_network [1; 2] "mean") (const_tensor [1; 2; 1; 2]%nat 6)
      [("scale", const_tensor [1; 1; 1]%nat 2)] (const_tensor [1; 2; 1]%nat 0)
      toy_target_dimension_indicator 2 None toy_world = (Ok r, w')
    /\ exists n, shape (snd r) = [n; 2; 4]%nat.
Proof.
  destruct (returns_inv (unroll (toy_network [1; 2] "mean")
      (const_tensor [1; 2; 1; 2]%nat 6)
      [("scale", const_tensor [1; 1; 1]%nat 2)] (const_tensor [1; 2; 1]%nat 0)
      toy_target_dimension_indicator 2 None toy_world))
    as ([[[o st] ls] inp] & w' & H); [vm_compute; reflexivity|].
  assert (Hinit : init (toy_config [1; 2] "mean" true)
                  = Ok (toy_network [1; 2] "mean")) by reflexivity.
  exists (o, st, ls, inp), w'. split; [exact H|].
  refine (proj2 (rnn_input_has_input_size _ _ _ _ _ _ _ _ _ _ _ _ _ _ 1%nat 2%nat
                   Hinit _ _ _ H)); [simpl; lia | simpl; lia | reflexivity].
Defined.

Lemma zero_context_length_witness :
  context_length (toy_network_with [0] "GRU" 0) = 0
  /\ (exists e,
        fst (forward (toy_network_with [0] "GRU" 0)
               toy_target_dimension_indicator toy_past_target_cdf
               toy_past_observed_values toy_past_is_pad toy_future_time_feat
               toy_past_time_feat toy_future_target_cdf
               toy_future_observed_values toy_world) = Raise e)
  /\ is_ok (fst (loss (toy_network_with [0] "GRU" 0)
                   toy_target_dimension_indicator (const_tensor [1; 0; 1]%nat 0)
                   (const_tensor [1; 0; 1]%nat 1) (const_tensor [1; 0]%nat 0)
                   toy_future_time_feat (const_tensor [1; 0; 1]%nat 0)
                   toy_future_target_cdf toy_future_observed_values
                   toy_world)) = true
  /\ is_ok (fst (loss (toy_network_with [0] "GRU" 0)
                   toy_target_dimension_indicator toy_past_target_cdf
                   toy_past_observed_values toy_past_is_pad
                   toy_future_time_feat toy_past_time_feat
                   toy_future_target_cdf toy_future_observed_values
                   toy_world)) = false.
Proof.
  assert (Hctx : context_length (toy_network_with [0] "GRU" 0) = 0)
    by reflexivity.
  split; [exact Hctx|].
  split.
  - exact (proj1 (zero_context_length (toy_network_with [0] "GRU" 0) _ _ _ _
                    _ _ _ _ toy_world Hctx)).
  - split; [vm_compute; reflexivity|].
    destruct (loss (toy_network_with [0] "GRU" 0)
                toy_target_dimension_indicator toy_past_target_cdf
                toy_past_observed_values toy_past_is_pad toy_future_time_feat
                toy_past_time_feat toy_future_target_cdf
                toy_future_observed_values toy_world) as [[r|e] w'] eqn:Hloss;
      [|reflexivity].
    exfalso.
    assert (HT : 4%nat = 0%nat); [|discriminate HT].
    refine (proj2 (zero_context_length (toy_network_with [0] "GRU" 0) _ _ _ _
                     _ _ _ _ toy_world Hctx) r w' 1%nat 4%nat 1%nat 1%nat
              _ _ _ Hloss); reflexivity.
Defined.


(** * Further properties of the orchestrator *)

Section EstimatorExtras.

Context {E : EstimatorEnv}.

(** What a run of [train_model] that returns has done. *)
Lemma train_model_returns
    (training_data : Dataset) (validation_data : option Dataset)
    (from_predictor : option Predictor) (shuffle_buffer_length : option Z)
    (cache_data : bool) (ckpt_path : option string) (w w' : eworld)
    (out : TrainOutput) :
  train_model training_data validation_data from_predictor
    shuffle_buffer_length cache_data ckpt_path w = (Ok out, w') ->
  let kwargs := trainer_kwargs w in
  let custom_callbacks := default (VRefs []) (kwargs !! "callbacks") in
  let validation_only :=
    truthy (default (VBool false) (kwargs !! "validation_only")) in
  exists (module : nat) (all_callbacks : pyval) (best_model_path : string),
    match validation_data with
    | None => list_add [next_loc w] custom_callbacks = Ok all_callbacks
    | Some _ => all_callbacks = custom_callbacks
    end
    /\ trainer out
       = trainer_arguments all_callbacks (default VNone (kwargs !! "logger"))
           (delete "logger" (delete "validation_only"
              (delete "callbacks" kwargs)))
    /\ trainer_kwargs w'
       = delete "logger" (delete "validation_only" (delete "callbacks" kwargs))
    /\ next_loc w' = S (next_loc w)
    /\ (validation_only = false ->
        exists monitor mode verbose,
          heap w' !! next_loc w
          = Some (ModelCheckpoint monitor mode verbose best_model_path))
    /\ (validation_only = true \/ best_model_path = "" ->
        trained_net out = module)
    /\ trace w'
       = (trace w
          ++ expected_events
               (match validation_data with Some _ => true | None => false end)
               (predictor_network <$> from_predictor) validation_only module
               (next_loc w) (trainer out) ckpt_path best_model_path
               (trained_net out))%list.
Proof.
  destruct validation_data, from_predictor.
  all: exec_train_model.
  all: try (intros ?; discriminate).
  all: intros [= <- <-];
    cbn [trace trainer trained_net next_loc heap trainer_kwargs fmap option_fmap
         option_map].
  all: match goal with
       | |- context [EvCreateModule ?m] => exists m
       end.
  all: eexists.
  all: lazymatch goal with
       | H : String.eqb ?p "" = _ |- _ => exists p
       | _ => exists ""
       end.
  all: (split; [reflexivity|]); (split; [reflexivity|]);
       (split; [reflexivity|]); (split; [reflexivity|]).
  all: split;
    [ intros ?; try discriminate;
      rewrite ?map_lookup_imap, ?lookup_insert_eq; cbn [mbind option_bind];
      repeat match goal with
             | H : bool_decide _ = _ |- _ => rewrite H
             | H : hook_update _ _ _ _ = _ |- _ => rewrite H
             end; eauto |].
  all: split;
    [ intros [?|?]; try discriminate; try reflexivity; subst;
      try match goal with H : String.eqb "" "" = false |- _ => discriminate H end |].
  all: unfold expected_events; rewrite <- ?app_assoc; cbn [app];
    repeat match goal with H : String.eqb _ "" = _ |- _ => rewrite H end;
    try reflexivity.
Qed.

Lemma only_pops_bind {A B} (m : M eworld A) (k : A -> M eworld B) :
  only_pops m -> (forall a, only_pops (k a)) -> only_pops (bind m k).
Proof.
  intros Hm Hk w. unfold bind. specialize (Hm w).
  destruct (m w) as [[a|e] w1]; [|done]. simpl in Hm.
  by etrans; [apply Hk|].
Qed.

Lemma only_pops_log (ev : event) : only_pops (log ev).
Proof. by intros w. Qed.

Lemma only_pops_ecall {A} (f : sys_state -> res A * sys_state) :
  only_pops (ecall f).
Proof. intros w. unfold ecall. by destruct (f (sys w)). Qed.

Lemma only_pops_ret {A} (a : A) : only_pops (ret (W := eworld) a).
Proof. by intros w. Qed.

Lemma only_pops_lift {A} (r : res A) : only_pops (lift (W := eworld) r).
Proof. by intros w. Qed.

Lemma only_pops_kwargs_pop (key : string) (d : pyval) :
  only_pops (kwargs_pop key d).
Proof. intros w. apply delete_subseteq. Qed.

Lemma only_pops_with_hooks (trainer : gmap string pyval)
    (f : sys_state -> res unit * sys_state) : only_pops (with_hooks trainer f).
Proof. intros w. unfold with_hooks. by destruct (f (sys w)). Qed.

Ltac pops :=
  repeat first
    [ apply only_pops_log | apply only_pops_ecall | apply only_pops_ret
    | apply only_pops_lift | apply only_pops_kwargs_pop
    | apply only_pops_with_hooks
    | apply only_pops_bind; [|intros ?]
    | match goal with
      | |- only_pops (match ?x with _ => _ end) => destruct x
      end
    | (intros ?; reflexivity) ].

Lemma only_pops_train_model
    (training_data : Dataset) (validation_data : option Dataset)
    (from_predictor : option Predictor) (shuffle_buffer_length : option Z)
    (cache_data : bool) (ckpt_path : option string) :
  only_pops (train_model training_data validation_data from_predictor
               shuffle_buffer_length cache_data ckpt_path).
Proof.
  unfold train_model, transform, new_trainer, trainer_validate, trainer_fit.
  pops.
Qed.

(** X13. [train_model] uses up the estimator's [trainer_kwargs].  Whatever
    the outcome, it adds no entry and changes none; when it returns, exactly
    ["callbacks"], ["validation_only"] and ["logger"] have been removed from
    the estimator. *)
Theorem trainer_kwargs_are_consumed
    (training_data : Dataset) (validation_data : option Dataset)
    (from_predictor : option Predictor) (shuffle_buffer_length : option Z)
    (cache_data : bool) (ckpt_path : option string) (w : eworld) :
  trainer_kwargs (snd (train_model training_data validation_data
                         from_predictor shuffle_buffer_length cache_data
                         ckpt_path w)) ⊆ trainer_kwargs w
  /\ forall out w',
       train_model training_data validation_data from_predictor
         shuffle_buffer_length cache_data ckpt_path w = (Ok out, w') ->
       trainer_kwargs w'
       = delete "logger" (delete "validation_only"
           (delete "callbacks" (trainer_kwargs w))).
Proof.
  split; [apply only_pops_train_model|].
  intros out w' H.
  by destruct (train_model_returns _ _ _ _ _ _ _ _ _ H)
    as (? & ? & ? & _ & _ & ? & _).
Qed.

Lemma trainer_arguments_lookup (all_callbacks logger : pyval)
    (kwargs : gmap string pyval) (key : string) :
  trainer_arguments all_callbacks logger
    (delete "logger" (delete "validation_only" (delete "callbacks" kwargs)))
  !! key
  = if String.eqb key "callbacks" then Some all_callbacks
    else if String.eqb key "logger" then Some logger
    else if String.eqb key "validation_only" then None
    else if String.eqb key "accelerator"
         then Some (default (VStr "auto") (kwargs !! "accelerator"))
    else kwargs !! key.
Proof.
  unfold trainer_arguments. rewrite lookup_union.
  destruct (String.eqb_spec key "callbacks") as [->|Hc].
  { rewrite !lookup_delete_ne by done. rewrite lookup_delete_eq.
    rewrite lookup_insert_ne by done. by rewrite lookup_insert_eq. }
  destruct (String.eqb_spec key "logger") as [->|Hl].
  { rewrite lookup_delete_eq. rewrite !lookup_insert_ne by done.
    by rewrite lookup_insert_eq. }
  destruct (String.eqb_spec key "validation_only") as [->|Hv].
  { rewrite lookup_delete_ne by done. rewrite lookup_delete_eq.
    by rewrite !lookup_insert_ne by done. }
  rewrite !lookup_delete_ne by done.
  destruct (String.eqb_spec key "accelerator") as [->|Ha].
  { rewrite lookup_insert_eq. by destruct (kwargs !! "accelerator"). }
  rewrite !lookup_insert_ne by done. rewrite lookup_empty.
  by destruct (kwargs !! key).
Qed.

(** X14. The arguments that [pl.Trainer] is constructed with, in a run that
    returns: ["validation_only"] is never passed on; ["logger"] is the
    user's logger or [None]; ["accelerator"] is ["auto"] unless the user set
    one; every other key of [trainer_kwargs] except ["callbacks"] is passed
    as given, and no further key is added. *)
Theorem trainer_arguments_of_a_run
    (training_data : Dataset) (validation_data : option Dataset)
    (from_predictor : option Predictor) (shuffle_buffer_length : option Z)
    (cache_data : bool) (ckpt_path : option string) (w w' : eworld)
    (out : TrainOutput) :
  train_model training_data validation_data from_predictor
    shuffle_buffer_length cache_data ckpt_path w = (Ok out, w') ->
  trainer out !! "validation_only" = None
  /\ trainer out !! "logger"
     = Some (default VNone (trainer_kwargs w !! "logger"))
  /\ trainer out !! "accelerator"
     = Some (default (VStr "auto") (trainer_kwargs w !! "accelerator"))
  /\ forall key,
       key <> "callbacks" -> key <> "logger" -> key <> "validation_only" ->
       key <> "accelerator" ->
       trainer out !! key = trainer_kwargs w !! key.
Proof.
  intros H.
  destruct (train_model_returns _ _ _ _ _ _ _ _ _ H)
    as (module & ac & path & _ & -> & _).
  repeat split; try (by rewrite trainer_arguments_lookup).
  intros key Hc Hl Hv Ha. rewrite trainer_arguments_lookup.
  destruct (String.eqb_spec key "callbacks"); [done|].
  destruct (String.eqb_spec key "logger"); [done|].
  destruct (String.eqb_spec key "validation_only"); [done|].
  by destruct (String.eqb_spec key "accelerator").
Qed.

(** X15. The calls of a run that returns, in order: transformation, module
    and training loader; the validation loader if there is validation data;
    [load_state_dict] if there is a source predictor; the checkpoint
    callback and the trainer; then either one [validate], or one [fit]
    followed by [load_from_checkpoint] exactly when the checkpoint's
    [best_model_path] is not empty after the fit; the predictor last, built
    from the network that is returned. *)
Theorem train_model_call_order
    (training_data : Dataset) (validation_data : option Dataset)
    (from_predictor : option Predictor) (shuffle_buffer_length : option Z)
    (cache_data : bool) (ckpt_path : option string) (w w' : eworld)
    (out : TrainOutput) :
  train_model training_data validation_data from_predictor
    shuffle_buffer_length cache_data ckpt_path w = (Ok out, w') ->
  let validation_only :=
    truthy (default (VBool false) (trainer_kwargs w !! "validation_only")) in
  exists (module : nat) (best_model_path : string),
    trace w'
    = (trace w
       ++ expected_events
            (match validation_data with Some _ => true | None => false end)
            (predictor_network <$> from_predictor) validation_only module
            (next_loc w) (trainer out) ckpt_path best_model_path
            (trained_net out))%list
    /\ (validation_only = false ->
        exists monitor mode verbose,
          heap w' !! next_loc w
          = Some (ModelCheckpoint monitor mode verbose best_model_path))
    /\ (validation_only = true \/ best_model_path = "" ->
        trained_net out = module).
Proof.
  intros H vo.
  destruct (train_model_returns _ _ _ _ _ _ _ _ _ H)
    as (module & ac & path & _ & _ & _ & _ & Hheap & Hnet & Htrace).
  exists module, path. eauto.
Qed.

(** X16. A second [train_model] on the same estimator does not see the
    settings of the first: it is given no logger and no user callbacks, and
    it fits even if the first call was told [validation_only]. *)
Theorem second_call_uses_defaults
    (training_data training_data2 : Dataset)
    (validation_data validation_data2 : option Dataset)
    (from_predictor from_predictor2 : option Predictor)
    (shuffle_buffer_length shuffle_buffer_length2 : option Z)
    (cache_data cache_data2 : bool) (ckpt_path ckpt_path2 : option string)
    (w w1 w2 : eworld) (out out2 : TrainOutput) :
  train_model training_data validation_data from_predictor
    shuffle_buffer_length cache_data ckpt_path w = (Ok out, w1) ->
  train_model training_data2 validation_data2 from_predictor2
    shuffle_buffer_length2 cache_data2 ckpt_path2 w1 = (Ok out2, w2) ->
  trainer out2 !! "logger" = Some VNone
  /\ trainer out2 !! "callbacks"
     = Some (match validation_data2 with
             | None => VRefs [next_loc w1]
             | Some _ => VRefs []
             end)
  /\ exists evs,
       trace w2 = (trace w1 ++ evs)%list
       /\ (exists module, In (EvFit module ckpt_path2) evs)
       /\ forall module p, ~ In (EvValidate module p) evs.
Proof.
  intros H1 H2.
  destruct (train_model_returns _ _ _ _ _ _ _ _ _ H1)
    as (_ & _ & _ & _ & _ & Hkw & _).
  destruct (train_model_returns _ _ _ _ _ _ _ _ _ H2)
    as (module & ac & path & Hac & Htr & _ & _ & _ & _ & Htrace).
  rewrite Hkw in Hac, Htr, Htrace.
  rewrite lookup_delete_ne, lookup_delete_eq in Htrace by done.
  rewrite lookup_delete_eq in Htr.
  rewrite !lookup_delete_ne, lookup_delete_eq in Hac by done.
  cbn [default truthy] in Hac, Htr, Htrace.
  assert (Hcb : ac = match validation_data2 with
                     | None => VRefs [next_loc w1]
                     | Some _ => VRefs []
                     end).
  { destruct validation_data2; [done|]. by injection Hac as <-. }
  split; [by rewrite Htr, trainer_arguments_lookup|].
  split; [by rewrite Htr, trainer_arguments_lookup, Hcb|].
  eexists. split; [exact Htrace|]. unfold expected_events. split.
  - exists module. rewrite !in_app_iff. do 4 right. left. by left.
  - intros m p. rewrite !in_app_iff. simpl.
    destruct validation_data2, from_predictor2, (String.eqb path "");
      simpl; intuition discriminate.
Qed.

(** X17. [train] and [train_from] are [train_model] without and with a
    source predictor.  [train_from] with a predictor that is not a
    [PyTorchPredictor] raises [AssertionError] before anything is done.
    When [train_from] returns, the new module was given the source's state
    once, after the loaders were made and before the checkpoint callback
    and the trainer were; when [train] returns, no state was loaded. *)
Theorem train_and_train_from
    (source : Predictor) (training_data : Dataset)
    (validation_data : option Dataset) (shuffle_buffer_length : option Z)
    (cache_data : bool) (ckpt_path : option string) (w : eworld) :
  (is_pytorch_predictor source = false ->
   train_from source training_data validation_data shuffle_buffer_length
     cache_data ckpt_path w = (Raise AssertionError, w))
  /\ (forall p w',
        train_from source training_data validation_data
          shuffle_buffer_length cache_data ckpt_path w = (Ok p, w') ->
        is_pytorch_predictor source = true
        /\ exists module before after,
             trace w'
             = (trace w ++ before
                ++ EvLoadStateDict module (predictor_network source)
                   :: EvModelCheckpoint (next_loc w)
                        (match validation_data with
                         | None => "train_loss"
                         | Some _ => "val_loss"
                         end)
                   :: after)%list
             /\ In (EvTrainingLoader module) before
             /\ (forall m s, ~ In (EvLoadStateDict m s) before)
             /\ (forall m s, ~ In (EvLoadStateDict m s) after)
             /\ (exists kwargs, In (EvTrainer kwargs) after))
  /\ (forall p w',
        train training_data validation_data shuffle_buffer_length cache_data
          ckpt_path w = (Ok p, w') ->
        exists evs, trace w' = (trace w ++ evs)%list
                    /\ forall m s, ~ In (EvLoadStateDict m s) evs).
Proof.
  split; [|split].
  - unfold train_from. by intros ->.
  - intros p w' H. unfold train_from in H.
    destruct (is_pytorch_predictor source); [|discriminate].
    split; [done|].
    apply bind_ok in H as (out & w1 & H & Hret).
    apply ret_ok in Hret as [_ ->].
    destruct (train_model_returns _ _ _ _ _ _ _ _ _ H)
      as (module & ac & path & _ & _ & _ & _ & _ & _ & Htrace).
    unfold expected_events in Htrace. cbn [fmap option_fmap option_map] in Htrace.
    exists module,
      ([EvCreateTransformation; EvApply false; EvCreateModule module;
        EvTrainingLoader module]
       ++ match validation_data with
          | Some _ => [EvApply true; EvValidationLoader module]
          | None => []
          end)%list.
    eexists. split.
    { rewrite Htrace. f_equal. destruct validation_data; reflexivity. }
    split; [rewrite in_app_iff; left; simpl; tauto|].
    split.
    { intros m s. rewrite in_app_iff. destruct validation_data; simpl;
        intuition discriminate. }
    split.
    { intros m s. simpl. rewrite in_app_iff.
      destruct (truthy _), (String.eqb path ""); simpl; intuition discriminate. }
    eexists. left. reflexivity.
  - intros p w' H. unfold train in H.
    apply bind_ok in H as (out & w1 & H & Hret).
    apply ret_ok in Hret as [_ ->].
    destruct (train_model_returns _ _ _ _ _ _ _ _ _ H)
      as (module & ac & path & _ & _ & _ & _ & _ & _ & Htrace).
    eexists. split; [exact Htrace|].
    intros m s. unfold expected_events. rewrite !in_app_iff. simpl.
    destruct validation_data, (truthy _), (String.eqb path "");
      simpl; intuition discriminate.
Qed.

End EstimatorExtras.

Lemma trainer_kwargs_are_consumed_witness :
  exists out w',
    train_model (E := toy_env) 5%nat None None None false None
      (toy_eworld {[ "callbacks" := VRefs [0%nat]; "max_epochs" := VInt 3 ]})
    = (Ok out, w')
    /\ trainer_kwargs w' !! "callbacks" = None
    /\ trainer_kwargs w' !! "max_epochs" = Some (VInt 3).
Proof.
  destruct (returns_inv (train_model (E := toy_env) 5%nat None None None false
      None (toy_eworld {[ "callbacks" := VRefs [0%nat]; "max_epochs" := VInt 3 ]})))
    as (out & w' & H); [vm_compute; reflexivity|].
  exists out, w'. split; [exact H|].
  rewrite (proj2 (trainer_kwargs_are_consumed (E := toy_env) 5%nat None None
                    None false None _) _ _ H).
  split; reflexivity.
Defined.

Lemma trainer_arguments_of_a_run_witness :
  exists out w',
    train_model (E := toy_env) 5%nat None None None false None
      (toy_eworld {[ "logger" := VStr "tb"; "validation_only" := VBool false;
                     "max_epochs" := VInt 3 ]})
    = (Ok out, w')
    /\ trainer out !! "validation_only" = None
    /\ trainer out !! "logger" = Some (VStr "tb")
    /\ trainer out !! "accelerator" = Some (VStr "auto")
    /\ trainer out !! "max_epochs" = Some (VInt 3).
Proof.
  destruct (returns_inv (train_model (E := toy_env) 5%nat None None None false
      None (toy_eworld {[ "logger" := VStr "tb";
                          "validation_only" := VBool false;
                          "max_epochs" := VInt 3 ]})))
    as (out & w' & H); [vm_compute; reflexivity|].
  destruct (trainer_arguments_of_a_run (E := toy_env) _ _ _ _ _ _ _ _ _ H)
    as (Hv & Hl & Ha & Hrest).
  exists out, w'. split; [exact H|]. split; [exact Hv|].
  split; [exact Hl|]. split; [exact Ha|].
  rewrite (Hrest "max_epochs") by discriminate. reflexivity.
Defined.

Lemma train_model_call_order_witness :
  exists out w' trainer_arguments,
    train_model (E := toy_env) 5%nat (Some 3%nat) (Some 9%nat) None false None
      (toy_eworld ∅) = (Ok out, w')
    /\ trace w'
       = [EvCreateTransformation; EvApply false; EvCreateModule 0;
          EvTrainingLoader 0; EvApply true; EvValidationLoader 0;
          EvLoadStateDict 0 9; EvModelCheckpoint 1 "val_loss";
          EvTrainer trainer_arguments; EvFit 0 None; EvCreatePredictor 0]%nat.
Proof.
  destruct (returns_inv (train_model (E := toy_env) 5%nat (Some 3%nat)
      (Some 9%nat) None false None (toy_eworld ∅)))
    as (out & w' & H); [vm_compute; reflexivity|].
  destruct (train_model_call_order (E := toy_env) _ _ _ _ _ _ _ _ _ H)
    as (module & path & Htrace & Hheap & Hnet).
  exists out, w', (trainer out). split; [exact H|].
  destruct (Hheap eq_refl) as (mon & mode & verb & Hck).
  assert (Hw : heap w' !! 1%nat = Some (ModelCheckpoint "val_loss" "min" true ""))
    by (vm_compute in H; injection H as _ <-; reflexivity).
  cbn [next_loc toy_eworld] in Hck. rewrite Hw in Hck.
  injection Hck as _ _ _ <-.
  rewrite <- (Hnet (or_intror eq_refl)) in Htrace.
  assert (Hm : trained_net out = 0%nat)
    by (vm_compute in H; injection H as <- _; reflexivity).
  rewrite Hm in Htrace. exact Htrace.
Defined.

Lemma second_call_uses_defaults_witness :
  exists out w1 out2 w2,
    train_model (E := toy_env) 5%nat (Some 3%nat) None None false None
      (toy_eworld {[ "callbacks" := VRefs [0%nat]; "logger" := VStr "tb";
                     "validation_only" := VBool true ]}) = (Ok out, w1)
    /\ validate_events (trace w1) = 1%nat
    /\ train_model (E := toy_env) 5%nat (Some 3%nat) None None false None w1
       = (Ok out2, w2)
    /\ trainer out2 !! "logger" = Some VNone
    /\ trainer out2 !! "callbacks" = Some (VRefs [])
    /\ exists evs,
         trace w2 = (trace w1 ++ evs)%list
         /\ (exists module, In (EvFit module None) evs)
         /\ forall module p, ~ In (EvValidate module p) evs.
Proof.
  destruct (returns_inv (train_model (E := toy_env) 5%nat (Some 3%nat) None
      None false None
      (toy_eworld {[ "callbacks" := VRefs [0%nat]; "logger" := VStr "tb";
                     "validation_only" := VBool true ]})))
    as (out & w1 & H1); [vm_compute; reflexivity|].
  destruct (returns_inv (train_model (E := toy_env) 5%nat (Some 3%nat) None
      None false None w1))
    as (out2 & w2 & H2).
  { vm_compute in H1. injection H1 as _ <-. vm_compute. reflexivity. }
  exists out, w1, out2, w2. split; [exact H1|].
  split; [vm_compute in H1; injection H1 as _ <-; reflexivity|].
  split; [exact H2|].
  exact (second_call_uses_defaults (E := toy_env) _ _ _ _ _ _ _ _ _ _ _ _
           _ _ _ _ _ H1 H2).
Defined.

Lemma train_and_train_from_witness :
  train_from (E := toy_env_checked) 100%nat 5%nat None None false None
    (toy_eworld_checked ∅) = (Raise AssertionError, toy_eworld_checked ∅)
  /\ (exists p w' module before after,
        train_from (E := toy_env_checked) 9%nat 5%nat None None false None
          (toy_eworld_checked ∅) = (Ok p, w')
        /\ trace w'
           = ([] ++ before
              ++ EvLoadStateDict module 9%nat
                 :: EvModelCheckpoint 1%nat "train_loss" :: after)%list
        /\ In (EvTrainingLoader module) before)
  /\ exists p w' evs,
       train (E := toy_env_checked) 5%nat None None false None
         (toy_eworld_checked ∅) = (Ok p, w')
       /\ trace w' = ([] ++ evs)%list
       /\ forall m s, ~ In (EvLoadStateDict m s) evs.
Proof.
  split; [|split].
  - apply (proj1 (train_and_train_from (E := toy_env_checked) 100%nat 5%nat
                    None None false None (toy_eworld_checked ∅))).
    reflexivity.
  - destruct (returns_inv (train_from (E := toy_env_checked) 9%nat 5%nat None
        None false None (toy_eworld_checked ∅)))
      as (p & w' & H); [vm_compute; reflexivity|].
    destruct (proj1 (proj2 (train_and_train_from (E := toy_env_checked) 9%nat
                              5%nat None None false None
                              (toy_eworld_checked ∅))) p w' H)
      as (_ & module & before & after & Htrace & Hin & _).
    exists p, w', module, before, after. split; [exact H|].
    split; [exact Htrace | exact Hin].
  - destruct (returns_inv (train (E := toy_env_checked) 5%nat None None false
        None (toy_eworld_checked ∅)))
      as (p & w' & H); [vm_compute; reflexivity|].
    destruct (proj2 (proj2 (train_and_train_from (E := toy_env_checked) 9%nat
                              5%nat None None false None
                              (toy_eworld_checked ∅))) p w' H)
      as (evs & Htrace & Hno).
    exists p, w', evs. split; [exact H|]. split; [exact Htrace | exact Hno].
Defined.
